(** * Verification of the notification-service repository

    The repository holds the deployment wiring (src/app.py,
    src/notification_service_stack.py), a queue/API client used by the
    tests (src/testutils/test_user.py) and the integration tests
    (src/test_api.py).  The service handlers themselves are built from
    ./build/... and are not part of src/: their behaviour is modelled
    from the specification and checked against what the tests assert. *)

From stdpp Require Import base gmap strings list pretty.
From Stdlib Require Import Ascii Sorted.

Set Warnings "-register-all".
Open Scope string_scope.

(* ================================================================== *)
(** ** The deployment stack (src/notification_service_stack.py, src/app.py) *)
(* ================================================================== *)

Module Stack.

(** Python exceptions raised while the constructor runs. *)
Inductive py_exc :=
| NameError (name : string)
| AttributeError (name : string)
| RuntimeError (msg : string)   (* a JavaScript error of the CDK, as jsii raises it *).

(** Evaluation of the constructor: module globals are read-only, the
    instance dictionary of [self] (the set of assigned attribute names) is
    threaded, and a failed lookup raises. *)
Definition M (A : Type) : Type :=
  gset string -> gset string -> py_exc + (A * gset string).

Global Instance M_ret : MRet M := fun A a _ st => inr (a, st).
Global Instance M_bind : MBind M := fun A B k m g st =>
  match m g st with
  | inl e => inl e
  | inr (a, st') => k a g st'
  end.

(** Loading a module-level name: [NameError] when nothing binds it. *)
Definition load_global (n : string) : M unit := fun g st =>
  if decide (n ∈ g) then inr ((), st) else inl (NameError n).

(** Attributes found on the class (CDK [Stack] properties used here). *)
Definition class_attrs : gset string := list_to_set ["region"; "account"].

(** [self.n]: the instance dictionary, then the class. *)
Definition load_attr (n : string) : M unit := fun _ st =>
  if decide (n ∈ st ∪ class_attrs) then inr ((), st) else inl (AttributeError n).

(** [self.n = ...] *)
Definition store_attr (n : string) : M unit := fun _ st => inr ((), {[n]} ∪ st).

(** The names bound by the import block at the top of
    notification_service_stack.py, plus the class itself. *)
Definition module_globals : gset string :=
  list_to_set ["Stack"; "CfnOutput"; "Duration"; "RemovalPolicy"; "dynamodb";
               "_lambda"; "lambda_event_sources"; "apigateway"; "cognito";
               "iam"; "logs"; "Construct"; "os"; "time";
               "NotificationServiceStack"].

(** [RemovalPolicy.DESTROY if self.environment_name == "dev" else RemovalPolicy.RETAIN]:
    the condition reads [self.environment_name], either branch loads [RemovalPolicy]. *)
Definition removal_policy : M unit :=
  _ ← load_attr "environment_name"; load_global "RemovalPolicy".

(** One [dynamodb.Table(self, f"...-{self.environment_name}", ...)] assigned to [self.attr]. *)
Definition create_table (attr : string) : M unit :=
  _ ← load_global "dynamodb";
  _ ← load_attr "environment_name";
  _ ← load_global "dynamodb";
  _ ← removal_policy;
  store_attr attr.

Definition _create_dynamodb_tables : M unit :=
  _ ← create_table "users_table";
  _ ← load_attr "users_table";        (* add_global_secondary_index *)
  _ ← load_global "dynamodb";
  _ ← create_table "templates_table";
  _ ← create_table "preferences_table";
  create_table "config_table".

Definition _create_cognito_user_pool : M unit :=
  _ ← load_global "cognito";
  _ ← load_attr "environment_name";
  _ ← removal_policy;
  _ ← store_attr "user_pool";
  _ ← load_global "cognito";
  _ ← load_attr "environment_name";
  _ ← load_attr "user_pool";
  _ ← load_global "Duration";
  store_attr "user_pool_client".

Definition _create_sqs_queue : M unit :=
  _ ← load_global "sqs";
  _ ← load_attr "environment_name";
  _ ← load_global "Duration";
  _ ← store_attr "dlq";
  _ ← load_global "sqs";
  _ ← load_attr "environment_name";
  _ ← load_global "Duration";
  _ ← load_global "sqs";
  _ ← load_attr "dlq";
  store_attr "notification_queue".

(** One [_lambda.Function(...)] assigned to [self.attr]. *)
Definition create_function (attr : string) : M unit :=
  _ ← load_global "_lambda";
  _ ← load_attr "environment_name";
  _ ← load_global "logs";
  store_attr attr.

Definition _create_lambda_functions : M unit :=
  (* the lambda_environment dict literal, in source order *)
  _ ← load_attr "users_table";
  _ ← load_attr "templates_table";
  _ ← load_attr "preferences_table";
  _ ← load_attr "config_table";
  _ ← load_attr "notification_queue";
  _ ← load_attr "notification_topic";
  _ ← load_attr "user_pool";
  _ ← load_attr "environment_name";
  _ ← load_attr "region";
  (* lambda_role and the grants *)
  _ ← load_global "iam";
  _ ← load_attr "environment_name";
  _ ← load_attr "users_table";
  _ ← load_attr "templates_table";
  _ ← load_attr "preferences_table";
  _ ← load_attr "config_table";
  _ ← load_global "iam";
  _ ← load_attr "user_pool";
  _ ← create_function "user_handler";
  _ ← create_function "template_handler";
  _ ← create_function "preference_handler";
  _ ← create_function "config_handler";
  _ ← create_function "processor_handler";
  _ ← load_attr "notification_queue";
  _ ← load_attr "processor_handler";
  load_global "lambda_event_sources".

Definition _create_api_gateway : M unit :=
  _ ← load_global "apigateway";
  _ ← load_attr "environment_name";
  _ ← load_attr "user_pool";
  _ ← store_attr "authorizer";
  _ ← load_global "apigateway";
  _ ← load_attr "environment_name";
  _ ← load_attr "authorizer";
  _ ← store_attr "api";
  _ ← load_attr "api";
  _ ← load_attr "user_handler";
  _ ← load_attr "template_handler";
  _ ← load_attr "preference_handler";
  load_attr "config_handler".

Definition _create_outputs : M unit :=
  _ ← load_global "CfnOutput";
  _ ← load_attr "api";
  _ ← load_attr "user_pool";
  _ ← load_attr "user_pool_client";
  _ ← load_attr "region";
  _ ← load_attr "account";
  load_attr "notification_queue".

(** [NotificationServiceStack.__init__] after [super().__init__]; the
    CDK part of that call is [stack_base_init] below, and past it nothing
    it assigns is read by the methods. *)
Definition __init__ : M unit :=
  _ ← store_attr "environment_name";
  _ ← _create_dynamodb_tables;
  _ ← _create_cognito_user_pool;
  _ ← _create_sqs_queue;
  _ ← _create_lambda_functions;
  _ ← _create_api_gateway;
  _create_outputs.

(** The methods of the class, i.e. every code path that assigns to [self]. *)
Definition methods : list (M unit) :=
  [__init__; _create_dynamodb_tables; _create_cognito_user_pool; _create_sqs_queue;
   _create_lambda_functions; _create_api_gateway; _create_outputs].

(** *** What [super().__init__(scope, construct_id)] checks (aws-cdk-lib)

    The construct library replaces every [/] of a construct id by [--]
    ([sanitizeId]); a stack created directly under the [App] gets that id
    as its stack name, and the [Stack] constructor raises unless the name
    has at most 128 characters and matches [/^[A-Za-z][A-Za-z0-9-]*$/]. *)
Fixpoint sanitize_id (s : string) : string :=
  match s with
  | EmptyString => EmptyString
  | String c s' => if Ascii.eqb c "/" then String "-" (String "-" (sanitize_id s'))
                   else String c (sanitize_id s')
  end.

Definition is_alpha (c : ascii) : bool :=
  let n := nat_of_ascii c in (Nat.leb 65 n && Nat.leb n 90) || (Nat.leb 97 n && Nat.leb n 122).

Definition is_digit (c : ascii) : bool :=
  let n := nat_of_ascii c in Nat.leb 48 n && Nat.leb n 57.

(** [/^[A-Za-z][A-Za-z0-9-]*$/] *)
Definition stack_name_regex (name : string) : bool :=
  match name with
  | EmptyString => false
  | String c rest =>
      is_alpha c && forallb (fun d => is_alpha d || is_digit d || Ascii.eqb d "-")
                            (String.list_ascii_of_string rest)
  end.

(** The error the [Stack] constructor raises for a stack name, if any. *)
Definition stack_name_error (name : string) : option py_exc :=
  if Nat.ltb 128 (String.length name) then
    Some (RuntimeError ("Stack name must be <= 128 characters. Stack name: '" ++ name ++ "'"))
  else if stack_name_regex name then None
  else Some (RuntimeError ("Stack name must match the regular expression: /^[A-Za-z][A-Za-z0-9-]*$/, got '"
                           ++ name ++ "'")).

Definition stack_base_init (construct_id : string) : option py_exc :=
  stack_name_error (sanitize_id construct_id).

(** src/app.py: [environment_name = os.environ.get('ENVIRONMENT', 'dev')]
    names the stack [f"NotificationService-{environment_name}"] and is
    passed to the constructor; then [app.synth()] (taken to succeed). The
    value of [environment_name] only enters the constructor's f-strings,
    which the attribute-level evaluation [__init__] does not track. *)
Definition stack_id (ENVIRONMENT : option string) : string :=
  "NotificationService-" ++ default "dev" ENVIRONMENT.

Definition app_main (ENVIRONMENT : option string) : py_exc + unit :=
  match stack_base_init (stack_id ENVIRONMENT) with
  | Some e => inl e
  | None =>
      match __init__ module_globals ∅ with
      | inl e => inl e
      | inr _ => inr ()
      end
  end.


(** [m] never adds the attribute [x] to [self]. *)
Definition keeps_out {A} (x : string) (m : M A) : Prop :=
  ∀ g st a st', x ∉ st → m g st = inr (a, st') → x ∉ st'.

Lemma keeps_out_bind {A B} x (m : M A) (k : A → M B) :
  keeps_out x m → (∀ a, keeps_out x (k a)) → keeps_out x (m ≫= k).
Proof.
  intros Hm Hk g st b st' Hx. cbv [mbind M_bind].
  destruct (m g st) as [e|[a st1]] eqn:E; [discriminate|].
  intros Hrun. eapply Hk; [|exact Hrun]. eapply Hm; eauto.
Qed.

Lemma keeps_out_load_global x n : keeps_out x (load_global n).
Proof.
  intros g st a st' Hx. unfold load_global. case_decide; congruence.
Qed.

Lemma keeps_out_load_attr x n : keeps_out x (load_attr n).
Proof.
  intros g st a st' Hx. unfold load_attr. case_decide; congruence.
Qed.

Lemma keeps_out_store_attr x n : n ≠ x → keeps_out x (store_attr n).
Proof.
  intros Hn g st a st' Hx. unfold store_attr. intros [= _ <-]. set_solver.
Qed.

Ltac keeps_out_tac :=
  cbv [__init__ _create_dynamodb_tables _create_cognito_user_pool _create_sqs_queue
       _create_lambda_functions _create_api_gateway _create_outputs
       create_table create_function removal_policy];
  repeat first
    [ apply keeps_out_bind; [| intros ?]
    | apply keeps_out_load_global
    | apply keeps_out_load_attr
    | apply keeps_out_store_attr; discriminate ].

Lemma bind_load_attr {A} n (k : unit → M A) g st :
  (load_attr n ≫= k) g st =
  if decide (n ∈ st ∪ class_attrs) then k () g st else inl (AttributeError n).
Proof. unfold load_attr. cbv [mbind M_bind]. by case_decide. Qed.

(** With the module's own imports, the constructor stops at [sqs]. *)
Lemma init_raises_sqs : __init__ module_globals ∅ = inl (NameError "sqs").
Proof. vm_compute. reflexivity. Qed.

Lemma notification_topic_not_class : "notification_topic" ∉ class_attrs.
Proof. unfold class_attrs. rewrite elem_of_list_to_set. set_solver. Qed.

End Stack.

(* ================================================================== *)
(** ** The queue client (src/testutils/test_user.py) *)
(* ================================================================== *)

Module Queue.

(** The Python values a caller can pass. [PyObject] stands for any object
    [json.dumps] cannot serialise (a set, a datetime, ...). *)
Inductive pyval :=
| PyNone
| PyBool (b : bool)
| PyInt (z : Z)
| PyStr (s : string)
| PyList (xs : list pyval)
| PyTuple (xs : list pyval)
| PyDict (kvs : list (pyval * pyval))
| PyObject (cls : string).

(** JSON documents, as the queue receives them. *)
Inductive json :=
| JNull
| JBool (b : bool)
| JNum (z : Z)
| JStr (s : string)
| JArr (xs : list json)
| JObj (kvs : list (string * json)).

(** How [json.dumps] turns a dictionary key into a string. *)
Definition json_key (k : pyval) : option string :=
  match k with
  | PyStr s => Some s
  | PyNone => Some "null"
  | PyBool true => Some "true"
  | PyBool false => Some "false"
  | PyInt z => Some (pretty z)
  | _ => None
  end.

(** [json.dumps]: [None] when it raises [TypeError]. Lists and tuples
    both become arrays. *)
Fixpoint json_dumps (v : pyval) : option json :=
  match v with
  | PyNone => Some JNull
  | PyBool b => Some (JBool b)
  | PyInt z => Some (JNum z)
  | PyStr s => Some (JStr s)
  | PyList xs | PyTuple xs =>
      JArr <$> (fix go (xs : list pyval) : option (list json) :=
                  match xs with
                  | [] => Some []
                  | x :: xs' => j ← json_dumps x; js ← go xs'; Some (j :: js)
                  end) xs
  | PyDict kvs =>
      JObj <$> (fix go (kvs : list (pyval * pyval)) : option (list (string * json)) :=
                  match kvs with
                  | [] => Some []
                  | (k, x) :: kvs' =>
                      k' ← json_key k; j ← json_dumps x; js ← go kvs'; Some ((k', j) :: js)
                  end) kvs
  | PyObject _ => None
  end.

(** Outcome of a call: the message body handed to [sqs_client.send_message],
    or the exception raised before anything is sent. *)
Inductive send_result :=
| Published (body : json)
| Raised (exc : string).

(** [User.send_notification_to_queue(id, notification_type, recipients, variables=None)];
    the SQS call itself is external and taken to succeed. *)
Definition send_notification_to_queue
    (id notification_type recipients variables : pyval) : send_result :=
  let variables := match variables with PyNone => PyDict [] | v => v end in
  let message_body :=
    PyDict [(PyStr "id", id);
            (PyStr "type", notification_type);
            (PyStr "recipients",
               match recipients with PyList _ => recipients | _ => PyList [recipients] end);
            (PyStr "variables", variables)] in
  match json_dumps message_body with
  | Some body => Published body
  | None => Raised "TypeError"
  end.

Lemma json_dumps_null v : json_dumps v = Some JNull → v = PyNone.
Proof.
  destruct v; simpl; try discriminate; auto;
  match goal with |- (JArr <$> ?o) = _ → _ => destruct o | |- (JObj <$> ?o) = _ → _ => destruct o end;
  discriminate.
Qed.


Lemma json_dumps_singleton v j :
  json_dumps (PyList [v]) = Some j → ∃ jv, json_dumps v = Some jv ∧ j = JArr [jv].
Proof. simpl. destruct (json_dumps v); simpl; [intros [= <-]; eauto | discriminate]. Qed.

Lemma json_dumps_list xs j : json_dumps (PyList xs) = Some j → ∃ js, j = JArr js.
Proof.
  simpl. match goal with |- (JArr <$> ?o) = _ → _ => destruct o end;
  simpl; [intros [= <-]; eauto | discriminate].
Qed.

Lemma json_dumps_dict kvs j : json_dumps (PyDict kvs) = Some j → ∃ jkvs, j = JObj jkvs.
Proof.
  simpl. match goal with |- (JObj <$> ?o) = _ → _ => destruct o end;
  simpl; [intros [= <-]; eauto | discriminate].
Qed.

End Queue.

(* ================================================================== *)
(** ** The service (handlers built from ./build/..., not under src/) *)
(* ================================================================== *)

Module Service.

Inductive role := user | super_admin.

Record actor := { actor_userId : string; actor_role : role }.

Inductive channel := email | slack | in_app.

Global Instance channel_eq_dec : EqDecision channel.
Proof. solve_decision. Defined.

Definition channel_name (ch : channel) : string :=
  match ch with email => "email" | slack => "slack" | in_app => "in_app" end.

Definition parse_channel (s : string) : option channel :=
  if String.eqb s "email" then Some email
  else if String.eqb s "slack" then Some slack
  else if String.eqb s "in_app" then Some in_app
  else None.

Definition notification_types : list string := ["alert"; "report"; "notification"].

(** SystemConfig [config]: one sub-object per channel, every field optional. *)
Record email_config := {
  fromAddress : option string; replyToAddress : option string; email_enabled : option bool }.
Record slack_config := { webhookUrl : option string; slack_enabled : option bool }.
Record inapp_config := { platformAppIds : option (list string); inapp_enabled : option bool }.
Record sys_config := {
  cfg_email : email_config; cfg_slack : slack_config; cfg_inApp : inapp_config }.

Record config_record := {
  config_context : string; config : sys_config; description : option string }.

Record pref_entry := { channels : list channel; enabled : bool }.

Record pref_record := {
  pref_context : string; preferences : gmap string pref_entry;
  timezone : option string; language : option string }.

Record user_record := {
  userId : string; user_email : string; user_role : role; isActive : bool }.

Inductive sched_status := active | paused.

Record scheduled_notification := {
  scheduleId : string; sched_userId : string; sched_type : string;
  sched_variables : list (string * string); expression : string;
  status : sched_status }.

(** DeliveryRecord: [content] on success, [error] on failure. *)
Inductive delivery := Delivered (content : string) | DeliveryError (error : string).

Record store := {
  users : gmap string user_record;
  templates : gmap (string * string) string;   (* (context, type#channel) -> content *)
  prefs : gmap string pref_record;
  configs : gmap string config_record;
  schedules : gmap string scheduled_notification;
  ledger : gmap (string * string * string * string) delivery  (* id#userId#type#channel *)
}.

Definition set_templates t s :=
  {| users := users s; templates := t; prefs := prefs s; configs := configs s;
     schedules := schedules s; ledger := ledger s |}.
Definition set_prefs p s :=
  {| users := users s; templates := templates s; prefs := p; configs := configs s;
     schedules := schedules s; ledger := ledger s |}.
Definition set_configs c s :=
  {| users := users s; templates := templates s; prefs := prefs s; configs := c;
     schedules := schedules s; ledger := ledger s |}.
Definition set_schedules sc s :=
  {| users := users s; templates := templates s; prefs := prefs s; configs := configs s;
     schedules := sc; ledger := ledger s |}.
Definition set_ledger l s :=
  {| users := users s; templates := templates s; prefs := prefs s; configs := configs s;
     schedules := schedules s; ledger := l |}.

(** Error taxonomy of the spec (section 7) and the status codes the tests expect. *)
Inductive api_error :=
| ValidationError (msg : string)
| ForbiddenField (field : string)
| AuthorizationError
| NotFound
| Conflict.

Definition error_status (e : api_error) : nat :=
  match e with
  | ValidationError _ => 400 | ForbiddenField _ => 403 | AuthorizationError => 403
  | NotFound => 404 | Conflict => 400
  end.

(** A handled call: the success status with the new store, or an error
    (the store is then unchanged). *)
Inductive result := Ok (code : nat) (s : store) | Err (e : api_error).

Definition status_of (r : result) : nat :=
  match r with Ok c _ => c | Err e => error_status e end.

(** Modelled from the spec: the Authorization Guard (section 4.1). The
    empty string names the caller's own context. *)
Definition target_context (a : actor) (ctx : string) : string :=
  if String.eqb ctx "" then actor_userId a else ctx.

Definition authorize (a : actor) (ctx : string) : bool :=
  match actor_role a with
  | super_admin => true
  | user => String.eqb (target_context a ctx) (actor_userId a)
  end.

Definition authorize_list (a : actor) : bool :=
  match actor_role a with super_admin => true | user => false end.

(** Update strategy: full replacement for the global context written by a
    super_admin, partial merge otherwise (spec sections 4.2 and 9). *)
Inductive merge_strategy := PartialMerge | FullReplace.

Definition strategy_of (a : actor) (ctx : string) : merge_strategy :=
  match actor_role a with
  | super_admin => if String.eqb ctx "*" then FullReplace else PartialMerge
  | user => PartialMerge
  end.

Definition merge_field {A} (new old : option A) : option A :=
  match new with Some x => Some x | None => old end.

Definition merge_config (old new : sys_config) : sys_config :=
  {| cfg_email :=
       {| fromAddress := merge_field (fromAddress (cfg_email new)) (fromAddress (cfg_email old));
          replyToAddress := merge_field (replyToAddress (cfg_email new)) (replyToAddress (cfg_email old));
          email_enabled := merge_field (email_enabled (cfg_email new)) (email_enabled (cfg_email old)) |};
     cfg_slack :=
       {| webhookUrl := merge_field (webhookUrl (cfg_slack new)) (webhookUrl (cfg_slack old));
          slack_enabled := merge_field (slack_enabled (cfg_slack new)) (slack_enabled (cfg_slack old)) |};
     cfg_inApp :=
       {| platformAppIds := merge_field (platformAppIds (cfg_inApp new)) (platformAppIds (cfg_inApp old));
          inapp_enabled := merge_field (inapp_enabled (cfg_inApp new)) (inapp_enabled (cfg_inApp old)) |} |}.

(** Modelled from the spec: the field-level write rules for SystemConfig
    (section 4.2). The spec's list of fields a non-admin may not set also
    names [slack.webhookUrl] and [inApp.platformAppIds], but its read-side
    rule takes those fields from the user-scoped config only, and the tests
    store them for a non-admin (test_api.py:372-380, 534-535); the model
    follows the tests: a non-admin may not set the email addresses, and
    the global context may not hold the webhook URL or the app ids. *)
Definition config_violation (a : actor) (ctx : string) (c : sys_config) : option string :=
  if String.eqb ctx "*" then
    if is_Some_dec (webhookUrl (cfg_slack c)) then Some "slack.webhookUrl"
    else if is_Some_dec (platformAppIds (cfg_inApp c)) then Some "inApp.platformAppIds"
    else None
  else
    match actor_role a with
    | super_admin => None
    | user =>
        if is_Some_dec (fromAddress (cfg_email c)) then Some "email.fromAddress"
        else if is_Some_dec (replyToAddress (cfg_email c)) then Some "email.replyToAddress"
        else None
    end.

(** Request bodies. [None] is a field left out of the JSON body. *)
Record config_payload := { cp_config : option sys_config; cp_description : option string }.

Record pref_payload := {
  pp_preferences : option (list (string * (list string * bool)));
  pp_timezone : option string; pp_language : option string }.

(** Modelled from the spec: preference validation (section 4.2): every
    notification type and every channel must be a known one. *)
Definition parse_pref_entry (tc : string * (list string * bool)) : option (string * pref_entry) :=
  let '(ty, (chs, en)) := tc in
  if bool_decide (ty ∈ notification_types) then
    chs' ← mapM parse_channel chs; Some (ty, {| channels := chs'; enabled := en |})
  else None.

Definition parse_preferences (p : list (string * (list string * bool)))
    : option (gmap string pref_entry) :=
  list_to_map <$> mapM parse_pref_entry p.

(** Modelled from the spec: the SystemConfig handler (sections 4.2 and 7).
    [ctx] is the resolved target context. Validation precedes the
    store access: create is a conditional put (conflict when present),
    update/delete/get need an existing record. *)
Definition create_config (a : actor) (ctx : string) (p : config_payload) (s : store) : result :=
  match cp_config p with
  | None => Err (ValidationError "config is required")
  | Some c =>
      match config_violation a ctx c with
      | Some f => Err (ForbiddenField f)
      | None =>
          match configs s !! ctx with
          | Some _ => Err Conflict
          | None =>
              Ok 201 (set_configs (<[ctx := {| config_context := ctx; config := c;
                                               description := cp_description p |}]> (configs s)) s)
          end
      end
  end.

Definition update_config (a : actor) (ctx : string) (p : config_payload) (s : store) : result :=
  match cp_config p, cp_description p with
  | None, None => Err (ValidationError "no fields to update")
  | _, _ =>
      match cp_config p ≫= config_violation a ctx with
      | Some f => Err (ForbiddenField f)
      | None =>
          match configs s !! ctx with
          | None => Err NotFound
          | Some old =>
              let new_config :=
                match cp_config p with
                | None => config old
                | Some c =>
                    match strategy_of a ctx with
                    | FullReplace => c
                    | PartialMerge => merge_config (config old) c
                    end
                end in
              Ok 200 (set_configs (<[ctx := {| config_context := ctx; config := new_config;
                                               description := merge_field (cp_description p) (description old) |}]>
                                     (configs s)) s)
          end
      end
  end.

Definition get_config (ctx : string) (s : store) : result :=
  match configs s !! ctx with None => Err NotFound | Some _ => Ok 200 s end.

Definition delete_config (ctx : string) (s : store) : result :=
  match configs s !! ctx with
  | None => Err NotFound
  | Some _ => Ok 200 (set_configs (delete ctx (configs s)) s)
  end.

(** Modelled from the spec: the Preference handler (sections 4.2 and 7). *)
Definition create_preferences (a : actor) (ctx : string) (p : pref_payload) (s : store) : result :=
  match pp_preferences p with
  | None => Err (ValidationError "preferences are required")
  | Some raw =>
      match parse_preferences raw with
      | None => Err (ValidationError "invalid notification type or channel")
      | Some m =>
          match prefs s !! ctx with
          | Some _ => Err Conflict
          | None =>
              Ok 201 (set_prefs (<[ctx := {| pref_context := ctx; preferences := m;
                                            timezone := pp_timezone p; language := pp_language p |}]>
                                   (prefs s)) s)
          end
      end
  end.

Definition update_preferences (a : actor) (ctx : string) (p : pref_payload) (s : store) : result :=
  match pp_preferences p, pp_timezone p, pp_language p with
  | None, None, None => Err (ValidationError "no fields to update")
  | _, _, _ =>
      match match pp_preferences p with
            | None => Some None
            | Some raw => Some <$> parse_preferences raw
            end with
      | None => Err (ValidationError "invalid notification type or channel")
      | Some parsed =>
          match prefs s !! ctx with
          | None => Err NotFound
          | Some old =>
              let new_prefs :=
                match parsed with
                | None => preferences old
                | Some m =>
                    match strategy_of a ctx with
                    | FullReplace => m
                    | PartialMerge => m ∪ preferences old
                    end
                end in
              Ok 200 (set_prefs (<[ctx := {| pref_context := ctx; preferences := new_prefs;
                                            timezone := merge_field (pp_timezone p) (timezone old);
                                            language := merge_field (pp_language p) (language old) |}]>
                                   (prefs s)) s)
          end
      end
  end.

Definition get_preferences (ctx : string) (s : store) : result :=
  match prefs s !! ctx with None => Err NotFound | Some _ => Ok 200 s end.

Definition delete_preferences (ctx : string) (s : store) : result :=
  match prefs s !! ctx with
  | None => Err NotFound
  | Some _ => Ok 200 (set_prefs (delete ctx (prefs s)) s)
  end.

(** Modelled from the spec: the Template handler (sections 3 and 4.3);
    templates are keyed by (context, type#channel). *)
Definition template_key (ty : string) (ch : channel) : string := ty ++ "#" ++ channel_name ch.

Definition check_template (ty chs content : string) : option channel :=
  if bool_decide (ty ∈ notification_types) && negb (String.eqb content "")
  then parse_channel chs else None.

Definition create_template (ctx ty chs content : string) (s : store) : result :=
  match check_template ty chs content with
  | None => Err (ValidationError "invalid template")
  | Some ch =>
      match templates s !! (ctx, template_key ty ch) with
      | Some _ => Err Conflict
      | None => Ok 201 (set_templates (<[(ctx, template_key ty ch) := content]> (templates s)) s)
      end
  end.

Definition update_template (ctx ty chs content : string) (s : store) : result :=
  match check_template ty chs content with
  | None => Err (ValidationError "invalid template")
  | Some ch =>
      match templates s !! (ctx, template_key ty ch) with
      | None => Err NotFound
      | Some _ => Ok 200 (set_templates (<[(ctx, template_key ty ch) := content]> (templates s)) s)
      end
  end.

Definition get_template (ctx ty chs : string) (s : store) : result :=
  match parse_channel chs with
  | None => Err (ValidationError "invalid channel")
  | Some ch => match templates s !! (ctx, template_key ty ch) with
               | None => Err NotFound | Some _ => Ok 200 s end
  end.

Definition delete_template (ctx ty chs : string) (s : store) : result :=
  match parse_channel chs with
  | None => Err (ValidationError "invalid channel")
  | Some ch =>
      match templates s !! (ctx, template_key ty ch) with
      | None => Err NotFound
      | Some _ => Ok 200 (set_templates (delete (ctx, template_key ty ch) (templates s)) s)
      end
  end.

Definition get_user (uid : string) (s : store) : result :=
  match users s !! uid with None => Err NotFound | Some _ => Ok 200 s end.

(** The API operations of section 6. *)
Inductive request :=
| GetUser (uid : string)
| ListUsers
| CreateTemplate (ctx ty ch content : string)
| GetTemplate (ctx ty ch : string)
| UpdateTemplate (ctx ty ch content : string)
| DeleteTemplate (ctx ty ch : string)
| ListTemplates (ctx : string)
| CreatePreferences (ctx : string) (p : pref_payload)
| GetPreferences (ctx : string)
| UpdatePreferences (ctx : string) (p : pref_payload)
| DeletePreferences (ctx : string)
| ListPreferences
| CreateConfig (ctx : string) (p : config_payload)
| GetConfig (ctx : string)
| UpdateConfig (ctx : string) (p : config_payload)
| DeleteConfig (ctx : string)
| ListConfigs.

(** The context a request targets; [None] for the listings over all records. *)
Definition request_context (r : request) : option string :=
  match r with
  | GetUser uid => Some uid
  | CreateTemplate ctx _ _ _ | GetTemplate ctx _ _ | UpdateTemplate ctx _ _ _
  | DeleteTemplate ctx _ _ | ListTemplates ctx
  | CreatePreferences ctx _ | GetPreferences ctx | UpdatePreferences ctx _
  | DeletePreferences ctx
  | CreateConfig ctx _ | GetConfig ctx | UpdateConfig ctx _ | DeleteConfig ctx => Some ctx
  | ListUsers | ListPreferences | ListConfigs => None
  end.

(** The operation once the guard has allowed it, on the resolved context. *)
Definition dispatch (a : actor) (ctx : string) (r : request) (s : store) : result :=
  match r with
  | GetUser _ => get_user ctx s
  | CreateTemplate _ ty ch c => create_template ctx ty ch c s
  | GetTemplate _ ty ch => get_template ctx ty ch s
  | UpdateTemplate _ ty ch c => update_template ctx ty ch c s
  | DeleteTemplate _ ty ch => delete_template ctx ty ch s
  | CreatePreferences _ p => create_preferences a ctx p s
  | GetPreferences _ => get_preferences ctx s
  | UpdatePreferences _ p => update_preferences a ctx p s
  | DeletePreferences _ => delete_preferences ctx s
  | CreateConfig _ p => create_config a ctx p s
  | GetConfig _ => get_config ctx s
  | UpdateConfig _ p => update_config a ctx p s
  | DeleteConfig _ => delete_config ctx s
  | ListTemplates _ | ListUsers | ListPreferences | ListConfigs => Ok 200 s
  end.

(** Modelled from the spec: one API call: the guard first, then the handler. *)
Definition handle (a : actor) (r : request) (s : store) : result :=
  match request_context r with
  | Some ctx => if authorize a ctx then dispatch a (target_context a ctx) r s
                else Err AuthorizationError
  | None => if authorize_list a then dispatch a "" r s else Err AuthorizationError
  end.

(** *** Rendering *)

(** Plain, left-to-right, non-overlapping replacement of every occurrence
    of [pat] (Go's [strings.ReplaceAll]); [fuel] bounds the scan. *)
Fixpoint replace_all_fuel (fuel : nat) (pat rep s : string) : string :=
  match fuel with
  | O => s
  | S fuel' =>
      match s with
      | EmptyString => EmptyString
      | String c s' =>
          if String.prefix pat s
          then rep ++ replace_all_fuel fuel' pat rep
                        (String.substring (String.length pat) (String.length s) s)
          else String c (replace_all_fuel fuel' pat rep s')
      end
  end.

Definition replace_all (pat rep s : string) : string :=
  replace_all_fuel (String.length s) pat rep s.

Definition placeholder (name : string) : string := "{{" ++ name ++ "}}".

(** Modelled from the spec: rendering (section 4.3): each variable's
    placeholder is replaced by its value; nothing else is touched. *)
Definition render (variables : list (string * string)) (content : string) : string :=
  fold_left (fun acc '(k, v) => replace_all (placeholder k) v acc) variables content.

(** *** Email content as the ledger records it *)

Definition dquote : ascii := "034".
Definition bslash : ascii := "092".

Definition is_ws (c : ascii) : bool :=
  match c with " "%char | "010"%char | "013"%char | "009"%char => true | _ => false end.

Fixpoint skip_ws (s : string) : string :=
  match s with
  | String c s' => if is_ws c then skip_ws s' else s
  | EmptyString => EmptyString
  end.

(** The characters the re-serialisation below writes as they are: printable
    ASCII other than the quote, the backslash, [/] and [< > &], i.e. those
    that the common JSON encoders leave unescaped in their default and
    HTML-safe settings. *)
Definition plain_char (c : ascii) : bool :=
  let n := nat_of_ascii c in
  Nat.leb 32 n && Nat.leb n 126
  && negb (Ascii.eqb c dquote || Ascii.eqb c bslash || Ascii.eqb c "/"
           || Ascii.eqb c "<" || Ascii.eqb c ">" || Ascii.eqb c "&").

(** The body of a JSON string after its opening quote, made of plain
    characters: its characters and the input after the closing quote. *)
Fixpoint parse_str_body (s : string) : option (string * string) :=
  match s with
  | EmptyString => None
  | String c s' =>
      if Ascii.eqb c dquote then Some (EmptyString, s')
      else if plain_char c then '(body, rest) ← parse_str_body s'; Some (String c body, rest)
      else None
  end.

Definition parse_string (s : string) : option (string * string) :=
  match skip_ws s with
  | String q s' => if Ascii.eqb q dquote then parse_str_body s' else None
  | EmptyString => None
  end.

Definition expect (c : ascii) (s : string) : option string :=
  match skip_ws s with
  | String c' s' => if Ascii.eqb c c' then Some s' else None
  | EmptyString => None
  end.

(** The members of an object of string fields, up to the closing brace. *)
Fixpoint parse_members (fuel : nat) (s : string) : option (list (string * string) * string) :=
  match fuel with
  | O => None
  | S fuel' =>
      '(k, s1) ← parse_string s;
      s2 ← expect ":" s1;
      '(v, s3) ← parse_string s2;
      match skip_ws s3 with
      | String c s4 =>
          if Ascii.eqb c "," then '(kvs, s5) ← parse_members fuel' s4; Some ((k, v) :: kvs, s5)
          else if Ascii.eqb c "}" then Some ([(k, v)], s4)
          else None
      | EmptyString => None
      end
  end.

(** A JSON object of plain string members with distinct keys, with
    whitespace anywhere between tokens. *)
Definition parse_object (s : string) : option (list (string * string)) :=
  s1 ← expect "{" s;
  match skip_ws s1 with
  | String "}" rest => if String.eqb (skip_ws rest) "" then Some [] else None
  | _ => '(kvs, rest) ← parse_members (String.length s1) s1;
         if String.eqb (skip_ws rest) "" && bool_decide (NoDup kvs.*1) then Some kvs else None
  end.

Fixpoint string_leb (a b : string) : bool :=
  match a, b with
  | EmptyString, _ => true
  | String _ _, EmptyString => false
  | String c a', String d b' =>
      if Nat.ltb (nat_of_ascii c) (nat_of_ascii d) then true
      else if Nat.eqb (nat_of_ascii c) (nat_of_ascii d) then string_leb a' b'
      else false
  end.

Fixpoint insert_sorted (kv : string * string) (kvs : list (string * string)) :=
  match kvs with
  | [] => [kv]
  | kv' :: rest => if string_leb kv.1 kv'.1 then kv :: kvs else kv' :: insert_sorted kv rest
  end.

Definition sort_keys (kvs : list (string * string)) : list (string * string) :=
  fold_right insert_sorted [] kvs.

(** A plain string needs no escape. *)
Definition quote (s : string) : string := String dquote (s ++ String dquote EmptyString).

Fixpoint join_members (kvs : list (string * string)) : string :=
  match kvs with
  | [] => ""
  | [(k, v)] => quote k ++ ":" ++ quote v
  | (k, v) :: rest => quote k ++ ":" ++ quote v ++ "," ++ join_members rest
  end.

(** Modelled from the spec: the email branch of delivery. The spec says
    the rendered string is returned as-is; the ledger entry the tests
    expect for an email template (test_api.py:737-739) is the compact
    re-serialisation of the rendered JSON object with its keys sorted.
    The definition follows the tests on the objects whose re-serialisation
    that one case determines: string members with distinct keys and plain
    characters (no escape in or out). Any other rendering is kept as it
    is, as the spec says; what the service does with those is not settled
    by the tests. *)
Definition email_content (rendered : string) : string :=
  match parse_object rendered with
  | Some kvs => "{" ++ join_members (sort_keys kvs) ++ "}"
  | None => rendered
  end.

Definition delivered_content (ch : channel) (rendered : string) : string :=
  match ch with email => email_content rendered | _ => rendered end.

(** *** Fan-Out Processor *)

(** A queue message [{id, type, recipients, variables}]. *)
Record notification := {
  n_id : string; n_type : string; recipients : list string;
  n_variables : list (string * string) }.

(** Modelled from the spec: template resolution (section 4.3): the
    recipient's own template, else the global one. *)
Definition resolve_template (s : store) (uid ty : string) (ch : channel) : option string :=
  match templates s !! (uid, template_key ty ch) with
  | Some content => Some content
  | None => templates s !! ("*", template_key ty ch)
  end.

Definition config_channel_enabled (c : sys_config) (ch : channel) : option bool :=
  match ch with
  | email => email_enabled (cfg_email c)
  | slack => slack_enabled (cfg_slack c)
  | in_app => inapp_enabled (cfg_inApp c)
  end.

(** A channel's [enabled] flag in a SystemConfig record; a missing record
    or flag does not disable the channel (the tests deliver to users
    without any config record, test_api.py:729-735). *)
Definition config_flag (r : option config_record) (ch : channel) : bool :=
  match r with
  | None => true
  | Some r => default true (config_channel_enabled (config r) ch)
  end.

(** Modelled from the spec: the recipient's effective preference for a
    type: their own entry, else the global one (the tests deliver to a
    recipient without preferences through the global ones,
    test_api.py:733-735). *)
Definition effective_preference (s : store) (uid ty : string) : option pref_entry :=
  match prefs s !! uid ≫= (fun r => preferences r !! ty) with
  | Some e => Some e
  | None => prefs s !! "*" ≫= (fun r => preferences r !! ty)
  end.

Definition ledger_key (n : notification) (uid : string) (ch : channel) :=
  (n_id n, uid, n_type n, channel_name ch).

Definition delivery_outcome (s : store) (n : notification) (uid : string) (ch : channel) : delivery :=
  match resolve_template s uid (n_type n) ch with
  | Some content => Delivered (delivered_content ch (render (n_variables n) content))
  | None => DeliveryError "template not found"
  end.

(** Modelled from the spec: steps 2-4 of section 4.4 for one channel. *)
Definition deliver_channel (s : store) (n : notification) (uid : string)
    (l : gmap (string * string * string * string) delivery) (ch : channel) :=
  if config_flag (configs s !! "*") ch && config_flag (configs s !! uid) ch
  then <[ledger_key n uid ch := delivery_outcome s n uid ch]> l
  else l.

(** Modelled from the spec: step 1 of section 4.4 for one recipient. *)
Definition deliver_recipient (s : store) (n : notification)
    (l : gmap (string * string * string * string) delivery) (uid : string) :=
  match effective_preference s uid (n_type n) with
  | Some e => if enabled e then fold_left (deliver_channel s n uid) (channels e) l else l
  | None => l
  end.

(** Modelled from the spec: one notification request of a batch. *)
Definition process_notification (s : store) (n : notification) : store :=
  set_ledger (fold_left (deliver_recipient s n) (recipients n) (ledger s)) s.

(** *** Scheduler *)

(** Requests on scheduled notifications. *)
Inductive sched_request :=
| CreateSchedule (ty : string) (vars : list (string * string)) (cron : string)
| GetSchedule (sid : string)
| PauseSchedule (sid : string)
| ResumeSchedule (sid : string)
| UpdateSchedule (sid : string) (vars : option (list (string * string))) (cron : option string)
| DeleteSchedule (sid : string).

Definition with_status (sn : scheduled_notification) (st : sched_status) :=
  {| scheduleId := scheduleId sn; sched_userId := sched_userId sn; sched_type := sched_type sn;
     sched_variables := sched_variables sn; expression := expression sn; status := st |}.

Definition with_update (sn : scheduled_notification) vars cron :=
  {| scheduleId := scheduleId sn; sched_userId := sched_userId sn; sched_type := sched_type sn;
     sched_variables := default (sched_variables sn) vars;
     expression := default (expression sn) cron; status := status sn |}.

Definition owns (a : actor) (sn : scheduled_notification) : bool :=
  match actor_role a with
  | super_admin => true
  | user => String.eqb (sched_userId sn) (actor_userId a)
  end.

(** Modelled from the spec: the scheduler's state machine (section 4.5).
    [fresh] is the generated scheduleId of a create. *)
Definition handle_schedule (a : actor) (fresh : string) (r : sched_request) (s : store) : result :=
  let on_existing (sid : string) (k : scheduled_notification -> result) :=
    match schedules s !! sid with
    | None => Err NotFound
    | Some sn => if owns a sn then k sn else Err AuthorizationError
    end in
  match r with
  | CreateSchedule ty vars cron =>
      if bool_decide (ty ∈ notification_types) then
        Ok 201 (set_schedules (<[fresh := {| scheduleId := fresh; sched_userId := actor_userId a;
                                             sched_type := ty; sched_variables := vars;
                                             expression := cron; status := active |}]>
                                 (schedules s)) s)
      else Err (ValidationError "invalid notification type")
  | GetSchedule sid => on_existing sid (fun _ => Ok 200 s)
  | PauseSchedule sid =>
      on_existing sid (fun sn =>
        match status sn with
        | active => Ok 200 (set_schedules (<[sid := with_status sn paused]> (schedules s)) s)
        | paused => Err (ValidationError "schedule is not active")
        end)
  | ResumeSchedule sid =>
      on_existing sid (fun sn =>
        match status sn with
        | paused => Ok 200 (set_schedules (<[sid := with_status sn active]> (schedules s)) s)
        | active => Err (ValidationError "schedule is not paused")
        end)
  | UpdateSchedule sid vars cron =>
      on_existing sid (fun sn =>
        Ok 200 (set_schedules (<[sid := with_update sn vars cron]> (schedules s)) s))
  | DeleteSchedule sid =>
      on_existing sid (fun _ => Ok 200 (set_schedules (delete sid (schedules s)) s))
  end.

Section Trigger.
(** Whether a cron expression fires at a given instant (external). *)
Variable cron_matches : string -> nat -> bool.

(** Modelled from the spec: the requests emitted at instant [t]: one per
    active schedule whose expression fires, addressed to its owner. The
    notification id is the scheduleId, as test_api.py:871 reads it. *)
Definition trigger (t : nat) (s : store) : list notification :=
  (fun '(sid, sn) => {| n_id := sid; n_type := sched_type sn;
                        recipients := [sched_userId sn];
                        n_variables := sched_variables sn |})
    <$> List.filter (fun '(_, sn) =>
                       match status sn with
                       | active => cron_matches (expression sn) t
                       | paused => false
                       end)
                    (map_to_list (schedules s)).
End Trigger.

End Service.

(* ================================================================== *)
(** ** Fixtures from test_api.py *)
(* ================================================================== *)

Module Fixtures.
Import Service.

(** [jq s] is [s] with every backtick turned into a double quote, to write
    JSON literals. *)
Fixpoint jq (s : string) : string :=
  match s with
  | EmptyString => EmptyString
  | String c s' => String (if Ascii.eqb c "`" then dquote else c) (jq s')
  end.

Definition empty_store : store :=
  {| users := ∅; templates := ∅; prefs := ∅; configs := ∅; schedules := ∅; ledger := ∅ |}.

Definition admin : actor := {| actor_userId := "admin-1"; actor_role := super_admin |}.
Definition alice : actor := {| actor_userId := "user-1"; actor_role := user |}.

Definition no_email : email_config := {| fromAddress := None; replyToAddress := None; email_enabled := None |}.
Definition no_slack : slack_config := {| webhookUrl := None; slack_enabled := None |}.
Definition no_inapp : inapp_config := {| platformAppIds := None; inapp_enabled := None |}.

(** The global config of test_api.py:668-670. *)
Definition global_config : sys_config :=
  {| cfg_email := {| fromAddress := Some "notifications@company.com";
                     replyToAddress := Some "noreply@company.com"; email_enabled := Some true |};
     cfg_slack := {| webhookUrl := None; slack_enabled := Some true |};
     cfg_inApp := {| platformAppIds := None; inapp_enabled := Some true |} |}.

Definition report_email_template : string :=
  jq "{`subject`: `There is a report in {{reportType}} for {{period}}`, `body`: `There is a report in {{reportType}} for {{period}} with data {{data}}`}".

(** The templates, preferences and config set up at test_api.py:645-678. *)
Definition publishing_store : store :=
  {| users := ∅;
     templates := list_to_map
       [(("*", "alert#email"), jq "{`subject`: `There is an alert in {{serverName}} in {{environment}}`, `body`: `There is an alert in {{serverName}} in {{environment}} with status {{status}} and message {{message}}`}");
        (("*", "alert#slack"), "Alert: {{serverName}} is {{status}} in {{environment}} with message {{message}}");
        (("*", "alert#in_app"), "Alert: {{serverName}} is {{status}} in {{environment}} with message {{message}}");
        (("*", "report#email"), report_email_template);
        (("*", "report#slack"), "Report: {{reportType}} for {{period}} is {{data}}");
        (("*", "report#in_app"), "Report: {{reportType}} for {{period}} is {{data}}");
        (("*", "notification#email"), jq "{`subject`: `There is a notification in {{title}}`, `body`: `There is a notification in {{title}} with message {{message}} and action url {{actionUrl}}`}");
        (("*", "notification#slack"), "Notification: {{title}} is {{message}} with {{actionUrl}}");
        (("*", "notification#in_app"), "Notification: {{title}} is {{message}} with {{actionUrl}}");
        (("user-1", "notification#in_app"), "User Notification: {{title}} is {{message}} with {{actionUrl}}")];
     prefs := list_to_map
       [("*", {| pref_context := "*";
                 preferences := list_to_map
                   [("alert", {| channels := [email; slack; in_app]; enabled := true |});
                    ("report", {| channels := [email; slack; in_app]; enabled := true |});
                    ("notification", {| channels := [email; slack; in_app]; enabled := true |})];
                 timezone := Some "UTC"; language := Some "en" |});
        ("user-1", {| pref_context := "user-1";
                      preferences := list_to_map
                        [("alert", {| channels := [email; slack]; enabled := true |});
                         ("report", {| channels := [slack; in_app]; enabled := true |});
                         ("notification", {| channels := [in_app]; enabled := true |})];
                      timezone := Some "UTC"; language := Some "en" |})];
     configs := {[ "*" := {| config_context := "*"; config := global_config;
                             description := Some "Global config" |} ]};
     schedules := ∅; ledger := ∅ |}.

Definition alert_vars : list (string * string) :=
  [("serverName", "web-server-01"); ("environment", "production");
   ("status", "critical"); ("message", "High CPU usage detected")].

Definition report_vars : list (string * string) :=
  [("reportType", "Weekly Performance Report"); ("period", "2024-01-01 to 2024-01-07");
   ("data", "System performance metrics for the past week")].

Definition alert_request : notification :=
  {| n_id := "alert-1"; n_type := "alert"; recipients := ["user-1"; "admin-1"];
     n_variables := alert_vars |}.

Definition report_request : notification :=
  {| n_id := "report-1"; n_type := "report"; recipients := ["admin-1"];
     n_variables := report_vars |}.

(** The spec's scenario of section 8: the user's alert preference
    restricted to slack, inApp disabled in the global config. *)
Definition scenario_config : sys_config :=
  {| cfg_email := cfg_email global_config; cfg_slack := cfg_slack global_config;
     cfg_inApp := {| platformAppIds := None; inapp_enabled := Some false |} |}.

Definition scenario_store : store :=
  set_configs {[ "*" := {| config_context := "*"; config := scenario_config;
                           description := None |} ]}
    (set_prefs (<[ "user-1" := {| pref_context := "user-1";
                                  preferences := {[ "alert" := {| channels := [slack]; enabled := true |} ]};
                                  timezone := None; language := None |} ]> (prefs publishing_store))
       publishing_store).

Definition slack_alert_template : string :=
  "Alert: {{serverName}} is {{status}} in {{environment}} with message {{message}}".

(** The config bodies of test_api.py:372-380 (a user's own webhook URL
    and app ids) and test_api.py:424-428 (the global email addresses). *)
Definition user_slack_payload : config_payload :=
  {| cp_config := Some {| cfg_email := no_email;
                          cfg_slack := {| webhookUrl := Some "https://hooks.slack.com/services/T000/B000/XXXX";
                                          slack_enabled := Some true |};
                          cfg_inApp := {| platformAppIds := Some ["app-1"]; inapp_enabled := Some true |} |};
     cp_description := Some "User config" |}.

Definition global_payload : config_payload :=
  {| cp_config := Some global_config; cp_description := Some "Global config" |}.

(** The store a call leaves, or [s] when it fails. *)
Definition store_of (r : result) (s : store) : store :=
  match r with Ok _ s' => s' | Err _ => s end.

(** The user's config after test_api.py:372-380, and a later partial
    update that only disables email (test_api.py:389-407). *)
Definition user_config_store : store :=
  store_of (handle alice (CreateConfig "" user_slack_payload) empty_store) empty_store.

Definition user_email_update : config_payload :=
  {| cp_config := Some {| cfg_email := {| fromAddress := None; replyToAddress := None;
                                          email_enabled := Some false |};
                          cfg_slack := no_slack; cfg_inApp := no_inapp |};
     cp_description := None |}.

(** A full replacement of the global config (test_api.py:601-640). *)
Definition global_update : config_payload :=
  {| cp_config := Some scenario_config; cp_description := None |}.

Definition alert_preferences : pref_payload :=
  {| pp_preferences := Some [("alert", (["email"; "slack"], true))];
     pp_timezone := None; pp_language := None |}.

(** A schedule created by the user (test_api.py:761-818), then paused. *)
Definition sched_store : store :=
  store_of (handle_schedule alice "sched-1"
              (CreateSchedule "alert" alert_vars "cron(0 9 * * ? *)") empty_store) empty_store.

Definition paused_store : store :=
  store_of (handle_schedule alice "" (PauseSchedule "sched-1") sched_store) sched_store.

End Fixtures.

(* ================================================================== *)
(** ** Facts about the service model *)
(* ================================================================== *)

Module Facts.
Import Service.

Section FoldInsert.
Context {A K V : Type} `{Countable K}.
Variables (P : A → bool) (key : A → K) (val : A → V).

Definition ins_step (l : gmap K V) (x : A) : gmap K V :=
  if P x then <[key x := val x]> l else l.

Lemma fold_ins_miss xs l k :
  (∀ x, x ∈ xs → P x = true → key x ≠ k) →
  fold_left ins_step xs l !! k = l !! k.
Proof.
  revert l. induction xs as [|x xs IH]; intros l Hx; [done|]. simpl.
  rewrite IH; [|intros y Hy; apply Hx; set_solver].
  unfold ins_step. destruct (P x) eqn:E; [|done].
  rewrite lookup_insert_ne; [done|]. apply Hx; [set_solver|done].
Qed.

Lemma fold_ins_keep xs l k v :
  l !! k = Some v →
  (∀ x, x ∈ xs → P x = true → key x = k → val x = v) →
  fold_left ins_step xs l !! k = Some v.
Proof.
  revert l. induction xs as [|x xs IH]; intros l Hl Hx; [done|]. simpl.
  apply IH; [|intros y Hy; apply Hx; set_solver].
  unfold ins_step. destruct (P x) eqn:E; [|done].
  destruct (decide (key x = k)) as [<-|Hne].
  - rewrite lookup_insert_eq. f_equal. apply Hx; [set_solver|done|done].
  - by rewrite lookup_insert_ne.
Qed.

Lemma fold_ins_hit xs l x :
  (∀ y, key y = key x → val y = val x) →
  x ∈ xs → P x = true →
  fold_left ins_step xs l !! key x = Some (val x).
Proof.
  intros Hcoh Hin HP. apply list_elem_of_split in Hin as (xs1 & xs2 & ->).
  rewrite fold_left_app. simpl. apply fold_ins_keep.
  - unfold ins_step. rewrite HP. apply lookup_insert_eq.
  - intros y _ _ Hk. by apply Hcoh.
Qed.
End FoldInsert.

Lemma channel_name_inj c c' : channel_name c = channel_name c' → c = c'.
Proof. destruct c, c'; simpl; congruence. Qed.

Lemma ledger_key_inj n u u' c c' : ledger_key n u c = ledger_key n u' c' → u = u' ∧ c = c'.
Proof. unfold ledger_key. intros [= -> Hc]. split; [done|]. by apply channel_name_inj. Qed.

(** The channels step 1 hands to steps 2-4 for a recipient. *)
Definition chans_of (s : store) (n : notification) (uid : string) : list channel :=
  match effective_preference s uid (n_type n) with
  | Some e => if enabled e then channels e else []
  | None => []
  end.

(** The conjunction deciding whether (recipient, channel) gets a record. *)
Definition delivers (s : store) (n : notification) (uid : string) (ch : channel) : bool :=
  config_flag (configs s !! "*") ch && config_flag (configs s !! uid) ch
  && bool_decide (ch ∈ chans_of s n uid).

Definition pair_step (s : store) (n : notification) :=
  ins_step (fun x : string * channel => config_flag (configs s !! "*") x.2 && config_flag (configs s !! x.1) x.2)
           (fun x => ledger_key n x.1 x.2) (fun x => delivery_outcome s n x.1 x.2).

Definition pairs (s : store) (n : notification) : list (string * channel) :=
  recipients n ≫= (fun uid => pair uid <$> chans_of s n uid).

Lemma process_flat s n :
  ledger (process_notification s n) = fold_left (pair_step s n) (pairs s n) (ledger s).
Proof.
  unfold process_notification, pairs. simpl. generalize (ledger s) as l.
  induction (recipients n) as [|uid rs IH]; intros l; [done|].
  simpl. rewrite fold_left_app, <- IH. f_equal.
  unfold deliver_recipient. fold (chans_of s n uid).
  replace (match effective_preference s uid (n_type n) with
           | Some e => if enabled e then fold_left (deliver_channel s n uid) (channels e) l else l
           | None => l end)
    with (fold_left (deliver_channel s n uid) (chans_of s n uid) l)
    by (unfold chans_of; destruct (effective_preference _ _ _) as [e|]; [destruct (enabled e)|]; done).
  generalize l. induction (chans_of s n uid) as [|ch chs IHc]; intros l'; [done|]. simpl.
  apply IHc.
Qed.

Lemma elem_of_pairs s n uid ch : (uid, ch) ∈ pairs s n ↔ uid ∈ recipients n ∧ ch ∈ chans_of s n uid.
Proof.
  unfold pairs. rewrite list_elem_of_bind. split.
  - intros (u & Hin & Hu). apply list_elem_of_fmap in Hin as (c & [= <- <-] & Hc). done.
  - intros [Hu Hc]. exists uid. split; [|done]. apply list_elem_of_fmap. eauto.
Qed.

(** What processing one request writes at the key of (recipient, channel). *)
Lemma process_lookup s n uid ch :
  ledger (process_notification s n) !! ledger_key n uid ch =
    if bool_decide (uid ∈ recipients n) && delivers s n uid ch
    then Some (delivery_outcome s n uid ch)
    else ledger s !! ledger_key n uid ch.
Proof.
  rewrite process_flat. unfold delivers.
  destruct (bool_decide (uid ∈ recipients n)) eqn:Hr;
  destruct (config_flag (configs s !! "*") ch) eqn:Hg;
  destruct (config_flag (configs s !! uid) ch) eqn:Hu;
  destruct (bool_decide (ch ∈ chans_of s n uid)) eqn:Hc; simpl;
  try (apply (fold_ins_miss _ _ _ _ _ _);
       intros [u' c'] Hin HP Hk; simpl in *;
       apply ledger_key_inj in Hk as [-> ->];
       apply elem_of_pairs in Hin as [Hin1 Hin2];
       apply andb_prop in HP as [HP1 HP2];
       repeat match goal with
              | H : bool_decide _ = false |- _ => apply bool_decide_eq_false in H
              end; congruence).
  apply bool_decide_eq_true in Hr, Hc.
  unfold pair_step.
  apply (fold_ins_hit _ (fun x : string * channel => ledger_key n x.1 x.2)
           (fun x => delivery_outcome s n x.1 x.2) _ _ (uid, ch)).
  - intros [u' c'] Hk. simpl in *. by apply ledger_key_inj in Hk as [-> ->].
  - by apply elem_of_pairs.
  - simpl. by rewrite Hg, Hu.
Qed.

(** Keys that are not of this request are untouched. *)
Lemma process_lookup_other s n k :
  (∀ uid ch, ledger_key n uid ch ≠ k) →
  ledger (process_notification s n) !! k = ledger s !! k.
Proof.
  intros Hk. rewrite process_flat. apply fold_ins_miss.
  intros [u c] _ _. apply Hk.
Qed.

Lemma parse_channel_name ch : parse_channel (channel_name ch) = Some ch.
Proof. by destruct ch. Qed.

Lemma parse_channel_Some c ch : parse_channel c = Some ch → c = channel_name ch.
Proof.
  unfold parse_channel.
  destruct (String.eqb_spec c "email") as [->|]; [intros [= <-]; done|].
  destruct (String.eqb_spec c "slack") as [->|]; [intros [= <-]; done|].
  destruct (String.eqb_spec c "in_app") as [->|]; [intros [= <-]; done|].
  discriminate.
Qed.

(** What processing one request leaves at any ledger key. *)
Lemma process_lookup_key s n i u ty c :
  ledger (process_notification s n) !! (i, u, ty, c) =
    match parse_channel c with
    | Some ch =>
        if bool_decide (i = n_id n ∧ ty = n_type n) && bool_decide (u ∈ recipients n)
           && delivers s n u ch
        then Some (delivery_outcome s n u ch) else ledger s !! (i, u, ty, c)
    | None => ledger s !! (i, u, ty, c)
    end.
Proof.
  destruct (parse_channel c) as [ch|] eqn:Hp.
  - apply parse_channel_Some in Hp as ->.
    case_bool_decide as Hit.
    + destruct Hit as [-> ->]. apply process_lookup.
    + simpl. apply process_lookup_other. intros u' c' [= Hi _ Hty _]. apply Hit. by split.
  - apply process_lookup_other. intros u' c' [= _ _ _ Hc].
    rewrite <- Hc, parse_channel_name in Hp. discriminate.
Qed.

(** [pat] occurs in [s]. *)
Definition occurs (pat s : string) : Prop := ∃ pre post, s = pre ++ pat ++ post.

Lemma prefix_app (p s : string) : String.prefix p s = true → ∃ post, s = p ++ post.
Proof.
  revert s. induction p as [|c p IH]; intros [|d s]; simpl; try discriminate.
  - by exists EmptyString.
  - by exists (String d s).
  - destruct (ascii_dec c d) as [->|]; [|discriminate].
    intros Hp. destruct (IH s Hp) as [post ->]. by exists post.
Qed.

Lemma replace_all_fuel_absent fuel pat rep s :
  ¬ occurs pat s → replace_all_fuel fuel pat rep s = s.
Proof.
  revert s. induction fuel as [|fuel IH]; intros [|c s] Hn; try done.
  cbn [replace_all_fuel]. destruct (String.prefix pat (String c s)) eqn:Hp.
  - exfalso. apply prefix_app in Hp as [post Hpost]. apply Hn. by exists EmptyString, post.
  - f_equal. apply IH. intros (pre & post & ->). apply Hn. by exists (String c pre), post.
Qed.

(** Rendering leaves a content untouched when none of the variables'
    placeholders occurs in it. *)
Lemma render_absent vars c :
  (∀ k v, (k, v) ∈ vars → ¬ occurs (placeholder k) c) → render vars c = c.
Proof.
  unfold render. induction vars as [|[k v] vars IH]; intros Hn; simpl; [done|].
  unfold replace_all at 2. rewrite replace_all_fuel_absent.
  - apply IH. intros k' v' Hin. apply (Hn k' v'). by right.
  - apply (Hn k v). by left.
Qed.

(** The handlers only fail with validation, forbidden-field, not-found or
    conflict errors: an authorization denial comes from the guard alone. *)
Lemma dispatch_not_denied a ctx r s : dispatch a ctx r s ≠ Err AuthorizationError.
Proof.
  destruct r; simpl;
    unfold get_user, create_template, get_template, update_template, delete_template,
      create_preferences, get_preferences, update_preferences, delete_preferences,
      create_config, get_config, update_config, delete_config;
    repeat case_match; discriminate.
Qed.

End Facts.

(* ================================================================== *)
(** ** What the stack's methods build (src/notification_service_stack.py) *)
(* ================================================================== *)

Module Resources.

(** The values the stack's methods give, read off their code (the
    constructor itself raises before the later methods run, see C9).

    The construct ids the methods pass to the constructs they create
    directly in the stack ([self] as scope), in the order the methods
    create them: [f"<Prefix>-{self.environment_name}"] for the resources,
    then the fixed ids of the [CfnOutput]s. *)
Definition resource_prefixes : list string :=
  ["Users"; "Templates"; "Preferences"; "Config";            (* _create_dynamodb_tables *)
   "UserPool"; "UserPoolClient";                              (* _create_cognito_user_pool *)
   "NotificationDLQ"; "NotificationQueue";                    (* _create_sqs_queue *)
   "LambdaExecutionRole"; "UserHandler"; "TemplateHandler";   (* _create_lambda_functions *)
   "PreferenceHandler"; "ConfigHandler"; "ProcessorHandler";
   "CognitoAuthorizer"; "NotificationServiceAPI"].            (* _create_api_gateway *)

Definition output_ids : list string :=
  ["APIGatewayURL"; "UserPoolId"; "UserPoolClientId"; "Region"; "AccountId";
   "NotificationQueueURL"; "NotificationQueueARN"].           (* _create_outputs *)

Definition construct_ids (environment_name : string) : list string :=
  map (fun p => p ++ "-" ++ environment_name) resource_prefixes ++ output_ids.

(** [table_name] of the four tables of [_create_dynamodb_tables]. *)
Definition users_table_name (environment_name : string) : string :=
  "notification-service-users-" ++ environment_name.
Definition templates_table_name (environment_name : string) : string :=
  "notification-service-templates-" ++ environment_name.
Definition preferences_table_name (environment_name : string) : string :=
  "notification-service-preferences-" ++ environment_name.
Definition config_table_name (environment_name : string) : string :=
  "notification-service-config-" ++ environment_name.

Definition table_names (environment_name : string) : list string :=
  [users_table_name environment_name; templates_table_name environment_name;
   preferences_table_name environment_name; config_table_name environment_name].

(** The methods [_create_api_gateway] adds: the resource path under the
    API root, the HTTP method and the Lambda integration's handler. The
    CORS preflight [OPTIONS] methods CDK adds to every resource are not
    listed. *)
Definition api_routes : list (list string * string * string) :=
  [(["api"; "v1"; "users"], "GET", "user_handler");
   (["api"; "v1"; "users"; "{userId}"], "GET", "user_handler");
   (["api"; "v1"; "templates"], "GET", "template_handler");
   (["api"; "v1"; "templates"], "POST", "template_handler");
   (["api"; "v1"; "templates"; "{templateId}"], "GET", "template_handler");
   (["api"; "v1"; "templates"; "{templateId}"], "PUT", "template_handler");
   (["api"; "v1"; "templates"; "{templateId}"], "DELETE", "template_handler");
   (["api"; "v1"; "preferences"], "GET", "preference_handler");
   (["api"; "v1"; "preferences"], "POST", "preference_handler");
   (["api"; "v1"; "preferences"], "PUT", "preference_handler");
   (["api"; "v1"; "preferences"], "DELETE", "preference_handler");
   (["api"; "v1"; "config"], "GET", "config_handler");
   (["api"; "v1"; "config"], "POST", "config_handler");
   (["api"; "v1"; "config"], "PUT", "config_handler");
   (["api"; "v1"; "config"], "DELETE", "config_handler")].

(** How API Gateway matches a request path against a resource: segment by
    segment, a [{param}] segment matching any non-empty segment. *)
Definition is_path_param (seg : string) : bool := String.prefix "{" seg.

Fixpoint segments_match (pattern path : list string) : bool :=
  match pattern, path with
  | [], [] => true
  | p :: ps, s :: ss =>
      (if is_path_param p then negb (String.eqb s "") else String.eqb p s)
      && segments_match ps ss
  | _, _ => false
  end.

(** [s.split(sep)] *)
Fixpoint split_on (sep : ascii) (s : string) : list string :=
  match s with
  | EmptyString => [EmptyString]
  | String c s' =>
      let rest := split_on sep s' in
      if Ascii.eqb c sep then EmptyString :: rest
      else match rest with
           | [] => [String c EmptyString]
           | r :: rs => String c r :: rs
           end
  end.

(** The path part of a URL tail: up to the query ([?]) or the fragment ([#]). *)
Fixpoint url_path (s : string) : string :=
  match s with
  | EmptyString => EmptyString
  | String c s' => if Ascii.eqb c "?" || Ascii.eqb c "#" then EmptyString else String c (url_path s')
  end.

(** The handler serving [method] on [path], the part of the request URL
    after the stage's base URL. The path is taken as given: requests and
    urllib3 requote a URL and remove its dot segments ([.], [..]) before
    sending it, which this lookup does not do, so the theorems apply it
    to paths that normalisation leaves unchanged (unreserved characters
    or [quote]d output, and no dot segment). *)
Definition route_lookup (method path : string) : option string :=
  (fun '(_, _, h) => h) <$>
    List.find (fun '(pat, m, _) => String.eqb m method && segments_match pat (split_on "/" (url_path path)))
      api_routes.

End Resources.

(* ================================================================== *)
(** ** The test client (src/testutils/test_user.py) *)
(* ================================================================== *)

Module Client.
Import Queue.

(** *** urllib.parse.quote(s, safe='') on the UTF-8 bytes of [s] *)

(** [_ALWAYS_SAFE]: ASCII letters, digits and [_.-~]. *)
Definition always_safe (c : ascii) : bool :=
  let n := nat_of_ascii c in
  (Nat.leb 65 n && Nat.leb n 90) || (Nat.leb 97 n && Nat.leb n 122)
  || (Nat.leb 48 n && Nat.leb n 57)
  || Ascii.eqb c "_" || Ascii.eqb c "." || Ascii.eqb c "-" || Ascii.eqb c "~".

(** An upper-case hexadecimal digit, as [f"%{b:02X}"] prints it. *)
Definition hex_digit (n : nat) : ascii :=
  if Nat.ltb n 10 then ascii_of_nat (48 + n) else ascii_of_nat (55 + n).

Definition percent_byte (c : ascii) : string :=
  String "%" (String (hex_digit (nat_of_ascii c / 16))
                (String (hex_digit (nat_of_ascii c mod 16)) EmptyString)).

(** [quote_from_bytes(bs, safe='')]: safe bytes are kept, every other byte
    becomes [%XX]. *)
Fixpoint quote (s : string) : string :=
  match s with
  | EmptyString => EmptyString
  | String c s' => (if always_safe c then String c EmptyString else percent_byte c) ++ quote s'
  end.

(** *** Python values as the client formats and indexes them *)

(** [f"{v}"] (i.e. [str(v)]) for the scalar values; [None] for a value
    whose [str] the model does not spell out (containers, objects). *)
Definition py_format (v : pyval) : option string :=
  match v with
  | PyNone => Some "None"
  | PyBool true => Some "True"
  | PyBool false => Some "False"
  | PyInt z => Some (pretty z)
  | PyStr s => Some s
  | _ => None
  end.

(** [bool(v)]; [None] for an object, whose truth value its class decides. *)
Definition py_truthy (v : pyval) : option bool :=
  match v with
  | PyNone => Some false
  | PyBool b => Some b
  | PyInt z => Some (negb (Z.eqb z 0))
  | PyStr s => Some (negb (String.eqb s ""))
  | PyList xs | PyTuple xs => Some (negb (bool_decide (xs = [])))
  | PyDict kvs => Some (negb (bool_decide (kvs = [])))
  | PyObject _ => None
  end.

Definition py_is_none (v : pyval) : bool := match v with PyNone => true | _ => false end.

(** [v[k]] for a string key: the value bound last to [k] in a dict;
    [None] when it raises ([KeyError], or [TypeError] on a non-dict). *)
Definition py_getitem (v : pyval) (k : string) : option pyval :=
  match v with
  | PyDict kvs =>
      fold_left (fun acc '(k', x) =>
                   match k' with PyStr s => if String.eqb s k then Some x else acc | _ => acc end)
                kvs None
  | _ => None
  end.

(** *** The [User] object *)

Record User := {
  user_id : pyval; email : string; password : string; role : string; region : string;
  id_token : pyval; access_token : pyval; refresh_token : pyval;
  user_pool_id : string; user_pool_client_id : string;
  api_gateway_url : string; notification_queue_url : string }.

(** [User.__init__]; the boto3 clients it creates are external. *)
Definition __init__ (email password role region user_pool_id user_pool_client_id
                     api_gateway_url notification_queue_url : string) : User :=
  {| user_id := PyNone; email := email; password := password; role := role; region := region;
     id_token := PyNone; access_token := PyNone; refresh_token := PyNone;
     user_pool_id := user_pool_id; user_pool_client_id := user_pool_client_id;
     api_gateway_url := api_gateway_url; notification_queue_url := notification_queue_url |}.

Definition set_id_token (v : pyval) (u : User) : User :=
  {| user_id := user_id u; email := email u; password := password u; role := role u;
     region := region u; id_token := v; access_token := access_token u;
     refresh_token := refresh_token u; user_pool_id := user_pool_id u;
     user_pool_client_id := user_pool_client_id u; api_gateway_url := api_gateway_url u;
     notification_queue_url := notification_queue_url u |}.
Definition set_access_token (v : pyval) (u : User) : User :=
  {| user_id := user_id u; email := email u; password := password u; role := role u;
     region := region u; id_token := id_token u; access_token := v;
     refresh_token := refresh_token u; user_pool_id := user_pool_id u;
     user_pool_client_id := user_pool_client_id u; api_gateway_url := api_gateway_url u;
     notification_queue_url := notification_queue_url u |}.
Definition set_refresh_token (v : pyval) (u : User) : User :=
  {| user_id := user_id u; email := email u; password := password u; role := role u;
     region := region u; id_token := id_token u; access_token := access_token u;
     refresh_token := v; user_pool_id := user_pool_id u;
     user_pool_client_id := user_pool_client_id u; api_gateway_url := api_gateway_url u;
     notification_queue_url := notification_queue_url u |}.
Definition set_user_id (v : pyval) (u : User) : User :=
  {| user_id := v; email := email u; password := password u; role := role u;
     region := region u; id_token := id_token u; access_token := access_token u;
     refresh_token := refresh_token u; user_pool_id := user_pool_id u;
     user_pool_client_id := user_pool_client_id u; api_gateway_url := api_gateway_url u;
     notification_queue_url := notification_queue_url u |}.

(** A method body that updates [self] and may raise: the attribute
    assignments made before an exception stay. *)
Definition PyM (A : Type) : Type := User → option A * User.

Global Instance PyM_ret : MRet PyM := fun A a u => (Some a, u).
Global Instance PyM_bind : MBind PyM := fun A B k m u =>
  match m u with
  | (Some a, u') => k a u'
  | (None, u') => (None, u')
  end.

(** Evaluating an expression that may raise. *)
Definition lift {A} (o : option A) : PyM A := fun u => (o, u).
Definition assign (f : pyval → User → User) (v : pyval) : PyM unit := fun u => (Some (), f v u).

(** [try: ... except Exception: return default] *)
Definition catch_all {A} (m : PyM A) (default : A) (u : User) : A * User :=
  match m u with
  | (Some a, u') => (a, u')
  | (None, u') => (default, u')
  end.

(** [User.authenticate_user]: [response] is what [admin_initiate_auth]
    returns ([None] when it raises) and [jwt_decode] the unverified
    decoding of a token ([None] when it raises). *)
Definition authenticate_user (jwt_decode : pyval → option pyval) (response : option pyval) (u : User)
    : bool * User :=
  catch_all
    (r ← lift response;
     tokens ← lift (py_getitem r "AuthenticationResult");
     it ← lift (py_getitem tokens "IdToken"); assign set_id_token it;;
     acc ← lift (py_getitem tokens "AccessToken"); assign set_access_token acc;;
     rt ← lift (py_getitem tokens "RefreshToken"); assign set_refresh_token rt;;
     decoded_token ← lift (jwt_decode acc);
     sub ← lift (py_getitem decoded_token "sub"); assign set_user_id sub;;
     mret true)
    false u.

(** *** Requests to the API *)

(** What [requests.request(method, url, headers=headers, json=body)] is
    called with; [PyNone] is no body. *)
Record http_request := {
  req_method : string; req_url : string;
  req_headers : list (string * string); req_json : pyval }.

(** [User.make_api_request]; [None] when the model cannot format the id
    token (see [py_format]). *)
Definition make_api_request (u : User) (method path : string) (body : pyval) : option http_request :=
  auth ← py_format (id_token u);
  Some {| req_method := method; req_url := api_gateway_url u ++ "api/v1" ++ path;
          req_headers := [("Authorization", auth); ("Content-Type", "application/json")];
          req_json := body |}.

(** The helpers, for [str] arguments where they are put in the path. *)
Definition get_users_list (u : User) := make_api_request u "GET" "/users" PyNone.

Definition get_user_by_id (u : User) (user_id : string) :=
  make_api_request u "GET" ("/users/" ++ user_id) PyNone.

Definition create_template (u : User) (context type channel : string) (content : pyval) :=
  make_api_request u "POST" "/templates"
    (PyDict [(PyStr "context", PyStr context); (PyStr "type", PyStr type);
             (PyStr "channel", PyStr channel); (PyStr "content", content)]).

Definition get_templates_list (u : User) (context : string) :=
  make_api_request u "GET" ("/templates?context=" ++ context) PyNone.

Definition get_template_by_id (u : User) (context type channel : string) :=
  let encoded_type_channel := quote (type ++ "#" ++ channel) in
  make_api_request u "GET" ("/templates/" ++ encoded_type_channel ++ "?context=" ++ context) PyNone.

Definition update_template (u : User) (context type channel : string) (content : pyval) :=
  let encoded_type_channel := quote (type ++ "#" ++ channel) in
  make_api_request u "PUT" ("/templates/" ++ encoded_type_channel)
    (PyDict [(PyStr "context", PyStr context); (PyStr "type", PyStr type);
             (PyStr "channel", PyStr channel); (PyStr "content", content)]).

Definition delete_template (u : User) (context type channel : string) :=
  let encoded_type_channel := quote (type ++ "#" ++ channel) in
  make_api_request u "DELETE" ("/templates/" ++ encoded_type_channel ++ "?context=" ++ context) PyNone.

(** [body = {"context": context}] followed by [if v: body[k] = v] for each
    optional field. *)
Definition create_user_preferences (u : User) (context : string) (preferences timezone language : pyval) :=
  py_truthy preferences ≫= λ tp : bool, py_truthy timezone ≫= λ tz : bool,
  py_truthy language ≫= λ tl : bool,
  make_api_request u "POST" "/preferences"
    (PyDict ([(PyStr "context", PyStr context)]
             ++ (if tp then [(PyStr "preferences", preferences)] else [])
             ++ (if tz then [(PyStr "timezone", timezone)] else [])
             ++ (if tl then [(PyStr "language", language)] else []))).

Definition get_user_preferences (u : User) (context : string) :=
  make_api_request u "GET" ("/preferences?context=" ++ context) PyNone.

(** The path of the listing helpers: [limit=...] and [nextToken=...] for
    the truthy ones, joined by ['&'], after a ['?'] when any. *)
Definition list_path (base : string) (limit next_token : pyval) : option string :=
  py_truthy limit ≫= λ tl : bool, py_truthy next_token ≫= λ tn : bool,
  l ← (if tl then (fun s => ["limit=" ++ s]) <$> py_format limit else Some []);
  n ← (if tn then (fun s => ["nextToken=" ++ s]) <$> py_format next_token else Some []);
  let query_string := String.concat "&" (l ++ n) in
  Some (if String.eqb query_string "" then base else base ++ "?" ++ query_string).

Definition get_user_preferences_list (u : User) (limit next_token : pyval) :=
  path ← list_path "/preferences" limit next_token; make_api_request u "GET" path PyNone.

(** [body = {"context": context}] followed by [if v is not None: body[k] = v]. *)
Definition update_user_preferences (u : User) (context : string) (preferences timezone language : pyval) :=
  make_api_request u "PUT" "/preferences"
    (PyDict ([(PyStr "context", PyStr context)]
             ++ (if py_is_none preferences then [] else [(PyStr "preferences", preferences)])
             ++ (if py_is_none timezone then [] else [(PyStr "timezone", timezone)])
             ++ (if py_is_none language then [] else [(PyStr "language", language)]))).

Definition delete_user_preferences (u : User) (context : string) :=
  make_api_request u "DELETE" ("/preferences?context=" ++ context) PyNone.

Definition create_system_config (u : User) (context : string) (config description : pyval) :=
  py_truthy config ≫= λ tc : bool, py_truthy description ≫= λ td : bool,
  make_api_request u "POST" "/config"
    (PyDict ([(PyStr "context", PyStr context)]
             ++ (if tc then [(PyStr "config", config)] else [])
             ++ (if td then [(PyStr "description", description)] else []))).

Definition get_system_config (u : User) (context : string) :=
  make_api_request u "GET" ("/config?context=" ++ context) PyNone.

Definition get_system_config_list (u : User) (limit next_token : pyval) :=
  path ← list_path "/config" limit next_token; make_api_request u "GET" path PyNone.

Definition update_system_config (u : User) (context : string) (config description : pyval) :=
  make_api_request u "PUT" "/config"
    (PyDict ([(PyStr "context", PyStr context)]
             ++ (if py_is_none config then [] else [(PyStr "config", config)])
             ++ (if py_is_none description then [] else [(PyStr "description", description)]))).

Definition delete_system_config (u : User) (context : string) :=
  make_api_request u "DELETE" ("/config?context=" ++ context) PyNone.

(** *** The notification helpers *)

Definition send_alert_notification (id recipients server_name environment status message : pyval) :=
  send_notification_to_queue id (PyStr "alert") recipients
    (PyDict [(PyStr "serverName", server_name); (PyStr "environment", environment);
             (PyStr "status", status); (PyStr "message", message)]).

Definition send_report_notification (id recipients report_name time_period summary : pyval) :=
  send_notification_to_queue id (PyStr "report") recipients
    (PyDict [(PyStr "reportType", report_name); (PyStr "period", time_period);
             (PyStr "data", summary)]).

Definition send_general_notification (id recipients title message action_url : pyval) :=
  send_notification_to_queue id (PyStr "notification") recipients
    (PyDict [(PyStr "title", title); (PyStr "message", message);
             (PyStr "actionUrl", action_url)]).

(** *** [User.create_user] *)

(** What a boto3 call does: return a response, or raise the Cognito
    client's [UsernameExistsException] or another exception. *)
Inductive aws_exc := UsernameExistsException | OtherException (name : string).
Definition aws_outcome := (pyval + aws_exc)%type.

(** The calls [create_user] makes, in order; the DynamoDB write with its
    table and item. *)
Inductive aws_call :=
| CognitoCall (operation : string)
| PutItem (table : string) (item : pyval).

(** How [create_user] ends: it returns a value, or the exception
    propagates (named by its class). *)
Inductive create_result := Returned (v : pyval) | Reraised (exc : string).

Definition attr_s (v : pyval) : pyval := PyDict [(PyStr "S", v)].

(** [User.create_user]: the outcomes of [admin_create_user],
    [admin_set_user_password], [admin_get_user] and [put_item] (each used
    only if the call is reached) and the two [datetime.now(...).isoformat()]
    strings. The [!= 200] test compares with an [int]; a failed subscript
    re-raises as [KeyError] (boto3 answers are dicts). *)
Definition create_user (u : User) (create_resp set_resp get_resp put_resp : aws_outcome)
    (created_at updated_at : string) : create_result * list aws_call :=
  let handle (e : aws_exc) (trace : list aws_call) :=
    match e with
    | UsernameExistsException => (Returned (PyBool false), trace)
    | OtherException n => (Reraised n, trace)
    end in
  let t1 := [CognitoCall "admin_create_user"] in
  match create_resp with
  | inr e => handle e t1
  | inl cognito_response =>
      match py_getitem cognito_response "ResponseMetadata" ≫= (fun m => py_getitem m "HTTPStatusCode") with
      | None => (Reraised "KeyError", t1)
      | Some code =>
          if match code with PyInt z => Z.eqb z 200 | _ => false end
          then
            let t2 := (t1 ++ [CognitoCall "admin_set_user_password"])%list in
            match set_resp with
            | inr e => handle e t2
            | inl _ =>
                let t3 := (t2 ++ [CognitoCall "admin_get_user"])%list in
                match get_resp with
                | inr e => handle e t3
                | inl cognito_user_id =>
                    match py_getitem cognito_user_id "Username" with
                    | None => (Reraised "KeyError", t3)
                    | Some uid =>
                        let item := PyDict [(PyStr "userId", attr_s uid);
                                            (PyStr "email", attr_s (PyStr (email u)));
                                            (PyStr "role", attr_s (PyStr (role u)));
                                            (PyStr "isActive", PyDict [(PyStr "BOOL", PyBool true)]);
                                            (PyStr "createdAt", attr_s (PyStr created_at));
                                            (PyStr "updatedAt", attr_s (PyStr updated_at))] in
                        let t4 := (t3 ++ [PutItem "notification-service-users-dev" item])%list in
                        match put_resp with
                        | inr e => handle e t4
                        | inl _ => (Returned uid, t4)
                        end
                    end
                end
            end
          else (Reraised "Exception", t1)
      end
  end.

End Client.

(* ================================================================== *)
(** ** Lemmas on the client and the routes *)
(* ================================================================== *)

Module ClientFacts.
Import Queue Client Resources.

(** Reading a hexadecimal digit back. *)
Definition hex_val (c : ascii) : nat :=
  let n := nat_of_ascii c in
  if Nat.leb 48 n && Nat.leb n 57 then n - 48 else n - 55.

(** The inverse of [quote]: [%XX] back to the byte. *)
Fixpoint unquote (s : string) : string :=
  match s with
  | EmptyString => EmptyString
  | String c rest =>
      match rest with
      | String h1 (String h2 rest') =>
          if Ascii.eqb c "%" then String (ascii_of_nat (16 * hex_val h1 + hex_val h2)) (unquote rest')
          else String c (unquote rest)
      | _ => String c (unquote rest)
      end
  end.

Definition safe_or_percent (c : ascii) : bool := always_safe c || Ascii.eqb c "%".

Lemma percent_byte_chars_b c :
  forallb safe_or_percent (String.list_ascii_of_string (percent_byte c)) = true.
Proof. destruct c as [[] [] [] [] [] [] [] []]; reflexivity. Qed.

Lemma percent_byte_chars c :
  Forall (fun d => safe_or_percent d = true) (String.list_ascii_of_string (percent_byte c)).
Proof.
  apply Forall_forall. intros d Hd. pose proof (percent_byte_chars_b c) as Hb.
  rewrite forallb_forall in Hb. apply Hb. by apply list_elem_of_In.
Qed.

Lemma percent_byte_decode c t : unquote (percent_byte c ++ t) = String c (unquote t).
Proof. destruct c as [[] [] [] [] [] [] [] []]; reflexivity. Qed.

Lemma percent_not_safe : always_safe "%" = false.
Proof. reflexivity. Qed.

Lemma string_app_cons c (s t : string) : String c s ++ t = String c (s ++ t).
Proof. reflexivity. Qed.

Lemma string_app_nil_l (s : string) : "" ++ s = s.
Proof. reflexivity. Qed.

Lemma string_app_assoc (s t w : string) : s ++ t ++ w = (s ++ t) ++ w.
Proof. induction s as [|c s IH]; [done|]. rewrite !string_app_cons, IH. done. Qed.

Lemma string_app_nil_r (s : string) : s ++ "" = s.
Proof. induction s as [|c s IH]; [done|]. rewrite string_app_cons, IH. done. Qed.

Lemma list_ascii_of_string_app s t :
  String.list_ascii_of_string (s ++ t) = (String.list_ascii_of_string s ++ String.list_ascii_of_string t)%list.
Proof. induction s as [|c s IH]; [done|]. rewrite string_app_cons. simpl. f_equal. done. Qed.

Lemma quote_chars s : Forall (fun d => safe_or_percent d = true) (String.list_ascii_of_string (quote s)).
Proof.
  induction s as [|c s IH]; simpl; [constructor|].
  rewrite list_ascii_of_string_app. apply Forall_app; split; [|done].
  destruct (always_safe c) eqn:E.
  - simpl. constructor; [unfold safe_or_percent; rewrite E; done | constructor].
  - apply percent_byte_chars.
Qed.

Lemma unquote_quote s : unquote (quote s) = s.
Proof.
  induction s as [|c s IH]; [done|]. simpl.
  destruct (always_safe c) eqn:E.
  - rewrite string_app_cons, string_app_nil_l. assert (Ascii.eqb c "%" = false).
    { apply Ascii.eqb_neq. intros ->. rewrite percent_not_safe in E. discriminate. }
    destruct (quote s) as [|c1 [|c2 [|c3 r]]] eqn:Q; simpl in *; rewrite ?H; rewrite ?IH; congruence.
  - rewrite percent_byte_decode, IH. done.
Qed.

(** A string free of the separators of a URL path. *)
Definition seg_clean (s : string) : Prop :=
  Forall (fun c : ascii => c ≠ "/"%char ∧ c ≠ "?"%char ∧ c ≠ "#"%char) (String.list_ascii_of_string s).

Lemma quote_clean s : seg_clean (quote s).
Proof.
  unfold seg_clean. eapply Forall_impl; [apply quote_chars|].
  intros c Hc. repeat split; intros ->; vm_compute in Hc; discriminate Hc.
Qed.

Lemma quote_app s t : quote (s ++ t) = quote s ++ quote t.
Proof.
  induction s as [|c s IH]; [done|]. rewrite string_app_cons. simpl.
  rewrite IH, string_app_assoc. done.
Qed.

Lemma quote_nonempty_hash s t : quote (s ++ "#" ++ t) ≠ "".
Proof.
  rewrite !quote_app. simpl. destruct (quote s); discriminate.
Qed.

Lemma url_path_app s t :
  Forall (fun c : ascii => c ≠ "?"%char ∧ c ≠ "#"%char) (String.list_ascii_of_string s) → url_path (s ++ t) = s ++ url_path t.
Proof.
  induction s as [|c s IH]; intros HF; [done|]. rewrite string_app_cons. simpl.
  inversion HF as [|? ? [H1 H2] HF']; subst. rewrite IH by done.
  destruct (Ascii.eqb c "?") eqn:E1; [apply Ascii.eqb_eq in E1; congruence|].
  destruct (Ascii.eqb c "#") eqn:E2; [apply Ascii.eqb_eq in E2; congruence|]. done.
Qed.

Lemma split_on_clean sep s :
  Forall (fun c : ascii => c ≠ sep) (String.list_ascii_of_string s) → split_on sep s = [s].
Proof.
  induction s as [|c s IH]; simpl; [done|]. intros HF. inversion HF; subst.
  rewrite IH by done. destruct (Ascii.eqb c sep) eqn:E; [apply Ascii.eqb_eq in E; congruence|]. done.
Qed.

Lemma split_on_app sep s t :
  Forall (fun c : ascii => c ≠ sep) (String.list_ascii_of_string s) → split_on sep (s ++ String sep t) = s :: split_on sep t.
Proof.
  induction s as [|c s IH]; intros HF.
  - rewrite string_app_nil_l. simpl. rewrite Ascii.eqb_refl. done.
  - rewrite string_app_cons. simpl. inversion HF; subst. rewrite IH by done.
    destruct (Ascii.eqb c sep) eqn:E; [apply Ascii.eqb_eq in E; congruence|]. done.
Qed.

Lemma concat_cons2 sep a b l :
  String.concat sep (a :: b :: l) = a ++ sep ++ String.concat sep (b :: l).
Proof. reflexivity. Qed.

Lemma url_path_slash s : url_path (String "/" s) = String "/" (url_path s).
Proof. reflexivity. Qed.

(** The request path of a route whose last segment is [seg], followed by
    a query or by nothing. *)
Lemma route_path_segments (prefix : list string) seg tail :
  Forall seg_clean (prefix ++ [seg])%list →
  (tail = "" ∨ ∃ q, tail = String "?" q) →
  split_on "/" (url_path (String.concat "/" (prefix ++ [seg])%list ++ tail)) = (prefix ++ [seg])%list.
Proof.
  intros HF Ht.
  assert (Hc : ∀ s, seg_clean s →
            Forall (fun c : ascii => c ≠ "?"%char ∧ c ≠ "#"%char) (String.list_ascii_of_string s)
            ∧ Forall (fun c : ascii => c ≠ "/"%char) (String.list_ascii_of_string s)).
  { intros s Hs. split; (eapply Forall_impl; [exact Hs|]); naive_solver. }
  assert (Hu : url_path tail = "") by (destruct Ht as [->|[q ->]]; done).
  revert HF. induction prefix as [|p prefix IH]; intros HF.
  - simpl in HF |- *. inversion HF as [|? ? Hs]; subst. destruct (Hc _ Hs).
    change (String.concat "/" [seg]) with seg.
    rewrite url_path_app, Hu, string_app_nil_r by done. by apply split_on_clean.
  - change ((p :: prefix) ++ [seg])%list with (p :: (prefix ++ [seg]))%list in *.
    inversion HF as [|? ? Hs HF']; subst. destruct (Hc _ Hs) as [Hq Hsl].
    specialize (IH HF').
    destruct (prefix ++ [seg])%list as [|x xs] eqn:E; [by destruct prefix|].
    rewrite concat_cons2, <- !string_app_assoc, url_path_app by done.
    change ("/" ++ String.concat "/" (x :: xs) ++ tail)
      with (String "/" (String.concat "/" (x :: xs) ++ tail)).
    rewrite url_path_slash, split_on_app by done. rewrite IH. done.
Qed.

Lemma make_api_request_some u m p b r :
  make_api_request u m p b = Some r →
  req_url r = api_gateway_url u ++ "api/v1" ++ p ∧ req_method r = m ∧ req_json r = b.
Proof. unfold make_api_request. destruct (py_format (id_token u)); simpl; [intros [= <-]|]; done. Qed.

Lemma route_lookup_segments m prefix seg tail :
  Forall seg_clean (prefix ++ [seg])%list →
  (tail = "" ∨ ∃ q, tail = String "?" q) →
  route_lookup m (String.concat "/" (prefix ++ [seg])%list ++ tail)
  = (fun '(_, _, h) => h) <$>
      List.find (fun '(pat, m', _) => String.eqb m' m && segments_match pat (prefix ++ [seg])%list) api_routes.
Proof. intros HF Ht. unfold route_lookup. rewrite route_path_segments by done. done. Qed.

Lemma list_path_shape base l n p :
  list_path base l n = Some p → p = base ∨ ∃ q, p = base ++ String "?" q.
Proof.
  unfold list_path.
  destruct (py_truthy l) as [tl|]; [|discriminate]; simpl.
  destruct (py_truthy n) as [tn|]; [|discriminate]; simpl.
  destruct (if tl then _ else _) as [xs|]; [|discriminate]; simpl.
  destruct (if tn then _ else _) as [ys|]; [|discriminate]; simpl.
  intros [= <-]. case_match; [left; done|right; eexists; done].
Qed.

Lemma request_routed u m x tail body r h :
  make_api_request u m ("/" ++ x ++ tail) body = Some r →
  Forall seg_clean ["api"; "v1"; x] →
  (tail = "" ∨ ∃ q, tail = String "?" q) →
  route_lookup m (String.concat "/" ["api"; "v1"; x]) = Some h →
  ∃ path, req_url r = api_gateway_url u ++ path ∧ route_lookup (req_method r) path = Some h.
Proof.
  intros Hr Hx Ht Hh. apply make_api_request_some in Hr as (-> & -> & _).
  exists (String.concat "/" (["api"; "v1"] ++ [x])%list ++ tail). split; [done|].
  rewrite route_lookup_segments by done.
  change ["api"; "v1"; x] with (["api"; "v1"] ++ [x])%list in Hh.
  rewrite <- (string_app_nil_r (String.concat "/" (["api"; "v1"] ++ [x])%list)) in Hh.
  rewrite route_lookup_segments in Hh by auto. done.
Qed.

Lemma literal_clean_preferences : Forall seg_clean ["api"; "v1"; "preferences"].
Proof. repeat constructor; unfold seg_clean; simpl; repeat constructor; discriminate. Qed.

Lemma literal_clean_config : Forall seg_clean ["api"; "v1"; "config"].
Proof. repeat constructor; unfold seg_clean; simpl; repeat constructor; discriminate. Qed.

Lemma literal_clean_users : Forall seg_clean ["api"; "v1"; "users"].
Proof. repeat constructor; unfold seg_clean; simpl; repeat constructor; discriminate. Qed.

Lemma string_app_inv_l (s t w : string) : s ++ t = s ++ w → t = w.
Proof. induction s as [|c s IH]; [done|]. rewrite !string_app_cons. intros [=]. auto. Qed.

(** Splitting at the first occurrence of a separator. *)
Lemma app_sep_inj sep s s' t t' :
  Forall (fun c : ascii => c ≠ sep) (String.list_ascii_of_string s) →
  Forall (fun c : ascii => c ≠ sep) (String.list_ascii_of_string s') →
  s ++ String sep t = s' ++ String sep t' → s = s' ∧ t = t'.
Proof.
  revert s'. induction s as [|c s IH]; intros [|c' s'] Hs Hs'; rewrite ?string_app_nil_l, ?string_app_cons.
  - intros [=]. done.
  - inversion Hs'. intros [=]. congruence.
  - inversion Hs. intros [=]. congruence.
  - inversion Hs; inversion Hs'; subst. intros [= -> Ht].
    destruct (IH s') as [-> ->]; done.
Qed.

Lemma string_app_neq_self (s t : string) c : s ++ String c t ≠ s.
Proof.
  induction s as [|c' s IH]; [discriminate|]. rewrite string_app_cons. intros [=]. auto.
Qed.

(** [None] for a falsy value, the value itself otherwise. *)
Definition none_if_falsy (v : pyval) : pyval :=
  match py_truthy v with Some false => PyNone | _ => v end.

Lemma none_if_falsy_cases v b :
  py_truthy v = Some b →
  (b = true ∧ py_is_none (none_if_falsy v) = false ∧ none_if_falsy v = v)
  ∨ (b = false ∧ py_is_none (none_if_falsy v) = true).
Proof.
  unfold none_if_falsy. intros E. rewrite E. destruct b; [left|right]; [|done].
  destruct v; simpl in *; simplify_eq; done.
Qed.

Lemma make_api_request_json u m m' p p' b :
  req_json <$> make_api_request u m p b = req_json <$> make_api_request u m' p' b.
Proof. unfold make_api_request. by destruct (py_format (id_token u)). Qed.

Lemma json_dumps_single v : json_dumps (PyList [v]) = (fun j => JArr [j]) <$> json_dumps v.
Proof. simpl. by destruct (json_dumps v). Qed.

Lemma string_app_inv_r (s t w : string) : s ++ w = t ++ w → s = t.
Proof.
  intros H. apply (f_equal String.list_ascii_of_string) in H.
  rewrite !list_ascii_of_string_app in H. apply app_inv_tail in H.
  rewrite <- (String.string_of_list_ascii_of_string s), <- (String.string_of_list_ascii_of_string t), H.
  done.
Qed.

Lemma NoDup_map_inj {A B} (f : A → B) (l : list A) :
  (∀ x y, f x = f y → x = y) → NoDup l → NoDup (map f l).
Proof.
  intros Hf. induction 1 as [|x l Hx Hl IH]; simpl; constructor; [|done].
  rewrite list_elem_of_In, in_map_iff. intros (y & Hy & Hin). apply Hf in Hy. subst.
  apply Hx, list_elem_of_In. done.
Qed.

Lemma create_user_put_table u cr sr gr pr ca ua t item :
  PutItem t item ∈ snd (create_user u cr sr gr pr ca ua) → t = "notification-service-users-dev".
Proof.
  intros H. unfold create_user in H. repeat case_match; simpl in H;
    repeat (apply elem_of_cons in H as [H|H]; [simplify_eq; done|]);
    by apply elem_of_nil in H.
Qed.

Lemma authenticate_user_true_id_token jwt_decode response u u' :
  authenticate_user jwt_decode response u = (true, u') →
  ∃ rsp tokens, response = Some rsp ∧ py_getitem rsp "AuthenticationResult" = Some tokens
                ∧ py_getitem tokens "IdToken" = Some (id_token u').
Proof.
  unfold authenticate_user, catch_all, mbind, PyM_bind, mret, PyM_ret, lift, assign.
  destruct response as [rsp|]; [|intros; simplify_eq].
  destruct (py_getitem rsp "AuthenticationResult") as [tokens|] eqn:E1; [|intros; simplify_eq].
  destruct (py_getitem tokens "IdToken") as [it|] eqn:E2; [|intros; simplify_eq].
  repeat case_match; intros; simplify_eq; eauto.
Qed.

(** Sample inputs: a user as the tests build one, after authentication;
    Cognito and DynamoDB answers; a decoder standing for [jwt.decode]. *)
Definition sample_user : User :=
  set_id_token (PyStr "id-tok")
    (__init__ "alice@example.com" "Passw0rd!" "user" "us-east-1" "us-east-1_pool" "client-id"
       "https://abc.execute-api.us-east-1.amazonaws.com/dev/"
       "https://sqs.us-east-1.amazonaws.com/123456789012/notification-queue-dev").

Definition sample_tokens : pyval :=
  PyDict [(PyStr "IdToken", PyStr "id-tok"); (PyStr "AccessToken", PyStr "acc-tok");
          (PyStr "RefreshToken", PyStr "ref-tok")].

Definition sample_auth_response : pyval :=
  PyDict [(PyStr "AuthenticationResult", sample_tokens)].

Definition sample_partial_tokens : pyval :=
  PyDict [(PyStr "IdToken", PyStr "id-tok"); (PyStr "AccessToken", PyStr "acc-tok")].

Definition sample_partial_response : pyval :=
  PyDict [(PyStr "AuthenticationResult", sample_partial_tokens)].

Definition sample_jwt_decode (token : pyval) : option pyval :=
  match token with PyStr _ => Some (PyDict [(PyStr "sub", PyStr "user-1")]) | _ => None end.

Definition cognito_status (code : Z) : aws_outcome :=
  inl (PyDict [(PyStr "ResponseMetadata", PyDict [(PyStr "HTTPStatusCode", PyInt code)])]).

Definition sample_get_user : aws_outcome := inl (PyDict [(PyStr "Username", PyStr "uuid-1")]).

Definition empty_answer : aws_outcome := inl (PyDict []).

End ClientFacts.

(* ================================================================== *)
(** ** Rendering and the email re-serialisation *)
(* ================================================================== *)

Module RenderFacts.
Import Service.

Local Open Scope nat_scope.

Local Ltac app_simpl := rewrite ?ClientFacts.string_app_cons, ?ClientFacts.string_app_nil_l.

Lemma string_length_app (s t : string) : String.length (s ++ t) = String.length s + String.length t.
Proof. induction s as [|c s IH]; [done|]. rewrite ClientFacts.string_app_cons. simpl. by rewrite IH. Qed.

(** *** Placeholders with no matching variable *)

(** No brace in [s]: variable names as the templates write them. *)
Definition brace_free (s : string) : Prop :=
  Forall (fun c : ascii => c ≠ "{"%char ∧ c ≠ "}"%char) (String.list_ascii_of_string s).

Lemma prefix_iff (p s : string) : String.prefix p s = true ↔ ∃ r, s = p ++ r.
Proof.
  split; [apply Facts.prefix_app|].
  intros [r ->]. induction p as [|c p IH]; [by destruct r|].
  rewrite ClientFacts.string_app_cons. simpl. destruct (ascii_dec c c); [done|congruence].
Qed.

Lemma substring_all m (r : string) : String.length r ≤ m → String.substring 0 m r = r.
Proof.
  revert m. induction r as [|c r IH]; intros [|m] Hm; simpl in *; try done; [lia|].
  f_equal. apply IH. lia.
Qed.

Lemma substring_app (p r : string) :
  String.substring (String.length p) (String.length (p ++ r)) (p ++ r) = r.
Proof.
  assert (H : ∀ m, String.length r ≤ m → String.substring (String.length p) m (p ++ r) = r).
  { induction p as [|c p IH]; intros m Hm.
    - rewrite ClientFacts.string_app_nil_l. by apply substring_all.
    - rewrite ClientFacts.string_app_cons. simpl. by apply IH. }
  apply H. rewrite string_length_app. lia.
Qed.

Lemma prefix_cons a (p : string) b (s : string) :
  String.prefix (String a p) (String b s) = if ascii_dec a b then String.prefix p s else false.
Proof. reflexivity. Qed.

Section Replace.
Variables (pat rep : string).
Hypothesis pat_ne : pat ≠ "".

Lemma rf_nil f : replace_all_fuel f pat rep "" = "".
Proof. by destruct f. Qed.

Lemma rf_match f (r : string) :
  replace_all_fuel (S f) pat rep (pat ++ r) = rep ++ replace_all_fuel f pat rep r.
Proof.
  destruct pat as [|c p] eqn:E; [done|].
  cbn [replace_all_fuel]. rewrite ClientFacts.string_app_cons.
  assert (Hp : String.prefix (String c p) (String c (p ++ r)) = true).
  { apply prefix_iff. exists r. by rewrite ClientFacts.string_app_cons. }
  rewrite Hp. f_equal. f_equal.
  rewrite <- ClientFacts.string_app_cons. apply substring_app.
Qed.

Lemma rf_skip f c (s : string) :
  String.prefix pat (String c s) = false →
  replace_all_fuel (S f) pat rep (String c s) = String c (replace_all_fuel f pat rep s).
Proof. intros Hp. cbn [replace_all_fuel]. by rewrite Hp. Qed.

(** The fuel only has to cover the string. *)
Lemma rf_fuel f1 f2 (s : string) :
  String.length s ≤ f1 → String.length s ≤ f2 →
  replace_all_fuel f1 pat rep s = replace_all_fuel f2 pat rep s.
Proof.
  revert f2 s. induction f1 as [|f1 IH]; intros f2 s H1 H2.
  - destruct s; simpl in H1; [|lia]. by rewrite !rf_nil.
  - destruct s as [|c s]; [by rewrite !rf_nil|].
    destruct f2 as [|f2]; [simpl in H2; lia|].
    destruct (String.prefix pat (String c s)) eqn:Hp.
    + apply prefix_iff in Hp as [r Hr]. rewrite Hr, !rf_match.
      assert (Hl : String.length (String c s) = String.length pat + String.length r)
        by (rewrite Hr; apply string_length_app).
      destruct pat; [done|]. simpl in Hl.
      f_equal. apply IH; simpl in *; lia.
    + rewrite !rf_skip by done. f_equal. apply IH; simpl in *; lia.
Qed.

Lemma replace_all_match (r : string) :
  replace_all pat rep (pat ++ r) = rep ++ replace_all pat rep r.
Proof.
  assert (Hl : 1 ≤ String.length pat) by (destruct pat; simpl; [done|lia]).
  unfold replace_all. rewrite string_length_app.
  replace (String.length pat + String.length r) with (S (String.length pat - 1 + String.length r)) by lia.
  rewrite rf_match. f_equal. apply rf_fuel; lia.
Qed.

Lemma replace_all_skip c (s : string) :
  String.prefix pat (String c s) = false →
  replace_all pat rep (String c s) = String c (replace_all pat rep s).
Proof. intros Hp. unfold replace_all. cbn [String.length]. by apply rf_skip. Qed.

(** No occurrence of [pat] starts in [t] (followed by [post]). *)
Fixpoint no_match_from (t post : string) : Prop :=
  match t with
  | EmptyString => True
  | String c t' => String.prefix pat (String c (t' ++ post)) = false ∧ no_match_from t' post
  end.

Lemma replace_all_skip_all (t post : string) :
  no_match_from t post → replace_all pat rep (t ++ post) = t ++ replace_all pat rep post.
Proof.
  induction t as [|c t IH]; intros Hn; [done|]. destruct Hn as [Hp Hn].
  rewrite !ClientFacts.string_app_cons, replace_all_skip by done. by rewrite IH.
Qed.

End Replace.

Section Placeholder.
Variables (k x : string).
Hypotheses (Hk : brace_free k) (Hx : brace_free x) (Hkx : x ≠ k).

Lemma brace_free_cons c s : brace_free (String c s) ↔ (c ≠ "{"%char ∧ c ≠ "}"%char) ∧ brace_free s.
Proof. unfold brace_free. simpl. split; [intros H; by inversion H|intros [? ?]; by constructor]. Qed.

(** Two brace-free words followed by [}] split the same way. *)
Lemma brace_free_split (a b u v : string) :
  brace_free a → brace_free b → a ++ String "}" u = b ++ String "}" v → a = b ∧ u = v.
Proof.
  revert b. induction a as [|c a IH]; intros [|d b] Ha Hb; app_simpl; intros E.
  - injection E as ->. done.
  - apply brace_free_cons in Hb as [[_ Hd] _]. injection E as E' _. congruence.
  - apply brace_free_cons in Ha as [[_ Hc] _]. injection E as E' _. congruence.
  - apply brace_free_cons in Ha as [_ Ha]. apply brace_free_cons in Hb as [_ Hb].
    injection E as -> E. destruct (IH b Ha Hb E) as [-> ->]. done.
Qed.

(** A [{] after a prefix of [k ++ "}}"] cannot be: the prefix covers it all. *)
Lemma brace_after_word (p z r : string) (w : string) :
  brace_free w → p ++ String "{" z = w ++ String "}" (String "}" r) →
  ∃ t, p = w ++ String "}" (String "}" t).
Proof.
  revert p. induction w as [|a w IH]; intros p Hw; app_simpl.
  - destruct p as [|c [|c' p]]; app_simpl; intros E.
    + discriminate E.
    + injection E as _ E. discriminate E.
    + injection E as -> -> _. exists p. done.
  - apply brace_free_cons in Hw as [[Ha _] Hw].
    destruct p as [|c p]; app_simpl; intros E.
    + injection E as E' _. congruence.
    + injection E as <- E. destruct (IH p Hw E) as [t ->]. exists t. by app_simpl.
Qed.

Lemma placeholder_unfold (n : string) :
  placeholder n = String "{" (String "{" (n ++ String "}" (String "}" ""))).
Proof. unfold placeholder. by app_simpl. Qed.

Lemma placeholder_app (n t : string) :
  placeholder n ++ t = String "{" (String "{" (n ++ String "}" (String "}" t))).
Proof.
  rewrite placeholder_unfold. app_simpl. rewrite <- ClientFacts.string_app_assoc. by app_simpl.
Qed.

(** An occurrence of [{{k}}] starting before [{{x}}] ends before it. *)
Lemma no_straddle (pre post : string) :
  pre ≠ "" → String.prefix (placeholder k) (pre ++ placeholder x ++ post) = true →
  ∃ r, pre = placeholder k ++ r.
Proof.
  intros Hne Hp. apply prefix_iff in Hp as [r0 E].
  rewrite !placeholder_app in E.
  destruct pre as [|c1 pre1]; [done|]. rewrite ClientFacts.string_app_cons in E.
  injection E as -> E.
  destruct pre1 as [|c2 pre2]; app_simpl.
  - destruct k as [|a k']; app_simpl; injection E as E _.
    + discriminate E.
    + apply brace_free_cons in Hk as [[Ha _] _]. congruence.
  - rewrite ClientFacts.string_app_cons in E. injection E as -> E.
    destruct (brace_after_word pre2 _ _ k Hk E) as [t ->].
    exists t. by rewrite placeholder_app.
Qed.

Lemma not_open_no_match (t post : string) :
  Forall (fun c : ascii => c ≠ "{"%char) (String.list_ascii_of_string t) →
  no_match_from (placeholder k) t post.
Proof.
  induction t as [|c t IH]; intros Ht; [done|]. inversion Ht as [|? ? Hc Ht']; subst.
  split; [|by apply IH].
  rewrite placeholder_unfold, prefix_cons. destruct (ascii_dec "{" c); [congruence|done].
Qed.

Lemma brace_free_not_open (s : string) :
  brace_free s → Forall (fun c : ascii => c ≠ "{"%char) (String.list_ascii_of_string s).
Proof. unfold brace_free. intros H. eapply Forall_impl; [exact H|]. naive_solver. Qed.

Lemma list_ascii_app (s t : string) :
  String.list_ascii_of_string (s ++ t) = (String.list_ascii_of_string s ++ String.list_ascii_of_string t)%list.
Proof. induction s as [|c s IH]; [done|]. rewrite ClientFacts.string_app_cons. simpl. by rewrite IH. Qed.

(** No occurrence of [{{k}}] starts inside [{{x}}]. *)
Lemma placeholder_no_match (post : string) : no_match_from (placeholder k) (placeholder x) post.
Proof.
  rewrite (placeholder_unfold x). split; [|split].
  - apply not_true_iff_false. intros Hp. apply prefix_iff in Hp as [r E].
    rewrite placeholder_app, ClientFacts.string_app_cons in E. injection E as E.
    rewrite <- ClientFacts.string_app_assoc in E. app_simpl.
    apply brace_free_split in E as [-> _]; done.
  - rewrite placeholder_unfold, prefix_cons.
    destruct (ascii_dec "{" "{"); [|congruence].
    rewrite <- ClientFacts.string_app_assoc.
    destruct x as [|b x']; app_simpl; rewrite prefix_cons.
    + by destruct (ascii_dec "{" "}").
    + apply brace_free_cons in Hx as [[Hb _] _].
      destruct (ascii_dec "{" b); [congruence|done].
  - apply not_open_no_match.
    rewrite list_ascii_app. apply Forall_app. split; [by apply brace_free_not_open|].
    repeat constructor; discriminate.
Qed.

Lemma no_match_app (t1 t2 post : string) :
  no_match_from (placeholder k) t1 (t2 ++ post) → no_match_from (placeholder k) t2 post →
  no_match_from (placeholder k) (t1 ++ t2) post.
Proof.
  induction t1 as [|c t1 IH]; [done|]. intros [Hp H1] H2.
  rewrite ClientFacts.string_app_cons. split; [|by apply IH].
  by rewrite <- ClientFacts.string_app_assoc.
Qed.

(** One replacement pass acts on both sides of [{{x}}] and leaves it. *)
Lemma replace_all_around (pre post rep : string) :
  replace_all (placeholder k) rep (pre ++ placeholder x ++ post)
  = replace_all (placeholder k) rep pre ++ placeholder x ++ replace_all (placeholder k) rep post.
Proof.
  assert (Hne : placeholder k ≠ "") by (rewrite placeholder_unfold; discriminate).
  induction pre as [pre IH] using (induction_ltof1 _ String.length).
  destruct pre as [|c pre'].
  - assert (E0 : replace_all (placeholder k) rep "" = "") by reflexivity.
    rewrite E0, !ClientFacts.string_app_nil_l.
    apply replace_all_skip_all. apply placeholder_no_match.
  - destruct (String.prefix (placeholder k) (String c pre' ++ placeholder x ++ post)) eqn:Hp.
    + apply no_straddle in Hp as [r Hr]; [|discriminate].
      rewrite Hr, <- ClientFacts.string_app_assoc, !replace_all_match by done.
      rewrite IH; [by rewrite ClientFacts.string_app_assoc|].
      unfold ltof. rewrite Hr, string_length_app.
      rewrite placeholder_unfold. simpl. lia.
    + assert (Hp' : String.prefix (placeholder k) (String c pre') = false).
      { apply not_true_iff_false. intros Hq. apply prefix_iff in Hq as [r Hr].
        apply not_true_iff_false in Hp. apply Hp. apply prefix_iff.
        exists (r ++ placeholder x ++ post)%string.
        rewrite Hr, <- ClientFacts.string_app_assoc. done. }
      rewrite ClientFacts.string_app_cons in Hp |- *.
      rewrite (replace_all_skip _ _ c _ Hp), (replace_all_skip _ _ c _ Hp').
      rewrite (IH pre'); [|unfold ltof; simpl; lia]. by rewrite ClientFacts.string_app_cons.
Qed.

End Placeholder.

(** Rendering leaves a placeholder of no variable where it is and works
    on the text around it, when the names carry no braces. *)
Lemma render_around vars (pre x post : string) :
  brace_free x → x ∉ vars.*1 → Forall brace_free vars.*1 →
  render vars (pre ++ placeholder x ++ post) = render vars pre ++ placeholder x ++ render vars post.
Proof.
  unfold render. revert pre post.
  induction vars as [|[k v] vars IH]; intros pre post Hx Hn Hb; [done|]. simpl.
  simpl in Hn, Hb. apply not_elem_of_cons in Hn as [Hkx Hn]. inversion Hb; subst.
  rewrite replace_all_around by done. by apply IH.
Qed.

(** *** The email re-serialisation *)

Definition ws_only (w : string) : Prop :=
  Forall (fun c => is_ws c = true) (String.list_ascii_of_string w).

Definition plain (s : string) : Prop :=
  Forall (fun c => plain_char c = true) (String.list_ascii_of_string s).

(** An object of string members, written with [w1] after the opening
    brace, [w2] and [w3] around each colon, [w4] after each value and
    [w5] after each comma. *)
Fixpoint members_text (w2 w3 w4 w5 : string) (kvs : list (string * string)) : string :=
  match kvs with
  | [] => ""
  | [(k, v)] => quote k ++ w2 ++ ":" ++ w3 ++ quote v ++ w4
  | (k, v) :: rest =>
      quote k ++ w2 ++ ":" ++ w3 ++ quote v ++ w4 ++ "," ++ w5 ++ members_text w2 w3 w4 w5 rest
  end.

Definition object_text (w1 w2 w3 w4 w5 : string) (kvs : list (string * string)) : string :=
  "{" ++ w1 ++ members_text w2 w3 w4 w5 kvs ++ "}".

Lemma skip_ws_app (w s : string) : ws_only w → skip_ws (w ++ s) = skip_ws s.
Proof.
  induction w as [|c w IH]; intros Hw; [done|]. inversion Hw; subst.
  rewrite ClientFacts.string_app_cons. simpl. rewrite H1. by apply IH.
Qed.

Lemma plain_not_quote c : plain_char c = true → Ascii.eqb c dquote = false.
Proof.
  unfold plain_char. destruct (Ascii.eqb c dquote); [|done].
  rewrite andb_false_r. done.
Qed.

Lemma parse_str_body_plain (s r : string) :
  plain s → parse_str_body (s ++ String dquote r) = Some (s, r).
Proof.
  induction s as [|c s IH]; intros Hs; [done|]. inversion Hs; subst.
  rewrite ClientFacts.string_app_cons. simpl.
  rewrite plain_not_quote, H1 by done. rewrite IH by done. done.
Qed.

Lemma json_quote_app (s r : string) : quote s ++ r = String dquote (s ++ String dquote r).
Proof.
  unfold quote. rewrite ClientFacts.string_app_cons, <- ClientFacts.string_app_assoc. done.
Qed.

Lemma parse_string_quote (w s r : string) :
  ws_only w → plain s → parse_string (w ++ quote s ++ r) = Some (s, r).
Proof.
  intros Hw Hs. unfold parse_string. rewrite skip_ws_app by done.
  rewrite json_quote_app. simpl. by apply parse_str_body_plain.
Qed.

Lemma expect_ws (w : string) c (r : string) : ws_only w → is_ws c = false →
  expect c (w ++ String c r) = Some r.
Proof.
  intros Hw Hc. unfold expect. rewrite skip_ws_app by done. simpl. rewrite Hc.
  by rewrite Ascii.eqb_refl.
Qed.

Definition members_ok (kvs : list (string * string)) : Prop :=
  Forall (fun kv => plain kv.1 ∧ plain kv.2) kvs.

Lemma parse_members_text w w2 w3 w4 w5 kvs fuel (r : string) :
  Forall ws_only [w; w2; w3; w4; w5] → members_ok kvs → kvs ≠ [] → length kvs ≤ fuel →
  parse_members fuel (w ++ members_text w2 w3 w4 w5 kvs ++ "}" ++ r) = Some (kvs, r).
Proof.
  intros Hws. inversion Hws as [|? ? Hw Hws1]; subst.
  inversion Hws1 as [|? ? Hw2 Hws2]; subst. inversion Hws2 as [|? ? Hw3 Hws3]; subst.
  inversion Hws3 as [|? ? Hw4 Hws4]; subst. inversion Hws4 as [|? ? Hw5 _]; subst.
  clear Hws Hws1 Hws2 Hws3 Hws4.
  revert w Hw fuel. induction kvs as [|[k v] kvs IH]; intros w Hw fuel Hok Hne Hf; [done|].
  inversion Hok as [|? ? [Hk Hv] Hok']; subst.
  destruct fuel as [|fuel]; [simpl in Hf; lia|].
  destruct kvs as [|kv' kvs'].
  - cbn [members_text parse_members].
    rewrite <- !ClientFacts.string_app_assoc, parse_string_quote by done.
    simpl. app_simpl. rewrite expect_ws by done. simpl.
    rewrite parse_string_quote by done. simpl.
    rewrite skip_ws_app by done. simpl. done.
  - remember (kv' :: kvs') as rest eqn:Hrest.
    assert (Hm : members_text w2 w3 w4 w5 ((k, v) :: rest)
                 = quote k ++ w2 ++ ":" ++ w3 ++ quote v ++ w4 ++ "," ++ w5
                   ++ members_text w2 w3 w4 w5 rest) by (subst rest; done).
    rewrite Hm. cbn [parse_members].
    rewrite <- !ClientFacts.string_app_assoc, parse_string_quote by done.
    simpl. app_simpl. rewrite expect_ws by done. simpl.
    rewrite parse_string_quote by done. simpl.
    rewrite skip_ws_app by done. simpl.
    change (String "}" r) with ("}" ++ r).
    rewrite IH; [done|done|done|subst rest; discriminate|simpl in Hf; lia].
Qed.

Lemma members_text_length w2 w3 w4 w5 kvs :
  length kvs ≤ String.length (members_text w2 w3 w4 w5 kvs).
Proof.
  induction kvs as [|[k v] [|kv' kvs] IH]; [simpl; lia| |].
  - simpl. rewrite json_quote_app. simpl. lia.
  - change (members_text w2 w3 w4 w5 ((k, v) :: kv' :: kvs))
      with (quote k ++ w2 ++ ":" ++ w3 ++ quote v ++ w4 ++ "," ++ w5
            ++ members_text w2 w3 w4 w5 (kv' :: kvs)).
    rewrite !string_length_app. simpl in IH |- *. lia.
Qed.

(** The parser reads back every such object. *)
Lemma parse_object_text w1 w2 w3 w4 w5 kvs :
  Forall ws_only [w1; w2; w3; w4; w5] → members_ok kvs → NoDup kvs.*1 →
  parse_object (object_text w1 w2 w3 w4 w5 kvs) = Some kvs.
Proof.
  intros Hws Hok Hnd. pose proof Hws as Hws'.
  inversion Hws' as [|? ? Hw1 _]; subst.
  unfold parse_object, object_text.
  assert (E : expect "{" ("{" ++ w1 ++ members_text w2 w3 w4 w5 kvs ++ "}")
              = Some (w1 ++ members_text w2 w3 w4 w5 kvs ++ "}")).
  { apply (expect_ws ""); [constructor|reflexivity]. }
  rewrite E. clear E. simpl.
  destruct kvs as [|[k v] kvs].
  - simpl. rewrite skip_ws_app by done. done.
  - rewrite skip_ws_app by done.
    assert (Hq : ∃ t, members_text w2 w3 w4 w5 ((k, v) :: kvs) ++ "}" = String dquote t).
    { destruct kvs; simpl; rewrite <- ?ClientFacts.string_app_assoc, json_quote_app; eexists; done. }
    destruct Hq as [t Ht]. rewrite Ht. simpl. rewrite <- Ht.
    replace (members_text w2 w3 w4 w5 ((k, v) :: kvs) ++ "}")
      with (members_text w2 w3 w4 w5 ((k, v) :: kvs) ++ "}" ++ "")
      by (by rewrite (ClientFacts.string_app_nil_r "}")).
    rewrite parse_members_text; [|done|done|discriminate|].
    + simpl. by rewrite bool_decide_eq_true_2.
    + rewrite !string_length_app.
      pose proof (members_text_length w2 w3 w4 w5 ((k, v) :: kvs)). lia.
Qed.

(** With no whitespace, the printer is the compact one of [email_content]. *)
Lemma join_members_compact kvs : join_members kvs = members_text "" "" "" "" kvs.
Proof.
  induction kvs as [|[k v] [|kv' kvs] IH]; [done| |].
  { simpl. by rewrite !ClientFacts.string_app_nil_l, ClientFacts.string_app_nil_r. }
  change (join_members ((k, v) :: kv' :: kvs))
    with (quote k ++ ":" ++ quote v ++ "," ++ join_members (kv' :: kvs)).
  rewrite IH. simpl. by rewrite !ClientFacts.string_app_nil_l.
Qed.

Lemma email_content_object w1 w2 w3 w4 w5 kvs :
  Forall ws_only [w1; w2; w3; w4; w5] → members_ok kvs → NoDup kvs.*1 →
  email_content (object_text w1 w2 w3 w4 w5 kvs) = object_text "" "" "" "" "" (sort_keys kvs).
Proof.
  intros Hws Hok Hnd. unfold email_content. rewrite parse_object_text by done.
  unfold object_text. rewrite join_members_compact. done.
Qed.

(** *** Sorting the keys *)

Definition key_le (a b : string * string) : Prop := string_leb a.1 b.1 = true.

Lemma string_leb_total (a b : string) : string_leb a b = false → string_leb b a = true.
Proof.
  revert b. induction a as [|c a IH]; intros [|d b]; simpl; try done.
  destruct (Nat.ltb_spec (nat_of_ascii c) (nat_of_ascii d)); [done|].
  destruct (Nat.eqb_spec (nat_of_ascii c) (nat_of_ascii d)) as [E|E].
  - rewrite E, Nat.ltb_irrefl, Nat.eqb_refl. apply IH.
  - intros _. destruct (Nat.ltb_spec (nat_of_ascii d) (nat_of_ascii c)); [done|lia].
Qed.

Lemma insert_sorted_perm kv kvs : insert_sorted kv kvs ≡ₚ kv :: kvs.
Proof.
  induction kvs as [|kv' kvs IH]; [done|]. simpl.
  destruct (string_leb _ _); [done|]. rewrite IH. constructor.
Qed.

Lemma insert_sorted_sorted kv kvs :
  Sorted key_le kvs →
  Sorted key_le (insert_sorted kv kvs)
  ∧ (∀ y, HdRel key_le y kvs → key_le y kv → HdRel key_le y (insert_sorted kv kvs)).
Proof.
  induction kvs as [|kv' kvs IH]; intros Hs.
  - split; [by repeat constructor|]. intros y _ Hy. simpl. by constructor.
  - simpl. destruct (string_leb kv.1 kv'.1) eqn:E.
    + split; [constructor; [done|by constructor]|]. intros y _ Hy. by constructor.
    + inversion Hs as [|? ? Hs' Hhd]; subst. destruct (IH Hs') as [IH1 IH2].
      split.
      * constructor; [done|]. apply IH2; [done|]. by apply string_leb_total.
      * intros y Hy _. inversion Hy; subst. by constructor.
Qed.

(** [sort_keys] puts the members in byte order of their keys. *)
Lemma sort_keys_spec kvs : sort_keys kvs ≡ₚ kvs ∧ Sorted key_le (sort_keys kvs).
Proof.
  induction kvs as [|kv kvs [IHp IHs]]; [split; [done|constructor]|]. simpl.
  split.
  - rewrite insert_sorted_perm, IHp. done.
  - by apply insert_sorted_sorted.
Qed.

End RenderFacts.

(* ================================================================== *)
(** ** Claims *)
(* ================================================================== *)

(** C9: on every run of app.py, whatever the environment, constructing
    [NotificationServiceStack] raises. When the stack name
    [NotificationService-<env>] passes the CDK's check, [_create_sqs_queue]
    loads the global [sqs], which the imports never bind ([NameError]);
    otherwise (e.g. [ENVIRONMENT=my_env]) the CDK's [Stack] constructor
    raises a [RuntimeError] first. Moreover no method ever assigns
    [self.notification_topic], so [_create_lambda_functions] raises from
    any state reached, and even with [sqs] imported the constructor would
    raise [AttributeError] on [notification_topic]. *)
Theorem C9_stack_construction_always_raises :
  (∀ ENVIRONMENT, ∃ e, Stack.app_main ENVIRONMENT = inl e)
  ∧ (∀ ENVIRONMENT, Stack.stack_base_init (Stack.stack_id ENVIRONMENT) = None →
       Stack.app_main ENVIRONMENT = inl (Stack.NameError "sqs"))
  ∧ (∀ ENVIRONMENT e, Stack.stack_base_init (Stack.stack_id ENVIRONMENT) = Some e →
       Stack.app_main ENVIRONMENT = inl e ∧ ∃ msg, e = Stack.RuntimeError msg)
  ∧ Forall (Stack.keeps_out "notification_topic") Stack.methods
  ∧ (∀ g st, "notification_topic" ∉ st →
       ∃ e, Stack._create_lambda_functions g st = inl e)
  ∧ Stack.__init__ ({["sqs"]} ∪ Stack.module_globals) ∅
      = inl (Stack.AttributeError "notification_topic").
Proof.
  pose proof Stack.init_raises_sqs as Hinit.
  split.
  { intros E. unfold Stack.app_main. rewrite Hinit.
    destruct (Stack.stack_base_init _); eexists; reflexivity. }
  split.
  { intros E HE. unfold Stack.app_main. by rewrite HE, Hinit. }
  split.
  { intros E e HE. unfold Stack.app_main. rewrite HE. split; [done|].
    revert HE. unfold Stack.stack_base_init, Stack.stack_name_error.
    repeat case_match; intros [= <-]; eauto. }
  clear Hinit.
  split; [repeat constructor; Stack.keeps_out_tac|].
  split; [|vm_compute; reflexivity].
  intros g st Hst. unfold Stack._create_lambda_functions.
  rewrite !Stack.bind_load_attr.
  repeat (case_decide; [|eexists; reflexivity]).
  exfalso. match goal with H : "notification_topic" ∈ _ ∪ _ |- _ =>
    apply elem_of_union in H as [H|H] end;
  [done | by apply Stack.notification_topic_not_class].
Qed.

(** C10 (as corrected): every body [send_notification_to_queue] publishes is
    the JSON object with exactly the keys id, type, recipients and variables,
    in that order; recipients is always an array (a non-list argument is
    wrapped as its single element); variables is never null: a [None]
    argument becomes the empty object, a dict becomes an object, and any
    other argument is passed through as the caller gave it. *)
Theorem C10_queue_body_shape id notification_type recipients variables body :
  Queue.send_notification_to_queue id notification_type recipients variables
    = Queue.Published body →
  ∃ jid jtype jrecipients jvariables,
    body = Queue.JObj [("id", jid); ("type", jtype);
                       ("recipients", Queue.JArr jrecipients);
                       ("variables", jvariables)]
    ∧ jvariables ≠ Queue.JNull
    ∧ (variables = Queue.PyNone → jvariables = Queue.JObj [])
    ∧ (variables ≠ Queue.PyNone → Queue.json_dumps variables = Some jvariables)
    ∧ (∀ kvs, variables = Queue.PyDict kvs → ∃ jkvs, jvariables = Queue.JObj jkvs)
    ∧ match recipients with
      | Queue.PyList _ => Queue.json_dumps recipients = Some (Queue.JArr jrecipients)
      | _ => ∃ j, Queue.json_dumps recipients = Some j ∧ jrecipients = [j]
      end.
Proof.
  unfold Queue.send_notification_to_queue. simpl.
  destruct (Queue.json_dumps id) as [jid|] eqn:Hid; simpl; [|discriminate].
  destruct (Queue.json_dumps notification_type) as [jty|] eqn:Hty; simpl; [|discriminate].
  remember (match recipients with
            | Queue.PyList _ => recipients | _ => Queue.PyList [recipients] end) as R eqn:HR.
  remember (match variables with
            | Queue.PyNone => Queue.PyDict [] | _ => variables end) as V eqn:HV.
  destruct (Queue.json_dumps R) as [jr|] eqn:Hr; simpl; [|discriminate].
  destruct (Queue.json_dumps V) as [jv|] eqn:Hv; simpl; [|discriminate].
  intros [= <-].
  assert (Hrec : ∃ js, jr = Queue.JArr js ∧
            match recipients with
            | Queue.PyList _ => Queue.json_dumps recipients = Some (Queue.JArr js)
            | _ => ∃ j, Queue.json_dumps recipients = Some j ∧ js = [j]
            end).
  { destruct recipients; subst R;
      try (apply Queue.json_dumps_singleton in Hr as [j [Hj ->]]; eauto; fail).
    destruct (Queue.json_dumps_list _ _ Hr) as [js ->]. eauto. }
  destruct Hrec as [js [-> Hjs]].
  exists jid, jty, js, jv.
  split; [done|].
  destruct variables; subst V;
    try (split; [intros ->; apply Queue.json_dumps_null in Hv; discriminate|];
         split; [discriminate|]; split; [auto|];
         split; [intros kvs' [= ->]; eapply Queue.json_dumps_dict; eauto|]; exact Hjs).
  simpl in Hv. injection Hv as <-.
  split; [discriminate|]. split; [auto|]. split; [congruence|].
  split; [discriminate|]. exact Hjs.
Qed.

(** C2: for every recipient of a request, a DeliveryRecord is written for
    a channel exactly when the global config does not disable the channel,
    the recipient's config does not disable it, and the recipient's
    effective preference for the request's type (their own entry, else the
    global one) lists the channel and is enabled; a recipient with neither
    entry gets no record. In the spec's scenario (global alert preferences
    on email, slack and in_app, the user's alert preference restricted to
    slack, inApp disabled in the global config), with slack otherwise
    enabled and an alert#slack template available, one alert to the user
    leaves exactly one record for that request, a successful one for
    slack, and none for email or in_app. *)
Theorem C2_delivery_iff_conjunction :
  (∀ (s : Service.store) (n : Service.notification) (uid : string) (ch : Service.channel),
     uid ∈ Service.recipients n →
     Service.ledger s !! Service.ledger_key n uid ch = None →
     (is_Some (Service.ledger (Service.process_notification s n) !! Service.ledger_key n uid ch)
      ↔ Service.config_flag (Service.configs s !! "*") ch = true
        ∧ Service.config_flag (Service.configs s !! uid) ch = true
        ∧ ∃ e, Service.effective_preference s uid (Service.n_type n) = Some e
               ∧ ch ∈ Service.channels e
               ∧ Service.enabled e = true))
  ∧ (∀ (s : Service.store) (id uid : string) (vars : list (string * string))
       (gcfg : Service.config_record) (tpl : string),
       Service.prefs s !! "*" ≫= (fun r => Service.preferences r !! "alert")
         = Some {| Service.channels := [Service.email; Service.slack; Service.in_app];
                   Service.enabled := true |} →
       Service.prefs s !! uid ≫= (fun r => Service.preferences r !! "alert")
         = Some {| Service.channels := [Service.slack]; Service.enabled := true |} →
       Service.configs s !! "*" = Some gcfg →
       Service.inapp_enabled (Service.cfg_inApp (Service.config gcfg)) = Some false →
       Service.config_flag (Service.configs s !! "*") Service.slack = true →
       Service.config_flag (Service.configs s !! uid) Service.slack = true →
       Service.resolve_template s uid "alert" Service.slack = Some tpl →
       (∀ k, k.1.1.1 = id → Service.ledger s !! k = None) →
       let s' := Service.process_notification s
                   {| Service.n_id := id; Service.n_type := "alert";
                      Service.recipients := [uid]; Service.n_variables := vars |} in
       (∀ k, k.1.1.1 = id → (is_Some (Service.ledger s' !! k) ↔ k = (id, uid, "alert", "slack")))
       ∧ Service.ledger s' !! (id, uid, "alert", "slack")
           = Some (Service.Delivered (Service.render vars tpl))).
Proof.
  split.
  - intros s n uid ch Hr Hfresh.
    rewrite Facts.process_lookup, Hfresh.
    unfold Facts.delivers, Facts.chans_of.
    rewrite (bool_decide_eq_true_2 _ Hr). simpl.
    split.
    + intros Hs. destruct (_ && _ && _) eqn:Hb; [|by destruct Hs].
      apply andb_prop in Hb as [Hb Hc]. apply andb_prop in Hb as [Hg Hu].
      apply bool_decide_eq_true in Hc.
      destruct (Service.effective_preference s uid (Service.n_type n)) as [e|];
        [|set_solver].
      destruct (Service.enabled e) eqn:Hen; [|set_solver].
      split; [done|]. split; [done|]. by exists e.
    + intros (Hg & Hu & e & He & Hc & Hen). rewrite Hg, Hu, He, Hen. simpl.
      rewrite bool_decide_eq_true_2 by done. by eexists.
  - intros s id uid vars gcfg tpl _ Hu Hg Hin Hgs Hus Htpl Hfresh s'.
    assert (Hpref : Facts.chans_of s
              {| Service.n_id := id; Service.n_type := "alert";
                 Service.recipients := [uid]; Service.n_variables := vars |} uid
              = [Service.slack]).
    { unfold Facts.chans_of, Service.effective_preference. simpl. by rewrite Hu. }
    split.
    + intros k Hk. destruct k as [[[i u] ty] c]. simpl in Hk. subst i. unfold s'.
      rewrite Facts.process_lookup_key, Hfresh by done.
      destruct (Service.parse_channel c) as [ch|] eqn:Hc.
      * apply Facts.parse_channel_Some in Hc as ->. simpl.
        case_bool_decide as Hty; simpl;
          [|split; [by intros [] | intros Heq; injection Heq; intros; exfalso; apply Hty; split; congruence]].
        destruct Hty as [_ Hty]; subst ty.
        case_bool_decide as Hui; simpl;
          [|split; [by intros [] | intros Heq; injection Heq; intros; subst; exfalso; set_solver]].
        apply list_elem_of_singleton in Hui as ->.
        unfold Facts.delivers. rewrite Hpref.
        destruct ch; simpl.
        -- rewrite andb_false_r. split; [by intros [] | discriminate].
        -- rewrite Hgs, Hus. simpl. split; [done | by eexists].
        -- rewrite andb_false_r. split; [by intros [] | discriminate].
      * split; [by intros [] |].
        intros Heq. injection Heq. intros; subst. discriminate Hc.
    + unfold s'. rewrite Facts.process_lookup_key. simpl.
      rewrite (bool_decide_eq_true_2 (id = id ∧ "alert" = "alert")) by done.
      rewrite (bool_decide_eq_true_2 (uid ∈ [uid])) by set_solver.
      unfold Facts.delivers. rewrite Hpref. simpl. rewrite Hgs, Hus. simpl.
      unfold Service.delivery_outcome. simpl. by rewrite Htpl.
Qed.

(** C1: when a user updates their own SystemConfig record, the stored
    config is the old one merged with the payload: every sub-field the
    payload leaves out (among them [slack.webhookUrl] and
    [inApp.platformAppIds]) keeps its stored value, and a payload without
    a config keeps the whole config. When a super_admin updates the global
    ["*"] record with a config, the stored config is exactly the payload's:
    nothing is inherited from the previous record. *)
Theorem C1_user_merge_global_replace :
  (∀ (a : Service.actor) (ctx : string) (p : Service.config_payload)
     (s : Service.store) (code : nat) (s' : Service.store),
     Service.actor_role a = Service.user →
     Service.handle a (Service.UpdateConfig ctx p) s = Service.Ok code s' →
     ∃ old r,
       Service.configs s !! Service.actor_userId a = Some old
       ∧ Service.configs s' !! Service.actor_userId a = Some r
       ∧ (Service.cp_config p = None → Service.config r = Service.config old)
       ∧ ∀ c, Service.cp_config p = Some c →
           let o := Service.config old in
           let n := Service.config r in
           n = Service.merge_config o c
           ∧ (Service.fromAddress (Service.cfg_email c) = None →
                Service.fromAddress (Service.cfg_email n) = Service.fromAddress (Service.cfg_email o))
           ∧ (Service.replyToAddress (Service.cfg_email c) = None →
                Service.replyToAddress (Service.cfg_email n) = Service.replyToAddress (Service.cfg_email o))
           ∧ (Service.email_enabled (Service.cfg_email c) = None →
                Service.email_enabled (Service.cfg_email n) = Service.email_enabled (Service.cfg_email o))
           ∧ (Service.webhookUrl (Service.cfg_slack c) = None →
                Service.webhookUrl (Service.cfg_slack n) = Service.webhookUrl (Service.cfg_slack o))
           ∧ (Service.slack_enabled (Service.cfg_slack c) = None →
                Service.slack_enabled (Service.cfg_slack n) = Service.slack_enabled (Service.cfg_slack o))
           ∧ (Service.platformAppIds (Service.cfg_inApp c) = None →
                Service.platformAppIds (Service.cfg_inApp n) = Service.platformAppIds (Service.cfg_inApp o))
           ∧ (Service.inapp_enabled (Service.cfg_inApp c) = None →
                Service.inapp_enabled (Service.cfg_inApp n) = Service.inapp_enabled (Service.cfg_inApp o)))
  ∧ (∀ (a : Service.actor) (p : Service.config_payload) (s : Service.store)
       (code : nat) (s' : Service.store) (c : Service.sys_config),
       Service.actor_role a = Service.super_admin →
       Service.cp_config p = Some c →
       Service.handle a (Service.UpdateConfig "*" p) s = Service.Ok code s' →
       ∃ r, Service.configs s' !! "*" = Some r ∧ Service.config r = c).
Proof.
  split.
  - intros a ctx p s code s' Hrole Hh.
    unfold Service.handle, Service.authorize in Hh. simpl in Hh. rewrite Hrole in Hh.
    destruct (String.eqb_spec (Service.target_context a ctx) (Service.actor_userId a))
      as [Ht|]; [|discriminate].
    rewrite Ht in Hh. simpl in Hh. unfold Service.update_config, Service.strategy_of in Hh.
    rewrite Hrole in Hh.
    destruct (Service.configs s !! Service.actor_userId a) as [old|] eqn:Hold;
      [|repeat case_match; discriminate].
    repeat case_match; simplify_eq; eexists _, _; simpl;
      (split; [reflexivity|]); (split; [apply lookup_insert_eq|]); simpl;
      (split; [congruence|]); intros c' [= <-]; simpl;
      (split; [reflexivity|]); repeat split; intros Hf; by rewrite Hf.
  - intros a p s code s' c Hrole Hc Hh.
    unfold Service.handle, Service.authorize in Hh. simpl in Hh. rewrite Hrole in Hh.
    simpl in Hh. unfold Service.update_config, Service.strategy_of in Hh.
    rewrite Hrole, Hc in Hh. simpl in Hh.
    unfold Service.target_context in Hh. simpl in Hh.
    repeat case_match; simplify_eq. eexists. split; [apply lookup_insert_eq|done].
Qed.

(** C3 (counterexample): a non-admin's create of their own config with
    [slack.webhookUrl] and [inApp.platformAppIds] succeeds with 201
    (test_api.py:372-380), and a super_admin's create of the global config
    with [email.fromAddress] and [email.replyToAddress] succeeds with 201
    (test_api.py:424-428). *)
Lemma C3_counterexample :
  Service.status_of (Service.handle Fixtures.alice
                       (Service.CreateConfig "" Fixtures.user_slack_payload) Fixtures.empty_store) = 201
  ∧ Service.status_of (Service.handle Fixtures.admin
                         (Service.CreateConfig "*" Fixtures.global_payload) Fixtures.empty_store) = 201.
Proof. split; vm_compute; reflexivity. Qed.

(** C3 (as corrected): a create or update of a SystemConfig by a non-admin
    (whose userId is not ["*"]) with a config holding [email.fromAddress]
    or [email.replyToAddress] fails with a 403 error, so nothing is stored;
    and any create or update of the global ["*"] context, by any actor,
    with a config holding [slack.webhookUrl] or [inApp.platformAppIds]
    fails with a 403 error. *)
Theorem C3_forbidden_config_fields :
  (∀ (a : Service.actor) (ctx : string) (p : Service.config_payload)
     (s : Service.store) (c : Service.sys_config) (r : Service.request),
     Service.actor_role a = Service.user →
     Service.actor_userId a ≠ "*" →
     Service.cp_config p = Some c →
     is_Some (Service.fromAddress (Service.cfg_email c))
       ∨ is_Some (Service.replyToAddress (Service.cfg_email c)) →
     r = Service.CreateConfig ctx p ∨ r = Service.UpdateConfig ctx p →
     ∃ e, Service.handle a r s = Service.Err e ∧ Service.error_status e = 403)
  ∧ (∀ (a : Service.actor) (p : Service.config_payload) (s : Service.store)
       (c : Service.sys_config) (r : Service.request),
       Service.cp_config p = Some c →
       is_Some (Service.webhookUrl (Service.cfg_slack c))
         ∨ is_Some (Service.platformAppIds (Service.cfg_inApp c)) →
       r = Service.CreateConfig "*" p ∨ r = Service.UpdateConfig "*" p →
       ∃ e, Service.handle a r s = Service.Err e ∧ Service.error_status e = 403).
Proof.
  split.
  - intros a ctx p s c r Hrole Hne Hc Hf Hr.
    assert (Hv : ∃ f, Service.config_violation a (Service.actor_userId a) c = Some f).
    { unfold Service.config_violation.
      rewrite (proj2 (String.eqb_neq _ _) Hne), Hrole.
      destruct (is_Some_dec (Service.fromAddress (Service.cfg_email c))); [by eexists|].
      destruct (is_Some_dec (Service.replyToAddress (Service.cfg_email c))); [by eexists|].
      tauto. }
    destruct Hv as [f Hv].
    destruct Hr as [-> | ->]; unfold Service.handle, Service.authorize; simpl; rewrite Hrole;
      (destruct (String.eqb_spec (Service.target_context a ctx) (Service.actor_userId a))
         as [Ht|]; [|by eexists]); rewrite Ht; simpl.
    + unfold Service.create_config. rewrite Hc, Hv. by eexists.
    + unfold Service.update_config. rewrite Hc. simpl. rewrite Hv. by eexists.
  - intros a p s c r Hc Hf Hr.
    assert (Hv : ∃ f, Service.config_violation a "*" c = Some f).
    { unfold Service.config_violation. simpl.
      destruct (is_Some_dec (Service.webhookUrl (Service.cfg_slack c))); [by eexists|].
      destruct (is_Some_dec (Service.platformAppIds (Service.cfg_inApp c))); [by eexists|].
      tauto. }
    destruct Hv as [f Hv].
    assert (Ht : Service.target_context a "*" = "*") by reflexivity.
    destruct Hr as [-> | ->]; unfold Service.handle; simpl;
      (destruct (Service.authorize a "*"); [|by eexists]); rewrite Ht; simpl.
    + unfold Service.create_config. rewrite Hc, Hv. by eexists.
    + unfold Service.update_config. rewrite Hc. simpl. rewrite Hv. by eexists.
Qed.

(** C4 (counterexample): a non-admin reading the preferences of their own
    context ([""]) that has none gets a not-found error, not a success. *)
Lemma C4_counterexample :
  Service.handle Fixtures.alice (Service.GetPreferences "") Fixtures.empty_store
    = Service.Err Service.NotFound.
Proof. vm_compute. reflexivity. Qed.

(** C4 (as corrected): for a non-admin, every operation whose target
    context is neither [""] nor their userId (so ["*"] or another user's
    id) is denied with an authorization error (403, no state change), and
    every listing over all users, preferences or configs is denied, while a
    super_admin's listing answers 200. An operation of a non-admin on their
    own context ([""] or their userId) is run by its handler on their
    userId and is never an authorization denial; it may still fail with a
    validation, forbidden-field, not-found or conflict error. *)
Theorem C4_guard :
  (∀ (a : Service.actor) (r : Service.request) (s : Service.store) (ctx : string),
     Service.actor_role a = Service.user →
     Service.request_context r = Some ctx →
     ctx ≠ "" → ctx ≠ Service.actor_userId a →
     Service.handle a r s = Service.Err Service.AuthorizationError)
  ∧ (∀ (a : Service.actor) (r : Service.request) (s : Service.store),
       Service.request_context r = None →
       Service.handle a r s
         = match Service.actor_role a with
           | Service.user => Service.Err Service.AuthorizationError
           | Service.super_admin => Service.Ok 200 s
           end)
  ∧ (∀ (a : Service.actor) (r : Service.request) (s : Service.store) (ctx : string),
       Service.actor_role a = Service.user →
       Service.request_context r = Some ctx →
       ctx = "" ∨ ctx = Service.actor_userId a →
       Service.handle a r s = Service.dispatch a (Service.actor_userId a) r s
       ∧ Service.handle a r s ≠ Service.Err Service.AuthorizationError).
Proof.
  split; [|split].
  - intros a r s ctx Hrole Hr Hne Hno.
    unfold Service.handle, Service.authorize, Service.target_context.
    rewrite Hr, Hrole, (proj2 (String.eqb_neq _ _) Hne), (proj2 (String.eqb_neq _ _) Hno).
    reflexivity.
  - intros a r s Hr. unfold Service.handle, Service.authorize_list. rewrite Hr.
    destruct (Service.actor_role a); [reflexivity|].
    destruct r; try discriminate; reflexivity.
  - intros a r s ctx Hrole Hr Hctx.
    assert (Ht : Service.target_context a ctx = Service.actor_userId a).
    { unfold Service.target_context.
      destruct Hctx as [-> | ->]; [reflexivity|].
      by destruct (String.eqb (Service.actor_userId a) ""). }
    assert (Hh : Service.handle a r s = Service.dispatch a (Service.actor_userId a) r s).
    { unfold Service.handle, Service.authorize. rewrite Hr, Hrole, Ht, String.eqb_refl.
      reflexivity. }
    split; [exact Hh|]. rewrite Hh. apply Facts.dispatch_not_denied.
Qed.

(** C5: processing a request writes, for every recipient [uid] and channel
    [ch] the recipient's preferences and the configs enable, a record at
    its own key [(id, uid, type, ch)]: the recipient's own template for
    [type#ch] when there is one, else the global one, else an error record
    "template not found". Each such record is written whatever happens
    with the other channels and recipients (processing never stops), and
    keys of other requests are left as they were. *)
Theorem C5_template_resolution (s : Service.store) (n : Service.notification) :
  (∀ (uid : string) (ch : Service.channel),
     uid ∈ Service.recipients n →
     Facts.delivers s n uid ch = true →
     Service.ledger (Service.process_notification s n) !! Service.ledger_key n uid ch
       = Some (match Service.templates s !! (uid, Service.template_key (Service.n_type n) ch) with
               | Some c =>
                   Service.Delivered (Service.delivered_content ch (Service.render (Service.n_variables n) c))
               | None =>
                   match Service.templates s !! ("*", Service.template_key (Service.n_type n) ch) with
                   | Some c =>
                       Service.Delivered
                         (Service.delivered_content ch (Service.render (Service.n_variables n) c))
                   | None => Service.DeliveryError "template not found"
                   end
               end))
  ∧ (∀ k, k.1.1.1 ≠ Service.n_id n →
       Service.ledger (Service.process_notification s n) !! k = Service.ledger s !! k).
Proof.
  split.
  - intros uid ch Hr Hd.
    rewrite Facts.process_lookup, (bool_decide_eq_true_2 _ Hr), Hd. simpl.
    unfold Service.delivery_outcome, Service.resolve_template.
    by destruct (Service.templates s !! (uid, _)).
  - intros k Hk. apply Facts.process_lookup_other.
    intros uid ch <-. by apply Hk.
Qed.



(** C7: for an authorized caller and the context [t] its request resolves
    to: a create of Preferences (resp. SystemConfig) when [t] already has
    one fails with a conflict (400) with a valid payload, and nothing is
    written; after a successful delete, a get for the same context is
    not found (404); a delete of a missing record is not found, and so is
    an update of a missing record with a valid payload. *)
Theorem C7_conflict_and_not_found :
  (∀ (a : Service.actor) (ctx : string) (p : Service.pref_payload) (s : Service.store),
     Service.authorize a ctx = true →
     is_Some (Service.prefs s !! Service.target_context a ctx) →
     is_Some (Service.pp_preferences p ≫= Service.parse_preferences) →
     Service.handle a (Service.CreatePreferences ctx p) s = Service.Err Service.Conflict)
  ∧ (∀ (a : Service.actor) (ctx : string) (p : Service.config_payload) (s : Service.store)
       (c : Service.sys_config),
       Service.authorize a ctx = true →
       is_Some (Service.configs s !! Service.target_context a ctx) →
       Service.cp_config p = Some c →
       Service.config_violation a (Service.target_context a ctx) c = None →
       Service.handle a (Service.CreateConfig ctx p) s = Service.Err Service.Conflict)
  ∧ (∀ (a : Service.actor) (ctx : string) (s : Service.store) (code : nat) (s' : Service.store),
       Service.handle a (Service.DeletePreferences ctx) s = Service.Ok code s' →
       Service.handle a (Service.GetPreferences ctx) s' = Service.Err Service.NotFound)
  ∧ (∀ (a : Service.actor) (ctx : string) (s : Service.store) (code : nat) (s' : Service.store),
       Service.handle a (Service.DeleteConfig ctx) s = Service.Ok code s' →
       Service.handle a (Service.GetConfig ctx) s' = Service.Err Service.NotFound)
  ∧ (∀ (a : Service.actor) (ctx : string) (p : Service.pref_payload) (s : Service.store),
       Service.authorize a ctx = true →
       Service.prefs s !! Service.target_context a ctx = None →
       Service.handle a (Service.DeletePreferences ctx) s = Service.Err Service.NotFound
       ∧ ((Service.pp_preferences p, Service.pp_timezone p, Service.pp_language p)
            ≠ (None, None, None) →
          (∀ raw, Service.pp_preferences p = Some raw → is_Some (Service.parse_preferences raw)) →
          Service.handle a (Service.UpdatePreferences ctx p) s = Service.Err Service.NotFound))
  ∧ (∀ (a : Service.actor) (ctx : string) (p : Service.config_payload) (s : Service.store),
       Service.authorize a ctx = true →
       Service.configs s !! Service.target_context a ctx = None →
       Service.handle a (Service.DeleteConfig ctx) s = Service.Err Service.NotFound
       ∧ ((Service.cp_config p, Service.cp_description p) ≠ (None, None) →
          (∀ c, Service.cp_config p = Some c →
                Service.config_violation a (Service.target_context a ctx) c = None) →
          Service.handle a (Service.UpdateConfig ctx p) s = Service.Err Service.NotFound)).
Proof.
  split; [|split; [|split; [|split; [|split]]]].
  - intros a ctx p s Ha [old Hold] [m Hm]. unfold Service.handle. simpl. rewrite Ha. simpl.
    unfold Service.create_preferences.
    destruct (Service.pp_preferences p) as [raw|]; simpl in Hm; [|discriminate].
    by rewrite Hm, Hold.
  - intros a ctx p s c Ha [old Hold] Hc Hv. unfold Service.handle. simpl. rewrite Ha. simpl.
    unfold Service.create_config. by rewrite Hc, Hv, Hold.
  - intros a ctx s code s' Hh. unfold Service.handle in *. simpl in *.
    destruct (Service.authorize a ctx); [|discriminate]. simpl in *.
    unfold Service.delete_preferences in Hh.
    destruct (Service.prefs s !! _); simplify_eq. unfold Service.get_preferences. simpl.
    by rewrite lookup_delete_eq.
  - intros a ctx s code s' Hh. unfold Service.handle in *. simpl in *.
    destruct (Service.authorize a ctx); [|discriminate]. simpl in *.
    unfold Service.delete_config in Hh.
    destruct (Service.configs s !! _); simplify_eq. unfold Service.get_config. simpl.
    by rewrite lookup_delete_eq.
  - intros a ctx p s Ha Hnone. unfold Service.handle. simpl. rewrite Ha. simpl.
    split; [unfold Service.delete_preferences; by rewrite Hnone|].
    intros Hf Hvalid. unfold Service.update_preferences.
    destruct (Service.pp_preferences p) as [raw|].
    + destruct (Hvalid raw eq_refl) as [m Hm]. rewrite Hm. simpl. rewrite Hnone.
      by destruct (Service.pp_timezone p), (Service.pp_language p).
    + rewrite Hnone. by destruct (Service.pp_timezone p), (Service.pp_language p).
  - intros a ctx p s Ha Hnone. unfold Service.handle. simpl. rewrite Ha. simpl.
    split; [unfold Service.delete_config; by rewrite Hnone|].
    intros Hf Hvalid. unfold Service.update_config.
    destruct (Service.cp_config p) as [c|].
    + simpl. rewrite (Hvalid c eq_refl), Hnone.
      by destruct (Service.cp_description p).
    + simpl. rewrite Hnone. destruct (Service.cp_description p); [done|]. by destruct Hf.
Qed.

(** C8: a created schedule is stored [active]; the owner (or a
    super_admin) pausing an active schedule leaves it [paused], resuming a
    paused one leaves it [active]; an update of its variables and/or cron
    expression is accepted in either state and keeps the status; a delete
    is accepted in either state and removes it; and while a schedule is
    paused, the trigger emits no request for it at any instant, whatever
    the cron expressions match. *)
Theorem C8_schedule_lifecycle :
  (∀ (a : Service.actor) (fresh ty : string) (vars : list (string * string)) (cron : string)
     (s : Service.store) (code : nat) (s' : Service.store),
     Service.handle_schedule a fresh (Service.CreateSchedule ty vars cron) s = Service.Ok code s' →
     ∃ sn, Service.schedules s' !! fresh = Some sn ∧ Service.status sn = Service.active)
  ∧ (∀ (a : Service.actor) (fresh sid : string) (s : Service.store)
       (sn : Service.scheduled_notification),
       Service.schedules s !! sid = Some sn → Service.owns a sn = true →
       Service.status sn = Service.active →
       ∃ s' sn', Service.handle_schedule a fresh (Service.PauseSchedule sid) s = Service.Ok 200 s'
         ∧ Service.schedules s' !! sid = Some sn' ∧ Service.status sn' = Service.paused)
  ∧ (∀ (a : Service.actor) (fresh sid : string) (s : Service.store)
       (sn : Service.scheduled_notification),
       Service.schedules s !! sid = Some sn → Service.owns a sn = true →
       Service.status sn = Service.paused →
       ∃ s' sn', Service.handle_schedule a fresh (Service.ResumeSchedule sid) s = Service.Ok 200 s'
         ∧ Service.schedules s' !! sid = Some sn' ∧ Service.status sn' = Service.active)
  ∧ (∀ (a : Service.actor) (fresh sid : string) (vars : option (list (string * string)))
       (cron : option string) (s : Service.store) (sn : Service.scheduled_notification),
       Service.schedules s !! sid = Some sn → Service.owns a sn = true →
       ∃ s' sn', Service.handle_schedule a fresh (Service.UpdateSchedule sid vars cron) s
                   = Service.Ok 200 s'
         ∧ Service.schedules s' !! sid = Some sn'
         ∧ Service.status sn' = Service.status sn
         ∧ Service.sched_variables sn' = default (Service.sched_variables sn) vars
         ∧ Service.expression sn' = default (Service.expression sn) cron)
  ∧ (∀ (a : Service.actor) (fresh sid : string) (s : Service.store)
       (sn : Service.scheduled_notification),
       Service.schedules s !! sid = Some sn → Service.owns a sn = true →
       ∃ s', Service.handle_schedule a fresh (Service.DeleteSchedule sid) s = Service.Ok 200 s'
         ∧ Service.schedules s' !! sid = None)
  ∧ (∀ (cron_matches : string → nat → bool) (t : nat) (s : Service.store) (sid : string)
       (sn : Service.scheduled_notification),
       Service.schedules s !! sid = Some sn → Service.status sn = Service.paused →
       ∀ n, n ∈ Service.trigger cron_matches t s → Service.n_id n ≠ sid).
Proof.
  split; [|split; [|split; [|split; [|split]]]].
  - intros a fresh ty vars cron s code s' Hh. simpl in Hh.
    case_bool_decide; simplify_eq. eexists. split; [apply lookup_insert_eq|done].
  - intros a fresh sid s sn Hsn Ho Hst. simpl. rewrite Hsn, Ho, Hst.
    eexists _, _. split; [reflexivity|]. split; [apply lookup_insert_eq|done].
  - intros a fresh sid s sn Hsn Ho Hst. simpl. rewrite Hsn, Ho, Hst.
    eexists _, _. split; [reflexivity|]. split; [apply lookup_insert_eq|done].
  - intros a fresh sid vars cron s sn Hsn Ho. simpl. rewrite Hsn, Ho.
    eexists _, _. split; [reflexivity|]. split; [apply lookup_insert_eq|]. done.
  - intros a fresh sid s sn Hsn Ho. simpl. rewrite Hsn, Ho.
    eexists. split; [reflexivity|]. apply lookup_delete_eq.
  - intros cron_matches t s sid sn Hsn Hst n Hn Hid. unfold Service.trigger in Hn.
    apply list_elem_of_fmap in Hn as [[sid' sn'] [-> Hin]]. simpl in Hid. subst sid'.
    apply list_elem_of_In, filter_In in Hin as [Hin Hf].
    apply list_elem_of_In, elem_of_map_to_list in Hin.
    rewrite Hsn in Hin. injection Hin as <-. rewrite Hst in Hf. discriminate.
Qed.

(** C10 (counterexample): a [variables] argument that is neither [None]
    nor a dict, here a string, is published as it is: the message's
    variables field is then a JSON string, not a mapping. *)
Lemma C10_counterexample :
  Queue.send_notification_to_queue (Queue.PyStr "n-1") (Queue.PyStr "alert")
    (Queue.PyStr "user-1") (Queue.PyStr "oops")
  = Queue.Published (Queue.JObj [("id", Queue.JStr "n-1"); ("type", Queue.JStr "alert");
                                 ("recipients", Queue.JArr [Queue.JStr "user-1"]);
                                 ("variables", Queue.JStr "oops")]).
Proof. vm_compute. reflexivity. Qed.

(* ================================================================== *)
(** ** The claims at concrete inputs *)
(* ================================================================== *)

Lemma C9_witness :
  Stack.app_main None = inl (Stack.NameError "sqs")
  ∧ (Stack.app_main (Some "my_env")
       = inl (Stack.RuntimeError "Stack name must match the regular expression: /^[A-Za-z][A-Za-z0-9-]*$/, got 'NotificationService-my_env'")
     ∧ ∃ msg, Stack.RuntimeError "Stack name must match the regular expression: /^[A-Za-z][A-Za-z0-9-]*$/, got 'NotificationService-my_env'"
              = Stack.RuntimeError msg)
  ∧ ("notification_topic" ∉ (∅ : gset string))
  ∧ ∃ e, Stack._create_lambda_functions Stack.module_globals ∅ = inl e.
Proof.
  destruct C9_stack_construction_always_raises as (_ & Hok & Hbad & _ & Hlam & _).
  split; [apply Hok; vm_compute; reflexivity|].
  split; [apply Hbad; vm_compute; reflexivity|].
  assert (H : "notification_topic" ∉ (∅ : gset string)) by apply not_elem_of_empty.
  split; [exact H|].
  exact (Hlam Stack.module_globals ∅ H).
Defined.

Lemma C10_witness :
  Queue.send_notification_to_queue (Queue.PyStr "n-1") (Queue.PyStr "alert")
    (Queue.PyStr "user-1") Queue.PyNone
  = Queue.Published (Queue.JObj [("id", Queue.JStr "n-1"); ("type", Queue.JStr "alert");
                                 ("recipients", Queue.JArr [Queue.JStr "user-1"]);
                                 ("variables", Queue.JObj [])])
  ∧ ∃ jvariables, jvariables = Queue.JObj [] ∧ jvariables ≠ Queue.JNull.
Proof.
  assert (H : Queue.send_notification_to_queue (Queue.PyStr "n-1") (Queue.PyStr "alert")
                (Queue.PyStr "user-1") Queue.PyNone
              = Queue.Published (Queue.JObj [("id", Queue.JStr "n-1"); ("type", Queue.JStr "alert");
                                             ("recipients", Queue.JArr [Queue.JStr "user-1"]);
                                             ("variables", Queue.JObj [])]))
    by (vm_compute; reflexivity).
  split; [exact H|].
  destruct (C10_queue_body_shape _ _ _ _ _ H) as (jid & jty & jr & jv & _ & Hn & Hnone & _).
  exists jv. split; [exact (Hnone eq_refl) | exact Hn].
Defined.

Lemma C1_witness :
  (Service.handle Fixtures.alice (Service.UpdateConfig "" Fixtures.user_email_update)
     Fixtures.user_config_store
   = Service.Ok 200 (Fixtures.store_of (Service.handle Fixtures.alice
                        (Service.UpdateConfig "" Fixtures.user_email_update) Fixtures.user_config_store)
                        Fixtures.user_config_store)
   ∧ ∃ old r,
       Service.configs Fixtures.user_config_store !! "user-1" = Some old
       ∧ Service.configs (Fixtures.store_of (Service.handle Fixtures.alice
                            (Service.UpdateConfig "" Fixtures.user_email_update) Fixtures.user_config_store)
                            Fixtures.user_config_store) !! "user-1" = Some r
       ∧ Service.webhookUrl (Service.cfg_slack (Service.config r))
         = Service.webhookUrl (Service.cfg_slack (Service.config old)))
  ∧ (Service.handle Fixtures.admin (Service.UpdateConfig "*" Fixtures.global_update)
       Fixtures.publishing_store
     = Service.Ok 200 (Fixtures.store_of (Service.handle Fixtures.admin
                          (Service.UpdateConfig "*" Fixtures.global_update) Fixtures.publishing_store)
                          Fixtures.publishing_store)
     ∧ ∃ r, Service.configs (Fixtures.store_of (Service.handle Fixtures.admin
                               (Service.UpdateConfig "*" Fixtures.global_update) Fixtures.publishing_store)
                               Fixtures.publishing_store) !! "*" = Some r
            ∧ Service.config r = Fixtures.scenario_config).
Proof.
  split.
  - match goal with |- ?h = ?o ∧ _ => assert (H : h = o) by (vm_compute; reflexivity) end.
    split; [exact H|].
    destruct (proj1 C1_user_merge_global_replace Fixtures.alice "" Fixtures.user_email_update
               Fixtures.user_config_store 200 _ eq_refl H)
      as (old & r & Hold & Hr & _ & Hc).
    exists old, r. split; [exact Hold|]. split; [exact Hr|].
    destruct (Hc _ eq_refl) as (_ & _ & _ & _ & Hw & _). exact (Hw eq_refl).
  - match goal with |- ?h = ?o ∧ _ => assert (H : h = o) by (vm_compute; reflexivity) end.
    split; [exact H|].
    exact (proj2 C1_user_merge_global_replace Fixtures.admin Fixtures.global_update
             Fixtures.publishing_store 200 _ Fixtures.scenario_config eq_refl eq_refl H).
Defined.

Lemma C2_witness :
  is_Some (Service.ledger (Service.process_notification Fixtures.publishing_store Fixtures.report_request)
             !! Service.ledger_key Fixtures.report_request "admin-1" Service.email)
  ∧ Service.ledger (Service.process_notification Fixtures.scenario_store
                      {| Service.n_id := "alert-1"; Service.n_type := "alert";
                         Service.recipients := ["user-1"]; Service.n_variables := Fixtures.alert_vars |})
      !! ("alert-1", "user-1", "alert", "slack")
    = Some (Service.Delivered (Service.render Fixtures.alert_vars Fixtures.slack_alert_template)).
Proof.
  split.
  - apply (proj1 C2_delivery_iff_conjunction Fixtures.publishing_store Fixtures.report_request
             "admin-1" Service.email);
      [apply list_elem_of_In; simpl; auto|vm_compute; reflexivity|].
    split; [vm_compute; reflexivity|]. split; [vm_compute; reflexivity|].
    exists {| Service.channels := [Service.email; Service.slack; Service.in_app];
              Service.enabled := true |}.
    split; [vm_compute; reflexivity|].
    split; [apply list_elem_of_In; simpl; auto|reflexivity].
  - apply (proj2 C2_delivery_iff_conjunction Fixtures.scenario_store "alert-1" "user-1"
             Fixtures.alert_vars
             {| Service.config_context := "*"; Service.config := Fixtures.scenario_config;
                Service.description := None |} Fixtures.slack_alert_template);
      try (vm_compute; reflexivity).
Defined.

Lemma C3_witness :
  (∃ e, Service.handle Fixtures.alice (Service.CreateConfig "" Fixtures.global_payload)
          Fixtures.empty_store = Service.Err e ∧ Service.error_status e = 403)
  ∧ (∃ e, Service.handle Fixtures.admin (Service.CreateConfig "*" Fixtures.user_slack_payload)
            Fixtures.empty_store = Service.Err e ∧ Service.error_status e = 403).
Proof.
  split.
  - apply (proj1 C3_forbidden_config_fields Fixtures.alice "" Fixtures.global_payload
             Fixtures.empty_store Fixtures.global_config); try reflexivity.
    + discriminate.
    + left. eexists. reflexivity.
    + left. reflexivity.
  - eapply (proj2 C3_forbidden_config_fields Fixtures.admin Fixtures.user_slack_payload
             Fixtures.empty_store); [reflexivity| |].
    + left. eexists. reflexivity.
    + left. reflexivity.
Defined.

Lemma C4_witness :
  Service.handle Fixtures.alice (Service.GetConfig "*") Fixtures.publishing_store
    = Service.Err Service.AuthorizationError
  ∧ Service.handle Fixtures.alice Service.ListConfigs Fixtures.publishing_store
    = Service.Err Service.AuthorizationError
  ∧ Service.handle Fixtures.alice (Service.GetPreferences "") Fixtures.publishing_store
    ≠ Service.Err Service.AuthorizationError.
Proof.
  split; [|split].
  - apply (proj1 C4_guard _ _ _ "*"); [reflexivity|reflexivity|discriminate|discriminate].
  - exact (proj1 (proj2 C4_guard) Fixtures.alice Service.ListConfigs
             Fixtures.publishing_store eq_refl).
  - apply (proj2 (proj2 C4_guard) _ _ _ ""); [reflexivity|reflexivity|left; reflexivity].
Defined.

Lemma C5_witness :
  Service.ledger (Service.process_notification Fixtures.publishing_store Fixtures.alert_request)
    !! Service.ledger_key Fixtures.alert_request "user-1" Service.slack
  = Some (Service.Delivered (Service.render Fixtures.alert_vars Fixtures.slack_alert_template))
  ∧ Service.ledger (Service.process_notification Fixtures.publishing_store Fixtures.alert_request)
      !! ("report-1", "admin-1", "report", "email")
    = Service.ledger Fixtures.publishing_store !! ("report-1", "admin-1", "report", "email").
Proof.
  split.
  - rewrite (proj1 (C5_template_resolution Fixtures.publishing_store Fixtures.alert_request)
               "user-1" Service.slack);
      [vm_compute; reflexivity|apply list_elem_of_In; simpl; auto|vm_compute; reflexivity].
  - apply (proj2 (C5_template_resolution Fixtures.publishing_store Fixtures.alert_request)).
    discriminate.
Defined.


Lemma C7_witness :
  Service.handle Fixtures.admin (Service.CreatePreferences "*" Fixtures.alert_preferences)
    Fixtures.publishing_store = Service.Err Service.Conflict
  ∧ Service.handle Fixtures.admin (Service.CreateConfig "*" Fixtures.global_payload)
      Fixtures.publishing_store = Service.Err Service.Conflict
  ∧ Service.handle Fixtures.admin (Service.GetPreferences "*")
      (Fixtures.store_of (Service.handle Fixtures.admin (Service.DeletePreferences "*")
                            Fixtures.publishing_store) Fixtures.publishing_store)
    = Service.Err Service.NotFound
  ∧ Service.handle Fixtures.admin (Service.GetConfig "*")
      (Fixtures.store_of (Service.handle Fixtures.admin (Service.DeleteConfig "*")
                            Fixtures.publishing_store) Fixtures.publishing_store)
    = Service.Err Service.NotFound
  ∧ Service.handle Fixtures.alice (Service.UpdatePreferences "" Fixtures.alert_preferences)
      Fixtures.empty_store = Service.Err Service.NotFound
  ∧ Service.handle Fixtures.alice (Service.UpdateConfig "" Fixtures.user_slack_payload)
      Fixtures.empty_store = Service.Err Service.NotFound.
Proof.
  destruct C7_conflict_and_not_found as (H1 & H2 & H3 & H4 & H5 & H6).
  split; [|split; [|split; [|split; [|split]]]].
  - apply H1; vm_compute; [reflexivity|eexists; reflexivity|eexists; reflexivity].
  - eapply H2; vm_compute; [reflexivity|eexists; reflexivity|reflexivity|reflexivity].
  - apply (H3 Fixtures.admin "*" Fixtures.publishing_store 200). vm_compute. reflexivity.
  - apply (H4 Fixtures.admin "*" Fixtures.publishing_store 200). vm_compute. reflexivity.
  - apply (proj2 (H5 Fixtures.alice "" Fixtures.alert_preferences Fixtures.empty_store
                      eq_refl eq_refl)); [discriminate|].
    intros raw [= <-]. vm_compute. eexists. reflexivity.
  - apply (proj2 (H6 Fixtures.alice "" Fixtures.user_slack_payload Fixtures.empty_store
                      eq_refl eq_refl)); [discriminate|].
    intros c [= <-]. reflexivity.
Defined.

Lemma C8_witness :
  (∃ sn, Service.schedules Fixtures.sched_store !! "sched-1" = Some sn
         ∧ Service.status sn = Service.active)
  ∧ (∃ s' sn', Service.handle_schedule Fixtures.alice "" (Service.PauseSchedule "sched-1")
                 Fixtures.sched_store = Service.Ok 200 s'
       ∧ Service.schedules s' !! "sched-1" = Some sn' ∧ Service.status sn' = Service.paused)
  ∧ (∀ n, n ∈ Service.trigger (fun _ _ => true) 0 Fixtures.paused_store →
          Service.n_id n ≠ "sched-1").
Proof.
  destruct C8_schedule_lifecycle as (H1 & H2 & _ & _ & _ & H6).
  split; [|split].
  - apply (H1 Fixtures.alice "sched-1" "alert" Fixtures.alert_vars "cron(0 9 * * ? *)"
             Fixtures.empty_store 201). vm_compute. reflexivity.
  - eapply H2; vm_compute; reflexivity.
  - eapply H6; vm_compute; reflexivity.
Defined.

(* ================================================================== *)
(** ** Further properties of the code *)
(* ================================================================== *)

Module Extras.
Import Queue Client Resources ClientFacts.

(** The template helpers address the template resources of the API:
    whatever the context, type and channel, the request goes to a path
    under the API's base URL that API Gateway serves with
    [template_handler], the [type#channel] id being one segment once
    quoted. *)
Theorem templates_requests_routed u context type channel content r :
  create_template u context type channel content = Some r
  ∨ get_templates_list u context = Some r
  ∨ get_template_by_id u context type channel = Some r
  ∨ update_template u context type channel content = Some r
  ∨ delete_template u context type channel = Some r →
  ∃ path, req_url r = api_gateway_url u ++ path
          ∧ route_lookup (req_method r) path = Some "template_handler".
Proof.
  pose proof (quote_clean (type ++ "#" ++ channel)) as Hq.
  pose proof (quote_nonempty_hash type channel) as Hne.
  set (q := quote (type ++ "#" ++ channel)) in *.
  assert (Hcl : ∀ pre, Forall seg_clean pre → Forall seg_clean (pre ++ [q])%list).
  { intros pre Hp. apply Forall_app; split; [done|]. repeat constructor; done. }
  assert (Hfix : Forall seg_clean ["api"; "v1"; "templates"]).
  { repeat constructor; unfold seg_clean; simpl; repeat constructor; discriminate. }
  assert (Hqe : String.eqb q "" = false) by (apply String.eqb_neq; done).
  intros [H|[H|[H|[H|H]]]]; apply make_api_request_some in H as (-> & -> & _).
  - exists (String.concat "/" (["api"; "v1"] ++ ["templates"])%list ++ ""). split; [done|].
    rewrite route_lookup_segments by auto. done.
  - exists (String.concat "/" (["api"; "v1"] ++ ["templates"])%list ++ String "?" ("context=" ++ context)).
    split; [done|]. rewrite route_lookup_segments by eauto. done.
  - exists (String.concat "/" (["api"; "v1"; "templates"] ++ [q])%list ++ String "?" ("context=" ++ context)).
    split; [done|]. rewrite route_lookup_segments by eauto. simpl. rewrite Hqe. done.
  - exists (String.concat "/" (["api"; "v1"; "templates"] ++ [q])%list ++ "").
    split; [rewrite string_app_nil_r; done|]. rewrite route_lookup_segments by eauto. simpl. rewrite Hqe. done.
  - exists (String.concat "/" (["api"; "v1"; "templates"] ++ [q])%list ++ String "?" ("context=" ++ context)).
    split; [done|]. rewrite route_lookup_segments by eauto. simpl. rewrite Hqe. done.
Qed.

(** The preference and system-config helpers address the resources of
    their handlers: every request they build goes to a path under the
    API's base URL that API Gateway serves with [preference_handler],
    respectively [config_handler], with the method the helper uses. *)
Theorem preferences_config_requests_routed u context a b c limit next_token r :
  (create_user_preferences u context a b c = Some r
   ∨ get_user_preferences u context = Some r
   ∨ get_user_preferences_list u limit next_token = Some r
   ∨ update_user_preferences u context a b c = Some r
   ∨ delete_user_preferences u context = Some r →
   ∃ path, req_url r = api_gateway_url u ++ path
           ∧ route_lookup (req_method r) path = Some "preference_handler")
  ∧ (create_system_config u context a b = Some r
     ∨ get_system_config u context = Some r
     ∨ get_system_config_list u limit next_token = Some r
     ∨ update_system_config u context a b = Some r
     ∨ delete_system_config u context = Some r →
     ∃ path, req_url r = api_gateway_url u ++ path
             ∧ route_lookup (req_method r) path = Some "config_handler").
Proof.
  pose proof literal_clean_preferences as Hpc. pose proof literal_clean_config as Hcc.
  split; intros [H|[H|[H|[H|H]]]].
  - unfold create_user_preferences in H.
    destruct (py_truthy a); [|discriminate]; destruct (py_truthy b); [|discriminate];
      destruct (py_truthy c); [|discriminate]; simpl in H.
    eapply (request_routed _ _ "preferences" ""); [exact H | done | by left | reflexivity].
  - eapply (request_routed _ _ "preferences" (String "?" ("context=" ++ context))); [exact H | done | right; eexists; reflexivity | reflexivity].
  - unfold get_user_preferences_list in H.
    destruct (list_path "/preferences" limit next_token) as [path|] eqn:E; [|discriminate].
    simpl in H. apply list_path_shape in E as [->|[q ->]].
    + eapply (request_routed _ _ "preferences" ""); [exact H | done | by left | reflexivity].
    + eapply (request_routed _ _ "preferences" (String "?" q)); [exact H | done | right; eexists; reflexivity | reflexivity].
  - eapply (request_routed _ _ "preferences" ""); [exact H | done | by left | reflexivity].
  - eapply (request_routed _ _ "preferences" (String "?" ("context=" ++ context))); [exact H | done | right; eexists; reflexivity | reflexivity].
  - unfold create_system_config in H.
    destruct (py_truthy a); [|discriminate]; destruct (py_truthy b); [|discriminate]; simpl in H.
    eapply (request_routed _ _ "config" ""); [exact H | done | by left | reflexivity].
  - eapply (request_routed _ _ "config" (String "?" ("context=" ++ context))); [exact H | done | right; eexists; reflexivity | reflexivity].
  - unfold get_system_config_list in H.
    destruct (list_path "/config" limit next_token) as [path|] eqn:E; [|discriminate].
    simpl in H. apply list_path_shape in E as [->|[q ->]].
    + eapply (request_routed _ _ "config" ""); [exact H | done | by left | reflexivity].
    + eapply (request_routed _ _ "config" (String "?" q)); [exact H | done | right; eexists; reflexivity | reflexivity].
  - eapply (request_routed _ _ "config" ""); [exact H | done | by left | reflexivity].
  - eapply (request_routed _ _ "config" (String "?" ("context=" ++ context))); [exact H | done | right; eexists; reflexivity | reflexivity].
Qed.

(** The user helpers address [user_handler]: [get_users_list] always,
    and [get_user_by_id], which puts the id into the path unquoted, when
    the id is a non-empty string of unreserved characters (letters,
    digits, [_ . - ~]) other than the dot segments [.] and [..]. Such a
    path is one that requests and urllib3 send unchanged: they neither
    requote it nor remove dot segments from it. *)
Theorem users_requests_routed u uid r :
  uid ≠ "" → uid ≠ "." → uid ≠ ".." →
  Forall (fun c => always_safe c = true) (String.list_ascii_of_string uid) →
  get_users_list u = Some r ∨ get_user_by_id u uid = Some r →
  ∃ path, req_url r = api_gateway_url u ++ path
          ∧ route_lookup (req_method r) path = Some "user_handler".
Proof.
  intros Hne _ _ Hsafe.
  assert (Hcl : seg_clean uid).
  { unfold seg_clean. eapply Forall_impl; [exact Hsafe|].
    intros c Hc. repeat split; intros ->; vm_compute in Hc; discriminate Hc. }
  intros [H|H]; apply make_api_request_some in H as (-> & -> & _).
  - exists (String.concat "/" (["api"; "v1"] ++ ["users"])%list ++ ""). split; [done|].
    rewrite route_lookup_segments by (auto using literal_clean_users). done.
  - exists (String.concat "/" (["api"; "v1"; "users"] ++ [uid])%list ++ "").
    split; [rewrite string_app_nil_r; done|].
    rewrite route_lookup_segments.
    + simpl. replace (String.eqb uid "") with false by (symmetry; apply String.eqb_neq; done). done.
    + apply Forall_app; split; [apply literal_clean_users|]. by constructor.
    + by left.
Qed.

(** [quote] with [safe=''] only emits ASCII letters, digits, [_ . - ~]
    and [%]: in particular no [/], [?], [#] or [&], so a quoted value is
    a single path segment. *)
Theorem quote_output_charset s :
  Forall (fun c => always_safe c = true ∨ c = "%"%char) (String.list_ascii_of_string (quote s)).
Proof.
  eapply Forall_impl; [apply quote_chars|]. intros c Hc.
  unfold safe_or_percent in Hc. apply orb_true_iff in Hc as [Hc|Hc]; [by left|].
  right. by apply Ascii.eqb_eq.
Qed.

(** [quote] loses nothing: two strings with the same quoted form are equal. *)
Theorem quote_injective s t : quote s = quote t → s = t.
Proof.
  intros H. rewrite <- (unquote_quote s), <- (unquote_quote t), H. done.
Qed.

(** The request [get_template_by_id] sends identifies the template: for
    types without [#] and contexts of unreserved characters (letters,
    digits, [_ . - ~]), two calls against the same API send the same URL
    only for the same context, type and channel. The context goes into
    the query unencoded; with unreserved characters only, and the quoted
    id made of unreserved characters and [%XX] of other bytes, requests
    and urllib3 send the URL the client builds unchanged. *)
Theorem template_request_identifies_template u u' context context' type type' channel channel' r r' :
  Forall (fun c => always_safe c = true) (String.list_ascii_of_string context) →
  Forall (fun c => always_safe c = true) (String.list_ascii_of_string context') →
  Forall (fun c : ascii => c ≠ "#"%char) (String.list_ascii_of_string type) →
  Forall (fun c : ascii => c ≠ "#"%char) (String.list_ascii_of_string type') →
  api_gateway_url u = api_gateway_url u' →
  get_template_by_id u context type channel = Some r →
  get_template_by_id u' context' type' channel' = Some r' →
  req_url r = req_url r' →
  context = context' ∧ type = type' ∧ channel = channel'.
Proof.
  intros _ _ Ht Ht' Hbase H H' Heq.
  apply make_api_request_some in H as (Hu & _ & _).
  apply make_api_request_some in H' as (Hu' & _ & _).
  rewrite Hu, Hu', Hbase in Heq.
  apply string_app_inv_l, string_app_inv_l, string_app_inv_l in Heq.
  assert (Hq : ∀ s, Forall (fun c : ascii => c ≠ "?"%char) (String.list_ascii_of_string (quote s))).
  { intros s0. eapply Forall_impl; [apply quote_clean|]. naive_solver. }
  apply app_sep_inj in Heq as [Hq1 Hc]; [|apply Hq|apply Hq].
  apply quote_injective in Hq1. apply app_sep_inj in Hq1 as [-> ->]; [|done..].
  split; [congruence|done].
Qed.

(** The listing helpers send a query string exactly when a truthy
    [limit] or [next_token] is given: a falsy one ([None], [0], [""]) is
    left out, and with both falsy the path has no [?] at all. *)
Theorem list_path_query base limit next_token p :
  list_path base limit next_token = Some p →
  (p = base ↔ py_truthy limit = Some false ∧ py_truthy next_token = Some false).
Proof.
  unfold list_path.
  destruct (py_truthy limit) as [[]|]; [| |discriminate]; simpl;
  destruct (py_truthy next_token) as [[]|]; try discriminate; simpl;
  try (destruct (py_format limit) as [sl|]; [|discriminate]); simpl;
  try (destruct (py_format next_token) as [sn|]; [|discriminate]); simpl;
  intros [= <-]; rewrite ?string_app_cons; simpl;
  (split; [intros E; exfalso; by eapply string_app_neq_self|intros [? ?]; discriminate])
  || (split; [done|]; done).
Qed.

(** [create_user_preferences] and [create_system_config] test their
    optional arguments for truthiness, the [update_*] helpers only for
    [None]: a create call sends the body the update call would send with
    every falsy optional argument (such as [{}], [""] or [0]) replaced by
    [None], i.e. left out. *)
Theorem create_body_drops_falsy u context a b c :
  py_truthy a ≠ None → py_truthy b ≠ None → py_truthy c ≠ None →
  req_json <$> create_user_preferences u context a b c
  = req_json <$> update_user_preferences u context (none_if_falsy a) (none_if_falsy b) (none_if_falsy c)
  ∧ req_json <$> create_system_config u context a b
    = req_json <$> update_system_config u context (none_if_falsy a) (none_if_falsy b).
Proof.
  intros Ha Hb Hc.
  destruct (py_truthy a) as [ta|] eqn:Ea; [|done].
  destruct (py_truthy b) as [tb|] eqn:Eb; [|done].
  destruct (py_truthy c) as [tc|] eqn:Ec; [|done].
  unfold create_user_preferences, update_user_preferences, create_system_config, update_system_config.
  rewrite Ea, Eb, Ec. simpl.
  destruct (none_if_falsy_cases a ta Ea) as [(-> & Na & Ra)|(-> & Na)];
  destruct (none_if_falsy_cases b tb Eb) as [(-> & Nb & Rb)|(-> & Nb)];
  destruct (none_if_falsy_cases c tc Ec) as [(-> & Nc & Rc)|(-> & Nc)];
  rewrite ?Na, ?Nb, ?Nc, ?Ra, ?Rb, ?Rc; split; apply make_api_request_json.
Qed.

(** The three notification helpers publish a message of their own type
    whose [variables] object has the helper's keys in source order, each
    bound to the serialised argument, as soon as every argument
    serialises; a non-list [recipients] is wrapped in a list. *)
Theorem notification_helpers_publish id recipients x1 x2 x3 x4 jid jr j1 j2 j3 j4 :
  json_dumps id = Some jid → json_dumps recipients = Some jr →
  json_dumps x1 = Some j1 → json_dumps x2 = Some j2 →
  json_dumps x3 = Some j3 → json_dumps x4 = Some j4 →
  let jrec := match recipients with PyList _ => jr | _ => JArr [jr] end in
  send_alert_notification id recipients x1 x2 x3 x4
  = Published (JObj [("id", jid); ("type", JStr "alert"); ("recipients", jrec);
                     ("variables", JObj [("serverName", j1); ("environment", j2);
                                         ("status", j3); ("message", j4)])])
  ∧ send_report_notification id recipients x1 x2 x3
    = Published (JObj [("id", jid); ("type", JStr "report"); ("recipients", jrec);
                       ("variables", JObj [("reportType", j1); ("period", j2); ("data", j3)])])
  ∧ send_general_notification id recipients x1 x2 x3
    = Published (JObj [("id", jid); ("type", JStr "notification"); ("recipients", jrec);
                       ("variables", JObj [("title", j1); ("message", j2); ("actionUrl", j3)])]).
Proof.
  intros Hid Hr H1 H2 H3 H4 jrec.
  assert (Hrec : json_dumps (match recipients with PyList _ => recipients | _ => PyList [recipients] end)
                 = Some jrec).
  { subst jrec. destruct recipients; try exact Hr; rewrite json_dumps_single, Hr; done. }
  unfold send_alert_notification, send_report_notification, send_general_notification,
    send_notification_to_queue.
  simpl. rewrite Hid, Hrec, H1, H2, H3, H4. simpl. done.
Qed.

(** When [authenticate_user] returns [True], the three tokens are those of
    the response's [AuthenticationResult], [user_id] is the [sub] claim of
    the decoded access token, and nothing else of the user changed. *)
Theorem authenticate_user_success jwt_decode response u u' :
  authenticate_user jwt_decode response u = (true, u') →
  ∃ rsp tokens decoded,
    response = Some rsp ∧ py_getitem rsp "AuthenticationResult" = Some tokens
    ∧ py_getitem tokens "IdToken" = Some (id_token u')
    ∧ py_getitem tokens "AccessToken" = Some (access_token u')
    ∧ py_getitem tokens "RefreshToken" = Some (refresh_token u')
    ∧ jwt_decode (access_token u') = Some decoded
    ∧ py_getitem decoded "sub" = Some (user_id u')
    ∧ email u' = email u ∧ password u' = password u ∧ role u' = role u ∧ region u' = region u
    ∧ user_pool_id u' = user_pool_id u ∧ user_pool_client_id u' = user_pool_client_id u
    ∧ api_gateway_url u' = api_gateway_url u
    ∧ notification_queue_url u' = notification_queue_url u.
Proof.
  unfold authenticate_user, catch_all, mbind, PyM_bind, mret, PyM_ret, lift, assign.
  destruct response as [rsp|]; [|intros; simplify_eq].
  destruct (py_getitem rsp "AuthenticationResult") as [tokens|] eqn:E1; [|intros; simplify_eq].
  destruct (py_getitem tokens "IdToken") as [it|] eqn:E2; [|intros; simplify_eq].
  destruct (py_getitem tokens "AccessToken") as [acc|] eqn:E3; [|intros; simplify_eq].
  destruct (py_getitem tokens "RefreshToken") as [rt|] eqn:E4; [|intros; simplify_eq].
  destruct (jwt_decode acc) as [d|] eqn:E5; [|intros; simplify_eq].
  destruct (py_getitem d "sub") as [sub|] eqn:E6; [|intros; simplify_eq].
  intros [= <-]. exists rsp, tokens, d. simpl. auto 20.
Qed.

(** When [authenticate_user] returns [False], the user's [user_id] and
    its fields other than the three tokens are unchanged. *)
Theorem authenticate_user_failure_keeps_user_id jwt_decode response u u' :
  authenticate_user jwt_decode response u = (false, u') →
  user_id u' = user_id u
  ∧ email u' = email u ∧ password u' = password u ∧ role u' = role u ∧ region u' = region u
  ∧ user_pool_id u' = user_pool_id u ∧ user_pool_client_id u' = user_pool_client_id u
  ∧ api_gateway_url u' = api_gateway_url u
  ∧ notification_queue_url u' = notification_queue_url u.
Proof.
  unfold authenticate_user, catch_all, mbind, PyM_bind, mret, PyM_ret, lift, assign.
  destruct response as [rsp|]; [|intros [= <-]; auto 20].
  destruct (py_getitem rsp "AuthenticationResult") as [tokens|]; [|intros [= <-]; auto 20].
  destruct (py_getitem tokens "IdToken") as [it|]; [|intros [= <-]; auto 20].
  destruct (py_getitem tokens "AccessToken") as [acc|]; [|intros [= <-]; simpl; auto 20].
  destruct (py_getitem tokens "RefreshToken") as [rt|]; [|intros [= <-]; simpl; auto 20].
  destruct (jwt_decode acc) as [d|]; [|intros [= <-]; simpl; auto 20].
  destruct (py_getitem d "sub") as [sub|]; [|intros [= <-]; simpl; auto 20].
  discriminate.
Qed.

(** The assignments [authenticate_user] makes before an exception stay:
    a response without [RefreshToken] makes it return [False] with the
    id and access tokens already replaced by those of the response. *)
Theorem authenticate_user_partial_update jwt_decode rsp tokens it acc u :
  py_getitem rsp "AuthenticationResult" = Some tokens →
  py_getitem tokens "IdToken" = Some it →
  py_getitem tokens "AccessToken" = Some acc →
  py_getitem tokens "RefreshToken" = None →
  authenticate_user jwt_decode (Some rsp) u = (false, set_access_token acc (set_id_token it u)).
Proof.
  intros H1 H2 H3 H4.
  unfold authenticate_user, catch_all, mbind, PyM_bind, mret, PyM_ret, lift, assign.
  rewrite H1, H2, H3, H4. done.
Qed.

(** [create_user] makes its AWS calls in one fixed order, each only when
    the previous one returned: the calls made always form a non-empty
    prefix of [admin_create_user], [admin_set_user_password],
    [admin_get_user] and the [put_item] to the users table. *)
Theorem create_user_call_order u create_resp set_resp get_resp put_resp created_at updated_at :
  ∃ item,
    let calls := snd (create_user u create_resp set_resp get_resp put_resp created_at updated_at) in
    calls ≠ []
    ∧ calls `prefix_of` [CognitoCall "admin_create_user"; CognitoCall "admin_set_user_password";
                        CognitoCall "admin_get_user"; PutItem "notification-service-users-dev" item].
Proof.
  unfold create_user.
  repeat case_match; simplify_eq/=;
    eexists; (split; [discriminate|]); eexists; reflexivity.
  Unshelve. all: exact PyNone.
Qed.

(** A value other than [False] returned by [create_user] is the
    [Username] that [admin_get_user] reported, and it comes after all four
    calls were made: the last one wrote the dev users table an item whose
    [userId] is that value and whose [email] and [role] are the user's. *)
Theorem create_user_returns_written_id u create_resp set_resp get_resp put_resp created_at updated_at v calls :
  create_user u create_resp set_resp get_resp put_resp created_at updated_at = (Returned v, calls) →
  v ≠ PyBool false →
  ∃ got item,
    get_resp = inl got ∧ py_getitem got "Username" = Some v
    ∧ calls = [CognitoCall "admin_create_user"; CognitoCall "admin_set_user_password";
               CognitoCall "admin_get_user"; PutItem "notification-service-users-dev" item]
    ∧ py_getitem item "userId" = Some (attr_s v)
    ∧ py_getitem item "email" = Some (attr_s (PyStr (email u)))
    ∧ py_getitem item "role" = Some (attr_s (PyStr (role u))).
Proof.
  intros H Hv. unfold create_user in H.
  repeat case_match; simplify_eq/=; try congruence.
  do 2 eexists. split; [reflexivity|]. split; [done|]. split; [reflexivity|]. done.
Qed.

(** When [admin_create_user] answers with an [HTTPStatusCode] other than
    [200], [create_user] raises [Exception] right away: no password is
    set and nothing is written to DynamoDB. *)
Theorem create_user_non_200_raises u create_resp set_resp get_resp put_resp created_at updated_at rsp meta code :
  create_resp = inl rsp →
  py_getitem rsp "ResponseMetadata" = Some meta →
  py_getitem meta "HTTPStatusCode" = Some code →
  code ≠ PyInt 200 →
  create_user u create_resp set_resp get_resp put_resp created_at updated_at
  = (Reraised "Exception", [CognitoCall "admin_create_user"]).
Proof.
  intros -> Hm Hc Hne. unfold create_user. rewrite Hm. simpl. rewrite Hc.
  destruct code; try done. destruct (Z.eqb_spec z 200); [subst; done|done].
Qed.

(** Whatever the environment name, the construct ids the stack's methods
    give the constructs they create in the stack are pairwise distinct:
    the resource ids [<Prefix>-<env>] differ by prefix, and the output
    ids contain no [-]. *)
Theorem construct_ids_distinct environment_name : NoDup (construct_ids environment_name).
Proof.
  unfold construct_ids. apply NoDup_app. split; [|split].
  - apply NoDup_map_inj; [intros x y H; by apply string_app_inv_r in H|].
    apply (bool_decide_unpack _). vm_compute. reflexivity.
  - intros x Hx Hy. apply list_elem_of_In, in_map_iff in Hx as (p & <- & _).
    assert (Hdash : "-"%char ∈ String.list_ascii_of_string (p ++ "-" ++ environment_name)).
    { rewrite !list_ascii_of_string_app. simpl. set_solver. }
    revert Hdash. unfold output_ids in Hy.
    repeat (apply elem_of_cons in Hy as [Hy|Hy]; [rewrite Hy; vm_compute; set_solver|]).
    by apply elem_of_nil in Hy.
  - apply (bool_decide_unpack _). vm_compute. reflexivity.
Qed.

(** The four table names are distinct in every environment, and the
    table [create_user] writes to is the stack's users table exactly
    when the environment is [dev]. *)
Theorem table_names_and_create_user environment_name :
  NoDup (table_names environment_name)
  ∧ ∀ u cr sr gr pr ca ua t item,
      PutItem t item ∈ snd (create_user u cr sr gr pr ca ua) →
      (t = users_table_name environment_name ↔ environment_name = "dev").
Proof.
  split.
  - unfold table_names, users_table_name, templates_table_name, preferences_table_name,
      config_table_name.
    repeat constructor; rewrite ?elem_of_cons, ?elem_of_nil;
      intros ?; repeat match goal with H : _ ∨ _ |- _ => destruct H end; try done;
      match goal with H : _ = _ |- _ => apply string_app_inv_r in H; discriminate H end.
  - intros u cr sr gr pr ca ua t item H. apply create_user_put_table in H as ->.
    unfold users_table_name. split.
    + intros H. symmetry. by apply (string_app_inv_l "notification-service-users-").
    + intros ->. done.
Qed.

(** [make_api_request] sends [str(self.id_token)] as the [Authorization]
    header, with no [Bearer] prefix: a user fresh from [__init__] sends
    the text [None], and after a successful [authenticate_user] the
    [IdToken] string of the Cognito response itself. *)
Theorem authorization_header u e p ro re pid cid api q jwt_decode rsp tokens tok u' m path body r :
  (make_api_request (__init__ e p ro re pid cid api q) m path body = Some r →
   req_headers r = [("Authorization", "None"); ("Content-Type", "application/json")])
  ∧ (authenticate_user jwt_decode (Some rsp) u = (true, u') →
     py_getitem rsp "AuthenticationResult" = Some tokens →
     py_getitem tokens "IdToken" = Some (PyStr tok) →
     make_api_request u' m path body = Some r →
     req_headers r = [("Authorization", tok); ("Content-Type", "application/json")]).
Proof.
  split.
  - unfold make_api_request. simpl. intros [= <-]. done.
  - intros Ha Ht Hi. apply authenticate_user_true_id_token in Ha as (rsp' & tokens' & [= <-] & Ht' & Hi').
    rewrite Ht in Ht'. injection Ht' as <-. rewrite Hi in Hi'. injection Hi' as Hid.
    unfold make_api_request. rewrite <- Hid. simpl. intros [= <-]. done.
Qed.

(** *** Witnesses *)

Lemma templates_requests_routed_witness :
  ∃ r, get_template_by_id sample_user "global" "alert" "email" = Some r
       ∧ ∃ path, req_url r = api_gateway_url sample_user ++ path
                 ∧ route_lookup (req_method r) path = Some "template_handler".
Proof.
  eexists. split; [reflexivity|].
  eapply (templates_requests_routed sample_user "global" "alert" "email" PyNone).
  right; right; left. reflexivity.
Defined.

Lemma preferences_config_requests_routed_witness :
  (∃ r, get_user_preferences_list sample_user (PyInt 10) PyNone = Some r
        ∧ ∃ path, req_url r = api_gateway_url sample_user ++ path
                  ∧ route_lookup (req_method r) path = Some "preference_handler")
  ∧ (∃ r, create_system_config sample_user "global" (PyDict []) (PyStr "defaults") = Some r
          ∧ ∃ path, req_url r = api_gateway_url sample_user ++ path
                    ∧ route_lookup (req_method r) path = Some "config_handler").
Proof.
  split; eexists; (split; [reflexivity|]).
  - eapply (proj1 (preferences_config_requests_routed sample_user "global" (PyDict []) (PyStr "defaults")
                     PyNone (PyInt 10) PyNone _)).
    right; right; left. reflexivity.
  - eapply (proj2 (preferences_config_requests_routed sample_user "global" (PyDict []) (PyStr "defaults")
                     PyNone (PyInt 10) PyNone _)).
    left. reflexivity.
Defined.

Lemma users_requests_routed_witness :
  ∃ r, get_user_by_id sample_user "user-123" = Some r
       ∧ ∃ path, req_url r = api_gateway_url sample_user ++ path
                 ∧ route_lookup (req_method r) path = Some "user_handler".
Proof.
  eexists. split; [reflexivity|].
  eapply (users_requests_routed sample_user "user-123").
  - discriminate.
  - discriminate.
  - discriminate.
  - simpl. repeat constructor.
  - right. reflexivity.
Defined.

Lemma quote_injective_witness : quote "alert#email" = "alert%23email" ∧ "alert#email" = "alert#email".
Proof. split; [reflexivity|]. apply quote_injective. reflexivity. Defined.

Lemma template_request_identifies_template_witness :
  ∃ r, get_template_by_id sample_user "global" "alert" "email" = Some r
       ∧ ("global" = "global" ∧ "alert" = "alert" ∧ "email" = "email").
Proof.
  eexists. split; [reflexivity|].
  eapply (template_request_identifies_template sample_user sample_user "global" "global"
            "alert" "alert" "email" "email").
  - simpl. repeat constructor.
  - simpl. repeat constructor.
  - simpl. repeat constructor; discriminate.
  - simpl. repeat constructor; discriminate.
  - reflexivity.
  - reflexivity.
  - reflexivity.
  - reflexivity.
Defined.

Lemma list_path_query_witness :
  list_path "/config" (PyInt 0) (PyStr "") = Some "/config"
  ∧ ("/config" = "/config" ↔ py_truthy (PyInt 0) = Some false ∧ py_truthy (PyStr "") = Some false).
Proof. split; [reflexivity|]. apply (list_path_query "/config" (PyInt 0) (PyStr "")). reflexivity. Defined.

Lemma create_body_drops_falsy_witness :
  req_json <$> create_user_preferences sample_user "global" (PyDict []) (PyStr "UTC") PyNone
  = req_json <$> update_user_preferences sample_user "global" (none_if_falsy (PyDict []))
                   (none_if_falsy (PyStr "UTC")) (none_if_falsy PyNone)
  ∧ req_json <$> create_system_config sample_user "global" (PyDict []) (PyStr "UTC")
    = req_json <$> update_system_config sample_user "global" (none_if_falsy (PyDict []))
                     (none_if_falsy (PyStr "UTC")).
Proof. apply (create_body_drops_falsy sample_user "global" (PyDict []) (PyStr "UTC") PyNone); discriminate. Defined.

Lemma notification_helpers_publish_witness :
  send_general_notification (PyStr "n-1") (PyStr "alice") (PyStr "Hello") (PyStr "Body") PyNone
  = Published (JObj [("id", JStr "n-1"); ("type", JStr "notification");
                     ("recipients", JArr [JStr "alice"]);
                     ("variables", JObj [("title", JStr "Hello"); ("message", JStr "Body");
                                         ("actionUrl", JNull)])]).
Proof.
  exact (proj2 (proj2 (notification_helpers_publish (PyStr "n-1") (PyStr "alice") (PyStr "Hello")
                         (PyStr "Body") PyNone PyNone (JStr "n-1") (JStr "alice") (JStr "Hello")
                         (JStr "Body") JNull JNull eq_refl eq_refl eq_refl eq_refl eq_refl eq_refl))).
Defined.

Lemma authenticate_user_success_witness :
  ∃ u', authenticate_user sample_jwt_decode (Some sample_auth_response) sample_user = (true, u')
        ∧ ∃ decoded, sample_jwt_decode (access_token u') = Some decoded
                     ∧ py_getitem decoded "sub" = Some (user_id u').
Proof.
  eexists. split; [reflexivity|].
  destruct (authenticate_user_success sample_jwt_decode (Some sample_auth_response) sample_user _ eq_refl)
    as (rsp & tokens & decoded & _ & _ & _ & _ & _ & Hd & Hs & _).
  exists decoded. split; [exact Hd|exact Hs].
Defined.

Lemma authenticate_user_failure_keeps_user_id_witness :
  ∃ u', authenticate_user sample_jwt_decode (Some sample_partial_response) sample_user = (false, u')
        ∧ user_id u' = user_id sample_user.
Proof.
  eexists. split; [reflexivity|].
  exact (proj1 (authenticate_user_failure_keeps_user_id sample_jwt_decode (Some sample_partial_response)
                  sample_user _ eq_refl)).
Defined.

Lemma authenticate_user_partial_update_witness :
  authenticate_user sample_jwt_decode (Some sample_partial_response) sample_user
  = (false, set_access_token (PyStr "acc-tok") (set_id_token (PyStr "id-tok") sample_user)).
Proof.
  apply (authenticate_user_partial_update sample_jwt_decode sample_partial_response sample_partial_tokens);
    reflexivity.
Defined.

Lemma authorization_header_witness :
  ∃ r, make_api_request (snd (authenticate_user sample_jwt_decode (Some sample_auth_response) sample_user))
         "GET" "/users" PyNone = Some r
       ∧ req_headers r = [("Authorization", "id-tok"); ("Content-Type", "application/json")].
Proof.
  eexists. split; [reflexivity|].
  eapply (proj2 (authorization_header sample_user "" "" "" "" "" "" "" "" sample_jwt_decode
                   sample_auth_response sample_tokens "id-tok" _ "GET" "/users" PyNone _));
    reflexivity.
Defined.

Lemma create_user_returns_written_id_witness :
  ∃ calls, create_user sample_user (cognito_status 200) empty_answer sample_get_user empty_answer
             "2026-01-01T00:00:00" "2026-01-01T00:00:00" = (Returned (PyStr "uuid-1"), calls)
           ∧ ∃ item, py_getitem item "userId" = Some (attr_s (PyStr "uuid-1"))
                     ∧ calls = [CognitoCall "admin_create_user"; CognitoCall "admin_set_user_password";
                                CognitoCall "admin_get_user";
                                PutItem "notification-service-users-dev" item].
Proof.
  eexists. split; [reflexivity|].
  destruct (create_user_returns_written_id sample_user (cognito_status 200) empty_answer sample_get_user
              empty_answer "2026-01-01T00:00:00" "2026-01-01T00:00:00" (PyStr "uuid-1") _ eq_refl
              ltac:(discriminate)) as (got & item & _ & _ & Hc & Hid & _).
  exists item. split; [exact Hid|exact Hc].
Defined.

Lemma create_user_non_200_raises_witness :
  create_user sample_user (cognito_status 400) empty_answer sample_get_user empty_answer "" ""
  = (Reraised "Exception", [CognitoCall "admin_create_user"]).
Proof.
  eapply create_user_non_200_raises; [reflexivity|reflexivity|reflexivity|discriminate].
Defined.

Lemma table_names_and_create_user_witness :
  "notification-service-users-dev" = users_table_name "dev" ↔ "dev" = "dev".
Proof.
  apply (proj2 (table_names_and_create_user "dev") sample_user (cognito_status 200) empty_answer
           sample_get_user empty_answer "" "" "notification-service-users-dev"
           (PyDict [(PyStr "userId", attr_s (PyStr "uuid-1"));
                    (PyStr "email", attr_s (PyStr "alice@example.com"));
                    (PyStr "role", attr_s (PyStr "user"));
                    (PyStr "isActive", PyDict [(PyStr "BOOL", PyBool true)]);
                    (PyStr "createdAt", attr_s (PyStr ""));
                    (PyStr "updatedAt", attr_s (PyStr ""))])).
  apply list_elem_of_In. simpl. right; right; right; left. reflexivity.
Defined.

End Extras.
